(** * USB Audio Class 1.0 device driver (subsys/usb/class/audio/audio.c)

    A shallow embedding of the class driver: the packed descriptor blob is a
    list of bytes addressed by offsets, the C functions that walk it by
    pointer arithmetic become functions over that list, and every memory
    access that C leaves undefined (outside the blob, a NULL table, the
    3-byte reply scratch) is an explicit [Fault]. *)

From stdpp Require Import base numbers list.

Local Open Scope Z_scope.

(** ** Machine integers *)

Definition u8 (x : Z) : Z := x mod 256.
Definition u16 (x : Z) : Z := x mod 65536.
(** [size_t] and [unsigned long] on the 32-bit targets of this tree. *)
Definition u32 (x : Z) : Z := x mod 4294967296.

(** [BIT(n)] is [(1UL << (n))]. *)
Definition BIT (n : Z) : Z := u32 (Z.shiftl 1 n).

Definition is_byte (b : Z) : Prop := 0 <= b < 256.

(** ** Faults and the result monad *)

Inductive fault : Set :=
| DescOutOfBounds      (* access outside the descriptor memory *)
| NullControls         (* dev_data->controls[device] is NULL *)
| ControlsOutOfBounds  (* controls[device][ch] outside the table *)
| NullOps              (* dev_data->ops dereferenced while NULL *)
| PayloadOutOfBounds   (* read outside the request buffer *)
| ScratchOutOfBounds   (* tmp_data_ptr[i] with 3 <= i *)
| NullDevData          (* lookup result dereferenced while NULL *)
| LoopBound.           (* bound of the model's loops; no run produces it *)

Inductive result (A : Type) : Type :=
| Ok (a : A)
| Fault (f : fault).
Arguments Ok {A} a.
Arguments Fault {A} f.

Definition bind {A B} (r : result A) (k : A -> result B) : result B :=
  match r with
  | Ok a => k a
  | Fault f => Fault f
  end.

Notation "'do' x <- r ; k" := (bind r (fun x => k))
  (at level 10, x pattern, r at level 100, k at level 200).

(** ** Descriptor memory *)

Abbreviation mem := (list Z).

Definition load8 (m : mem) (a : nat) : result Z :=
  match m !! a with
  | Some b => Ok b
  | None => Fault DescOutOfBounds
  end.

(** Multi-byte fields are little endian and unaligned ([__packed]). *)
Definition load16 (m : mem) (a : nat) : result Z :=
  do lo <- load8 m a;
  do hi <- load8 m (a + 1)%nat;
  Ok (lo + 256 * hi).

Definition store8 (m : mem) (a : nat) (v : Z) : result mem :=
  if decide (a < length m)%nat then Ok (<[a := v]> m) else Fault DescOutOfBounds.

Definition store16 (m : mem) (a : nat) (v : Z) : result mem :=
  do m1 <- store8 m a (v mod 256);
  store8 m1 (a + 1)%nat (v / 256 mod 256).

(** ** Layout constants (usb_audio_internal.h) *)

(** Modelled from the spec: [struct usb_if_descriptor] and
    [struct usb_ep_descriptor] are declared in usb/usb_common.h, which is
    not part of the sources at hand; they are the standard 9-byte interface
    descriptor (bLength, bDescriptorType, bInterfaceNumber,
    bAlternateSetting, ...) and the endpoint descriptor (bLength,
    bDescriptorType, bEndpointAddress, ...). *)
Definition USB_PASSIVE_IF_DESC_SIZE : nat := 9.
Definition IF_bInterfaceNumber : nat := 2.
Definition IF_bAlternateSetting : nat := 3.
Definition EP_bEndpointAddress : nat := 2.

Definition USB_AC_CS_IF_DESC_SIZE : nat := 7.
Definition USB_FORMAT_TYPE_I_DESC_SIZE : nat := 11.
Definition USB_STD_AS_AD_EP_DESC_SIZE : nat := 9.
Definition USB_CS_AS_AD_EP_DESC_SIZE : nat := 7.
Definition USB_ACTIVE_IF_DESC_SIZE : nat :=
  (USB_PASSIVE_IF_DESC_SIZE + USB_AC_CS_IF_DESC_SIZE +
   USB_FORMAT_TYPE_I_DESC_SIZE + USB_STD_AS_AD_EP_DESC_SIZE +
   USB_CS_AS_AD_EP_DESC_SIZE)%nat.

Definition INPUT_TERMINAL_DESC_SIZE : nat := 12.
Definition OUTPUT_TERMINAL_DESC_SIZE : nat := 9.

Definition BMA_CONTROLS_OFFSET : nat := 6.
Definition FU_FIXED_ELEMS_SIZE : Z := 7.

(** Field offsets of the packed structs. *)
Definition DESC_bLength : nat := 0.
Definition DESC_bDescriptorType : nat := 1.
Definition DESC_bDescriptorSubtype : nat := 2.
Definition DESC_bEntityID : nat := 3.        (* bTerminalID / bUnitID *)
Definition HDR_wTotalLength : nat := 5.
Definition HDR_bInCollection : nat := 7.
Definition HDR_baInterfaceNr : nat := 8.
Definition FU_bUnitID : nat := 3.
Definition FU_bmaControls : nat := 6.
Definition OT_wTerminalType : nat := 4.

(** Modelled from the spec: descriptor type codes and request-type macros
    come from usb/usb_common.h and usb/usb_device.h, outside the sources at
    hand; the values are those of the USB 2.0 specification. *)
Definition USB_INTERFACE_DESC : Z := 0x04.
Definition USB_ENDPOINT_DESC : Z := 0x05.
Definition USB_CS_INTERFACE_DESC : Z := 0x24.
Definition USB_CS_ENDPOINT_DESC : Z := 0x25.
Definition AUDIO_CLASS : Z := 0x01.
Definition USB_DC_EP_ISOCHRONOUS : Z := 0x01.
Definition REQTYPE_GET_DIR (x : Z) : Z := Z.land (Z.shiftr x 7) 0x01.
Definition REQTYPE_DIR_TO_HOST : Z := 1.
Definition REQTYPE_GET_RECIP (x : Z) : Z := Z.land x 0x1F.
Definition REQTYPE_RECIP_INTERFACE : Z := 1.
Definition REQTYPE_RECIP_ENDPOINT : Z := 2.

(** Modelled from the spec: errno.h is outside the sources at hand; the
    values are those of the C library used by the tree. *)
Definition EAGAIN : Z := 11.
Definition ENODEV : Z := 19.
Definition EINVAL : Z := 22.

(** enum audio_int_subclass_codes *)
Definition AUDIOCONTROL : Z := 0x01.
Definition AUDIOSTREAMING : Z := 0x02.

(** enum audio_cs_ac_int_desc_subtypes *)
Definition AC_DESCRIPTOR_UNDEFINED : Z := 0x00.
Definition HEADER : Z := 0x01.
Definition INPUT_TERMINAL : Z := 0x02.
Definition OUTPUT_TERMINAL : Z := 0x03.
Definition MIXER_UNIT : Z := 0x04.
Definition SELECTOR_UNIT : Z := 0x05.
Definition FEATURE_UNIT : Z := 0x06.
Definition PROCESSING_UNIT : Z := 0x07.
Definition EXTENSION_UNIT : Z := 0x08.

(** enum audio_cs_as_int_desc_subtypes *)
Definition AS_GENERAL : Z := 0x01.
Definition FORMAT_TYPE : Z := 0x02.

(** enum audio_cs_req_codes *)
Definition SET_CUR : Z := 0x01.
Definition GET_CUR : Z := 0x81.

(** enum terminal_types (the ones the driver names) *)
Definition USB_STREAMING : Z := 0x0101.
Definition IN_MICROPHONE : Z := 0x0201.
Definition OUT_HEADPHONES : Z := 0x0302.
Definition IO_HEADSET : Z := 0x0402.

(** enum feature_unit_control_selectors *)
Definition FU_CONTROL_UNDEFINED : Z := 0x00.
Definition MUTE_CONTROL : Z := 0x01.
Definition VOLUME_CONTROL : Z := 0x02.
Definition BASS_CONTROL : Z := 0x03.
Definition MID_CONTROL : Z := 0x04.
Definition TREBLE_CONTROL : Z := 0x05.
Definition GRAPHIC_EQUALIZER_CONTROL : Z := 0x06.
Definition AUTOMATIC_GAIN_CONTROL : Z := 0x07.
Definition DELAY_CONTROL : Z := 0x08.
Definition BASS_BOOST_CONTROL : Z := 0x09.
Definition LOUDNESS_CONTROL : Z := 0x0A.

Inductive direction : Set := IN | OUT.

Definition AUDIO_EP_SIZE : Z := 192.

(** ** Descriptor accessors *)

(** [(fu->bLength - FU_FIXED_ELEMS_SIZE)/sizeof(u16_t)], the subtraction in
    [int], the division in [size_t], the result narrowed to [u8_t]. *)
Definition get_num_of_channels (m : mem) (fu : nat) : result Z :=
  do bLength <- load8 m (fu + DESC_bLength)%nat;
  Ok (u8 (u32 (bLength - FU_FIXED_ELEMS_SIZE) / 2)).

Definition get_controls (m : mem) (fu : nat) : result Z :=
  load16 m (fu + BMA_CONTROLS_OFFSET)%nat.

Definition get_fu_dir (m : mem) (fu : nat) : result direction :=
  do bLength <- load8 m (fu + DESC_bLength)%nat;
  let ot := (fu + Z.to_nat bLength)%nat in
  do wTerminalType <- load16 m (ot + OT_wTerminalType)%nat;
  Ok (if decide (wTerminalType = USB_STREAMING) then IN else OUT).

(** ** Driver state (usb_audio.h, audio.c) *)

(** [struct controls]; [bool] fields hold the raw byte [memcpy] put there. *)
Record controls : Set := mk_controls {
  mute : Z;
  volume : Z;
  tone_control : list Z;
  graphic_equalizer : Z;
  automatic_gain_control : Z;
  delay : Z;
  bass_boost : Z;
  loudness : Z
}.

Definition set_mute (c : controls) (v : Z) : controls :=
  mk_controls v (volume c) (tone_control c) (graphic_equalizer c)
              (automatic_gain_control c) (delay c) (bass_boost c) (loudness c).

(** [struct audio_ops]: a callback pointer is either NULL or registered. *)
Record audio_ops : Set := mk_audio_ops {
  data_request_cb : bool;
  data_written_cb : bool;
  data_received_cb : bool;
  feature_update_cb : bool
}.

(** Calls that leave the driver: observer callbacks and the transport and
    buffer-pool primitives. Devices and buffers are named by handles. *)
Inductive event : Set :=
| FeatureUpdateCb (dev : nat) (dir : direction) (cs : Z) (channel : Z)
                  (slot : nat) (val : Z)
| DataRequestCb (dev : nat)
| DataWrittenCb (dev : nat) (size : Z)
| DataReceivedCb (dev : nat) (buffer : nat) (size : Z)
| NetBufAlloc (buffer : option nat)
| NetBufUnref (buffer : nat)
| UsbRead (ep : Z) (buffer : nat) (max_len : Z)
| UsbTransfer (ep : Z) (buffer : nat) (len : Z).

(** [struct usb_audio_dev_data_t]. [header_descr] is the offset of the
    class-specific AC header inside the function's descriptor memory;
    [dev_controls] is [struct controls *controls[2]], a NULL slot is [None]. *)
Record usb_audio_dev_data_t : Type := mk_dev_data {
  ops : option audio_ops;
  dev_controls : list (option (list controls));
  header_descr : nat;
  common_dev : nat;
  rx_enable : bool;
  tx_enable : bool
}.

Definition set_dev_controls (d : usb_audio_dev_data_t)
    (c : list (option (list controls))) : usb_audio_dev_data_t :=
  mk_dev_data (ops d) c (header_descr d) (common_dev d) (rx_enable d) (tx_enable d).

Definition set_rx_enable (d : usb_audio_dev_data_t) (b : bool) : usb_audio_dev_data_t :=
  mk_dev_data (ops d) (dev_controls d) (header_descr d) (common_dev d) b (tx_enable d).

Definition set_tx_enable (d : usb_audio_dev_data_t) (b : bool) : usb_audio_dev_data_t :=
  mk_dev_data (ops d) (dev_controls d) (header_descr d) (common_dev d) (rx_enable d) b.

(** [struct usb_setup_packet] *)
Record usb_setup_packet : Set := mk_setup {
  bmRequestType : Z;
  bRequest : Z;
  wValue : Z;
  wIndex : Z;
  wLength : Z
}.

(** ** Feature unit lookup *)

(** Returns the slot ([0] or [1]) and the offset of the feature unit. *)
Definition get_feature_unit (m : mem) (audio_dev_data : usb_audio_dev_data_t)
    (fu_id : Z) : result (Z * nat) :=
  let header := header_descr audio_dev_data in
  do hlen <- load8 m (header + DESC_bLength)%nat;
  let fu := (header + Z.to_nat hlen + INPUT_TERMINAL_DESC_SIZE)%nat in
  do bUnitID <- load8 m (fu + FU_bUnitID)%nat;
  if decide (bUnitID = fu_id) then Ok (0, fu)
  else
    (* skip to the next Feature Unit *)
    do flen <- load8 m (fu + DESC_bLength)%nat;
    Ok (1, (fu + Z.to_nat flen + INPUT_TERMINAL_DESC_SIZE +
            OUTPUT_TERMINAL_DESC_SIZE)%nat).

(** ** Feature unit requests *)

(** Where [*data] points: the request buffer handed in by the stack, or the
    function-static [tmp_data_ptr]. *)
Inductive data_ptr : Set := ReqBuf | TmpData.

(** What [handle_feature_unit_req] can change: the device data, the static
    scratch [tmp_data_ptr] (declared with 3 bytes), the calls made. *)
Record fu_state : Type := mk_fu_state {
  dev_data : usb_audio_dev_data_t;
  tmp_data_ptr : list Z;
  trace : list event
}.

Definition TMP_DATA_SIZE : nat := 3.

Definition read_data (payload : list Z) (st : fu_state) (data : data_ptr)
    (off : Z) : result Z :=
  match data with
  | ReqBuf =>
      match payload !! Z.to_nat off with
      | Some b => Ok b
      | None => Fault PayloadOutOfBounds
      end
  | TmpData =>
      match tmp_data_ptr st !! Z.to_nat off with
      | Some b => Ok b
      | None => Fault ScratchOutOfBounds
      end
  end.

(** [dev_data->controls[device][ch]] *)
Definition load_controls (d : usb_audio_dev_data_t) (device : Z) (ch : Z)
    : result controls :=
  match dev_controls d !! Z.to_nat device with
  | Some (Some tbl) =>
      match tbl !! Z.to_nat ch with
      | Some c => Ok c
      | None => Fault ControlsOutOfBounds
      end
  | _ => Fault NullControls
  end.

Definition store_controls (d : usb_audio_dev_data_t) (device : Z) (ch : Z)
    (c : controls) : result usb_audio_dev_data_t :=
  match dev_controls d !! Z.to_nat device with
  | Some (Some tbl) =>
      if decide (Z.to_nat ch < length tbl)%nat then
        Ok (set_dev_controls d
              (<[Z.to_nat device := Some (<[Z.to_nat ch := c]> tbl)]> (dev_controls d)))
      else Fault ControlsOutOfBounds
  | _ => Fault NullControls
  end.

Definition store_tmp (tmp : list Z) (off : Z) (v : Z) : result (list Z) :=
  if decide ((Z.to_nat off < TMP_DATA_SIZE)%nat /\ (Z.to_nat off < length tmp)%nat)
  then Ok (<[Z.to_nat off := v]> tmp)
  else Fault ScratchOutOfBounds.

Fixpoint foldM {A B : Type} (f : A -> B -> result A) (a : A) (l : list B)
    : result A :=
  match l with
  | [] => Ok a
  | b :: l' => do a' <- f a b; foldM f a' l'
  end.

(** The running values of one pass through the channel loop. *)
Record fu_loop : Type := mk_fu_loop {
  loop_state : fu_state;
  data_offset : Z;
  ret : Z
}.

(** Body of [for (int ch = ch_start; ch < ch_end; ch++)]. *)
Definition fu_req_body (device : Z) (dir : direction) (control_selector : Z)
    (pSetup : usb_setup_packet) (payload : list Z) (data : data_ptr)
    (acc : fu_loop) (ch : Z) : result fu_loop :=
  let st := loop_state acc in
  if decide (control_selector = MUTE_CONTROL) then
    do r <-
      (if decide (bRequest pSetup = SET_CUR) then
         (* memcpy(&controls[device][ch].mute, *data + data_offset, sizeof(bool)) *)
         do v <- read_data payload st data (data_offset acc);
         do c <- load_controls (dev_data st) device ch;
         do d' <- store_controls (dev_data st) device ch (set_mute c v);
         (* if (dev_data->ops->feature_update_cb && dev_data->ops) *)
         match ops d' with
         | None => Fault NullOps
         | Some o =>
             let tr :=
               if feature_update_cb o then
                 trace st ++ [FeatureUpdateCb (common_dev d') dir control_selector
                                (u8 ch) (Z.to_nat device) v]
               else trace st in
             Ok (mk_fu_state d' (tmp_data_ptr st) tr, 0)
         end
       else if decide (bRequest pSetup = GET_CUR) then
         (* memcpy(&tmp_data_ptr[data_offset], &controls[device][ch].mute, sizeof(bool)) *)
         do c <- load_controls (dev_data st) device ch;
         do tmp' <- store_tmp (tmp_data_ptr st) (data_offset acc) (mute c);
         Ok (mk_fu_state (dev_data st) tmp' (trace st), 0)
       else Ok (st, - EINVAL));
    let '(st', ret') := r in
    Ok (mk_fu_loop st' (u8 (data_offset acc + 1)) ret')
  else
    (* VOLUME_CONTROL ... LOUDNESS_CONTROL and default: break *)
    Ok acc.

Definition handle_feature_unit_req (m : mem) (payload : list Z) (st : fu_state)
    (pSetup : usb_setup_packet) (len : Z) (data : data_ptr)
    : result (Z * fu_state * Z * data_ptr) :=
  let fu_id := Z.land (Z.shiftr (wIndex pSetup) 8) 0xFF in
  do (device, fu) <- get_feature_unit m (dev_data st) fu_id;
  do dir <- get_fu_dir m fu;
  let ch_num := Z.land (wValue pSetup) 0xFF in
  let control_selector := Z.land (Z.shiftr (wValue pSetup) 8) 0xFF in
  let ch_start := if decide (ch_num = 0xFF) then 0 else ch_num in
  do ch_end <- (if decide (ch_num = 0xFF) then get_num_of_channels m fu
                else Ok (u8 (ch_num + 1)));
  (* Error checking *)
  do ctl <- get_controls m fu;
  if decide (Z.land (BIT control_selector) (Z.shiftl ctl 1) = 0) then
    Ok (- EINVAL, st, len, data)
  else
    do nch <- get_num_of_channels m fu;
    if decide (ch_num >= nch /\ ch_num <> 0xFF) then
      Ok (- EINVAL, st, len, data)
    else
      do acc <- foldM (fu_req_body device dir control_selector pSetup payload data)
                  (mk_fu_loop st 0 (- EINVAL))
                  (seqZ ch_start (ch_end - ch_start));
      (* Process IN request *)
      if decide (REQTYPE_GET_DIR (bmRequestType pSetup) = REQTYPE_DIR_TO_HOST) then
        Ok (ret acc, loop_state acc, data_offset acc, TmpData)
      else
        Ok (ret acc, loop_state acc, len, data).

(** ** Descriptor fixup *)

(** [for (int i = 1; i < get_num_of_channels(fu); i++)
       *(fu->bmaControls + i) = fu->bmaControls[0];]
    The channel count is a [u8_t], so 256 rounds always suffice. *)
Fixpoint fix_fu_loop (fuel : nat) (m : mem) (fu : nat) (i : Z) : result mem :=
  match fuel with
  | O => Fault LoopBound
  | S fuel' =>
      do n <- get_num_of_channels m fu;
      if decide (i < n) then
        do v <- load16 m (fu + FU_bmaControls)%nat;
        do m' <- store16 m (fu + FU_bmaControls + 2 * Z.to_nat i)%nat v;
        fix_fu_loop fuel' m' fu (i + 1)
      else Ok m
  end.

Definition fix_fu_descriptors (m : mem) (iface : nat) : result mem :=
  let header := (iface + USB_PASSIVE_IF_DESC_SIZE)%nat in
  do hlen <- load8 m (header + DESC_bLength)%nat;
  let fu := (header + Z.to_nat hlen + INPUT_TERMINAL_DESC_SIZE)%nat in
  (* start from 1 as elem 0 is filled when descriptor is declared *)
  do m1 <- fix_fu_loop 256 m fu 1;
  do bInCollection <- load8 m1 (header + HDR_bInCollection)%nat;
  if decide (bInCollection = 2) then
    do flen <- load8 m1 (fu + DESC_bLength)%nat;
    let fu2 := (fu + Z.to_nat flen + INPUT_TERMINAL_DESC_SIZE +
                OUTPUT_TERMINAL_DESC_SIZE)%nat in
    fix_fu_loop 256 m1 fu2 1
  else Ok m1.

Definition audio_interface_config (m : mem) (head : nat) (bInterfaceNumber : Z)
    : result mem :=
  let iface := head in
  do m <- fix_fu_descriptors m iface;
  (* Audio Control Interface *)
  do m <- store8 m (iface + IF_bInterfaceNumber)%nat bInterfaceNumber;
  do iflen <- load8 m (iface + DESC_bLength)%nat;
  let header := (iface + Z.to_nat iflen)%nat in
  do m <- store8 m (header + HDR_baInterfaceNr + 0)%nat (u8 (bInterfaceNumber + 1));
  (* Audio Streaming Interface Passive *)
  do wTotalLength <- load16 m (header + HDR_wTotalLength)%nat;
  let iface := (header + Z.to_nat wTotalLength)%nat in
  do m <- store8 m (iface + IF_bInterfaceNumber)%nat (u8 (bInterfaceNumber + 1));
  (* Audio Streaming Interface Active *)
  do iflen <- load8 m (iface + DESC_bLength)%nat;
  let iface := (iface + Z.to_nat iflen)%nat in
  do m <- store8 m (iface + IF_bInterfaceNumber)%nat (u8 (bInterfaceNumber + 1));
  do bInCollection <- load8 m (header + HDR_bInCollection)%nat;
  if decide (bInCollection = 2) then
    do m <- store8 m (header + HDR_baInterfaceNr + 1)%nat (u8 (bInterfaceNumber + 2));
    (* Audio Streaming Interface Passive *)
    let iface := (iface + USB_ACTIVE_IF_DESC_SIZE)%nat in
    do m <- store8 m (iface + IF_bInterfaceNumber)%nat (u8 (bInterfaceNumber + 2));
    (* Audio Streaming Interface Active *)
    let iface := (iface + USB_PASSIVE_IF_DESC_SIZE)%nat in
    store8 m (iface + IF_bInterfaceNumber)%nat (u8 (bInterfaceNumber + 2))
  else Ok m.

(** ** Streaming state tracker *)

(** [for (i = 0; i < header->bInCollection; i++)
       if (set_iface->bInterfaceNumber == header->baInterfaceNr[i]) ...break]
    with [k] rounds left, starting at index [i]. *)
Fixpoint iface_listed (m : mem) (header set_iface : nat) (i k : nat) : result bool :=
  match k with
  | O => Ok false
  | S k' =>
      do a <- load8 m (set_iface + IF_bInterfaceNumber)%nat;
      do b <- load8 m (header + HDR_baInterfaceNr + i)%nat;
      if decide (a = b) then Ok true
      else iface_listed m header set_iface (S i) k'
  end.

Definition audio_dc_interface (m : mem) (audio_dev_data : usb_audio_dev_data_t)
    (set_iface : nat) : result usb_audio_dev_data_t :=
  let header := header_descr audio_dev_data in
  do bInCollection <- load8 m (header + HDR_bInCollection)%nat;
  do this <- iface_listed m header set_iface 0 (Z.to_nat bInCollection);
  if this then
    do alt <- load8 m (set_iface + IF_bAlternateSetting)%nat;
    let iface := if decide (alt = 0) then (set_iface + USB_PASSIVE_IF_DESC_SIZE)%nat
                 else set_iface in
    let ep_desc := (iface + USB_PASSIVE_IF_DESC_SIZE + USB_AC_CS_IF_DESC_SIZE +
                    USB_FORMAT_TYPE_I_DESC_SIZE)%nat in
    do bEndpointAddress <- load8 m (ep_desc + EP_bEndpointAddress)%nat;
    if decide (Z.land bEndpointAddress 0x80 <> 0) then
      Ok (set_tx_enable audio_dev_data (bool_decide (alt <> 0)))
    else
      Ok (set_rx_enable audio_dev_data (bool_decide (alt <> 0)))
  else Ok audio_dev_data.

(** ** Entity resolver *)

(** [struct usb_audio_entity]; the subtype is the raw descriptor byte. *)
Record usb_audio_entity : Set := mk_entity {
  subtype : Z;
  id : Z
}.

(** The [while (head->bLength != 0)] walk from offset [p]; every round
    advances by at least one byte, so [fuel] past the end of the memory is
    never used up. *)
Fixpoint is_entity_valid_walk (fuel : nat) (m : mem) (p : nat)
    (ent : usb_audio_entity) : result (bool * usb_audio_entity) :=
  match fuel with
  | O => Fault LoopBound
  | S fuel' =>
      do bLength <- load8 m (p + DESC_bLength)%nat;
      if decide (bLength = 0) then Ok (false, ent)
      else
        do bDescriptorType <- load8 m (p + DESC_bDescriptorType)%nat;
        do found <-
          (if decide (bDescriptorType = USB_CS_INTERFACE_DESC) then
             do bDescriptorSubtype <- load8 m (p + DESC_bDescriptorSubtype)%nat;
             if decide (bDescriptorSubtype <> HEADER) then
               do bEntityID <- load8 m (p + DESC_bEntityID)%nat;
               Ok (bool_decide (bEntityID = id ent))
             else Ok false
           else Ok false);
        if found : bool then
          do bDescriptorSubtype <- load8 m (p + DESC_bDescriptorSubtype)%nat;
          Ok (true, mk_entity bDescriptorSubtype (id ent))
        else is_entity_valid_walk fuel' m (p + Z.to_nat bLength)%nat ent
  end.

(** [interface_descriptor] is [cfg->interface_descriptor]. *)
Definition is_entity_valid (m : mem) (interface_descriptor : nat)
    (ent : usb_audio_entity) : result (bool * usb_audio_entity) :=
  is_entity_valid_walk (S (length m)) m interface_descriptor ent.

(** ** Buffer pipeline *)

(** [struct net_buf], as far as the driver looks at it: a handle and the
    capacity [size] of its data area. *)
Record net_buf : Set := mk_net_buf {
  buf_handle : nat;
  size : Z
}.

(** A device with its [usb_cfg_data]: the endpoint table holds the
    [ep_addr] of each [usb_ep_cfg_data], [interface_descriptor] is the
    offset of the function's descriptors in the descriptor memory. *)
Record audio_device : Type := mk_audio_device {
  endpoint : list Z;
  interface_descriptor : nat;
  driver_data : usb_audio_dev_data_t
}.

Definition set_driver_data (d : audio_device) (dd : usb_audio_dev_data_t)
    : audio_device :=
  mk_audio_device (endpoint d) (interface_descriptor d) dd.

(** Everything the streaming paths touch. [devices] are all audio
    devices, named by their index; [usb_audio_data_devlist] lists the
    registered ones in registration order; [audio_data_pool] holds the
    reference count of each of the pool's buffers (0: in the pool). *)
Record world : Type := mk_world {
  descriptors : mem;
  devices : list audio_device;
  usb_audio_data_devlist : list nat;
  audio_data_pool : list nat;
  calls : list event
}.

Definition set_devices (w : world) (ds : list audio_device) : world :=
  mk_world (descriptors w) ds (usb_audio_data_devlist w) (audio_data_pool w) (calls w).

Definition set_pool (w : world) (p : list nat) : world :=
  mk_world (descriptors w) (devices w) (usb_audio_data_devlist w) p (calls w).

Definition emit (w : world) (e : event) : world :=
  mk_world (descriptors w) (devices w) (usb_audio_data_devlist w)
           (audio_data_pool w) (calls w ++ [e]).

(** [NET_BUF_POOL_FIXED_DEFINE(audio_data_pool, 5, AUDIO_EP_SIZE, ...)] *)
Definition AUDIO_POOL_COUNT : nat := 5.

(** Modelled from the spec: the device lookup table (usb_device.c) is
    outside the sources at hand: "one process-wide list of all registered
    functions, searched linearly by transport-supplied keys". *)
Definition usb_get_dev_data_by_ep (w : world) (ep : Z) : option nat :=
  list_find (fun i : nat =>
               match devices w !! i with
               | Some d => bool_decide (ep ∈ endpoint d)
               | None => false
               end = true) (usb_audio_data_devlist w)
  ≫= fun r => Some r.2.

(** Modelled from the spec: lookup by configuration; a [usb_cfg_data] is
    named by the index of its device. *)
Definition usb_get_dev_data_by_cfg (w : world) (cfg : nat) : option nat :=
  if bool_decide (cfg ∈ usb_audio_data_devlist w) then Some cfg else None.

(** Modelled from the spec: the buffer pool (net/buf.c) is outside the
    sources at hand: "allocate() -> buffer | empty" never blocks, and
    "release(buffer)" gives up one reference, the buffer being back in the
    pool when none is left. *)
Definition net_buf_alloc (w : world) : option nat * world :=
  match list_find (fun r : nat => r = 0%nat) (audio_data_pool w) with
  | Some (i, _) =>
      (Some i, emit (set_pool w (<[i := 1%nat]> (audio_data_pool w)))
                    (NetBufAlloc (Some i)))
  | None => (None, emit w (NetBufAlloc None))
  end.

Definition net_buf_unref (w : world) (buffer : nat) : world :=
  emit (set_pool w (alter Nat.pred buffer (audio_data_pool w))) (NetBufUnref buffer).

(** [usb_audio_alloc_buffer] *)
Definition usb_audio_alloc_buffer (w : world) : option nat * world :=
  net_buf_alloc w.

(** [audio_write_cb(ep, size, priv)], [priv] being the buffer sent. *)
Definition audio_write_cb (w : world) (ep : Z) (size : Z) (priv : nat)
    : result world :=
  match usb_get_dev_data_by_ep w ep with
  | None => Fault NullDevData
  | Some i =>
      match devices w !! i with
      | None => Fault NullDevData
      | Some d =>
          (* audio_dev_data = dev_data->dev->driver_data *)
          let dev := common_dev (driver_data d) in
          match devices w !! dev with
          | None => Fault NullDevData
          | Some d' =>
              let audio_dev_data := driver_data d' in
              (* Release net_buf back to the pool *)
              let w := net_buf_unref w priv in
              (* Call user callback if user registered one *)
              match ops audio_dev_data with
              | Some o =>
                  if data_written_cb o then Ok (emit w (DataWrittenCb dev size))
                  else Ok w
              | None => Ok w
              end
          end
      end
  end.

(** [usb_audio_send]; the call of [usb_transfer] is recorded, its
    completion is a later [audio_write_cb]. *)
Definition usb_audio_send (w : world) (dev : nat) (buffer : net_buf) (len : Z)
    : result (Z * world) :=
  match devices w !! dev with
  | None => Fault NullDevData
  | Some d =>
      let audio_dev_data := driver_data d in
      (* EP ISO IN is always placed first in the endpoint table *)
      match endpoint d !! 0%nat with
      | None => Fault NullDevData
      | Some ep =>
          if decide (Z.land ep 0x80 = 0) then Ok (- EINVAL, w)
          else if negb (tx_enable audio_dev_data) then Ok (- EAGAIN, w)
          else if decide (len > size buffer) then Ok (- EINVAL, w)
          else Ok (0, emit w (UsbTransfer ep (buf_handle buffer) len))
      end
  end.

(** [audio_receive_cb(ep, status)]. [usb_read] stands for the transport's
    read primitive and gives its return code and the number of bytes read;
    [status] is only asserted on and left out. *)
Definition audio_receive_cb (usb_read : Z -> nat -> Z -> Z * Z) (w : world)
    (ep : Z) : world :=
  match usb_get_dev_data_by_ep w ep with
  | None => w
  | Some dev =>
      match devices w !! dev with
      | None => w
      | Some d =>
          let dev_data := driver_data d in
          if negb (rx_enable dev_data) then w
          else
            match usb_audio_alloc_buffer w with
            | (None, w) => w
            | (Some buffer, w) =>
                let '(r, ret_bytes) := usb_read ep buffer AUDIO_EP_SIZE in
                let w := emit w (UsbRead ep buffer AUDIO_EP_SIZE) in
                if decide (r <> 0) then net_buf_unref w buffer
                else if decide (ret_bytes = 0) then net_buf_unref w buffer
                else
                  match ops dev_data with
                  | Some o =>
                      if data_received_cb o
                      then emit w (DataReceivedCb (common_dev dev_data) buffer ret_bytes)
                      else w
                  | None => w
                  end
            end
      end
  end.

(** [audio_dc_sof] *)
Definition audio_dc_sof (w : world) (cfg : nat) : result world :=
  match devices w !! cfg with
  | None => Fault NullDevData
  | Some d =>
      foldM (fun (w : world) (_ : Z) =>
               match endpoint d !! 0%nat with
               | None => Fault NullDevData
               | Some ep_addr =>
                   if decide (Z.land ep_addr 0x80 <> 0) then
                     if tx_enable (driver_data d) then
                       match ops (driver_data d) with
                       | Some o =>
                           if data_request_cb o
                           then Ok (emit w (DataRequestCb (common_dev (driver_data d))))
                           else Ok w
                       | None => Ok w
                       end
                     else Ok w
                   else Ok w
               end) w (endpoint d)
  end.

(** [enum usb_dc_status_code], the two the driver looks at and the rest. *)
Inductive usb_dc_status_code : Set :=
| USB_DC_INTERFACE
| USB_DC_SOF
| USB_DC_OTHER.

(** [audio_cb_usb_status(cfg, cb_status, param)]; for [USB_DC_INTERFACE]
    [param] is the offset of the interface descriptor that was selected. *)
Definition audio_cb_usb_status (w : world) (cfg : nat)
    (cb_status : usb_dc_status_code) (param : nat) : result world :=
  match usb_get_dev_data_by_cfg w cfg with
  | None => Ok w
  | Some dev =>
      match devices w !! dev with
      | None => Fault NullDevData
      | Some d =>
          match cb_status with
          | USB_DC_INTERFACE =>
              do dd <- audio_dc_interface (descriptors w) (driver_data d) param;
              Ok (set_devices w (<[dev := set_driver_data d dd]> (devices w)))
          | USB_DC_SOF => audio_dc_sof w cfg
          | USB_DC_OTHER => Ok w
          end
      end
  end.

(** [usb_audio_register] *)
Definition usb_audio_register (w : world) (dev : nat) (o : option audio_ops)
    : result world :=
  match devices w !! dev with
  | None => Fault NullDevData
  | Some d =>
      let dd := driver_data d in
      let header := (interface_descriptor d + USB_PASSIVE_IF_DESC_SIZE)%nat in
      let dd' := mk_dev_data o (dev_controls dd) header dev false false in
      Ok (mk_world (descriptors w)
                   (<[dev := set_driver_data d dd']> (devices w))
                   (usb_audio_data_devlist w ++ [dev])
                   (audio_data_pool w) (calls w))
  end.

(** ** The descriptors the driver declares *)

Definition le16 (v : Z) : list Z := [v mod 256; v / 256 mod 256].

(** What devicetree fixes for one instance: channel count and
    configuration, the feature bitmap, sample resolution and endpoint
    address ([CH_CNT], [CH_CFG], [FEATURES], [GET_RESOLUTION], [GET_EP_ADDR]). *)
Record instance_cfg : Set := mk_instance_cfg {
  CH_CNT : nat;
  CH_CFG : Z;
  FEATURES : Z;
  RESOLUTION : Z;
  EP_ADDR : Z
}.

Definition INIT_STD_IF (iface_subclass iface_num alt_setting eps_num : Z) : list Z :=
  [9; USB_INTERFACE_DESC; iface_num; alt_setting; eps_num; AUDIO_CLASS;
   iface_subclass; 0; 0].

Definition feature_unit_size (c : instance_cfg) : Z :=
  6 + 2 * (Z.of_nat (CH_CNT c) + 1) + 1.

(** The class-specific AC header with [baInterfaceNr] given; [units] is
    the number of terminal/unit/terminal triples that follow. *)
Definition cs_ac_if_header (c : instance_cfg) (baInterfaceNr : list Z) (units : Z)
    : list Z :=
  let len := 8 + Z.of_nat (length baInterfaceNr) in
  [len; USB_CS_INTERFACE_DESC; HEADER] ++ le16 0x0100 ++
  le16 (len + units * (Z.of_nat INPUT_TERMINAL_DESC_SIZE + feature_unit_size c +
                       Z.of_nat OUTPUT_TERMINAL_DESC_SIZE)) ++
  [Z.of_nat (length baInterfaceNr)] ++ baInterfaceNr.

(** [INIT_CS_AC_IF_HEADER] and [INIT_CS_AC_IF_HEADER_BIDIR]:
    [.baInterfaceNr = {0}]. *)
Definition INIT_CS_AC_IF_HEADER (c : instance_cfg) (ifaces : nat) (units : Z)
    : list Z :=
  cs_ac_if_header c (replicate ifaces 0) units.

Definition INIT_IN_TERMINAL (c : instance_cfg) (terminal_id type : Z) : list Z :=
  [12; USB_CS_INTERFACE_DESC; INPUT_TERMINAL; terminal_id] ++ le16 type ++
  [0; Z.max 1 (Z.of_nat (CH_CNT c))] ++ le16 (CH_CFG c) ++ [0; 0].

Definition INIT_OUT_TERMINAL (terminal_id source_id type : Z) : list Z :=
  [9; USB_CS_INTERFACE_DESC; OUTPUT_TERMINAL; terminal_id] ++ le16 type ++
  [0; source_id; 0].

(** Only element 0 of [bmaControls] is filled in by the declaration. *)
Definition INIT_FEATURE_UNIT (c : instance_cfg) (unit_id source_id : Z) : list Z :=
  [feature_unit_size c; USB_CS_INTERFACE_DESC; FEATURE_UNIT; unit_id; source_id; 2] ++
  le16 (FEATURES c) ++ replicate (2 * CH_CNT c) 0 ++ [0].

Definition INIT_AS_GENERAL (link : Z) : list Z :=
  [7; USB_CS_INTERFACE_DESC; AS_GENERAL; link; 0] ++ le16 0x0001.

Definition INIT_AS_FORMAT_I (c : instance_cfg) (resolution : Z) : list Z :=
  [11; USB_CS_INTERFACE_DESC; FORMAT_TYPE; 0x01; Z.max 1 (Z.of_nat (CH_CNT c)); 2;
   resolution; 1; 0x80; 0xBB; 0x00].

Definition INIT_STD_AS_AD_EP (ep_addr mps : Z) : list Z :=
  [9; USB_ENDPOINT_DESC; ep_addr; USB_DC_EP_ISOCHRONOUS] ++ le16 mps ++ [0x01; 0x00; 0x00].

Definition INIT_CS_AS_AD_EP : list Z :=
  [7; USB_CS_ENDPOINT_DESC; 0x01; 0x00; 0x00] ++ le16 0.

(** [DEFINE_AUDIO_DESCRIPTOR(dev, i, id, link, it_type, ot_type)] *)
Definition DEFINE_AUDIO_DESCRIPTOR (c : instance_cfg) (id link it_type ot_type : Z)
    : list Z :=
  INIT_STD_IF AUDIOCONTROL 0 0 0 ++
  INIT_CS_AC_IF_HEADER c 1 1 ++
  INIT_IN_TERMINAL c id it_type ++
  INIT_FEATURE_UNIT c (id + 1) id ++
  INIT_OUT_TERMINAL (id + 2) (id + 1) ot_type ++
  INIT_STD_IF AUDIOSTREAMING 1 0 0 ++
  INIT_STD_IF AUDIOSTREAMING 1 1 1 ++
  INIT_AS_GENERAL link ++
  INIT_AS_FORMAT_I c (RESOLUTION c) ++
  INIT_STD_AS_AD_EP (EP_ADDR c) AUDIO_EP_SIZE ++
  INIT_CS_AS_AD_EP.

(** [DEFINE_AUDIO_DESCRIPTOR_BIDIR(dev, i, id)]; the microphone half takes
    its resolution and endpoint from [c], the headphones half from
    [hp_resolution] and [hp_ep_addr]. *)
Definition DEFINE_AUDIO_DESCRIPTOR_BIDIR (c : instance_cfg)
    (hp_resolution hp_ep_addr : Z) (id : Z) : list Z :=
  INIT_STD_IF AUDIOCONTROL 0 0 0 ++
  INIT_CS_AC_IF_HEADER c 2 2 ++
  INIT_IN_TERMINAL c id IO_HEADSET ++
  INIT_FEATURE_UNIT c (id + 1) id ++
  INIT_OUT_TERMINAL (id + 2) (id + 1) USB_STREAMING ++
  INIT_IN_TERMINAL c (id + 3) USB_STREAMING ++
  INIT_FEATURE_UNIT c (id + 4) (id + 3) ++
  INIT_OUT_TERMINAL (id + 5) (id + 4) IO_HEADSET ++
  INIT_STD_IF AUDIOSTREAMING 1 0 0 ++
  INIT_STD_IF AUDIOSTREAMING 1 1 1 ++
  INIT_AS_GENERAL (id + 2) ++
  INIT_AS_FORMAT_I c (RESOLUTION c) ++
  INIT_STD_AS_AD_EP (EP_ADDR c) AUDIO_EP_SIZE ++
  INIT_CS_AS_AD_EP ++
  INIT_STD_IF AUDIOSTREAMING 2 0 0 ++
  INIT_STD_IF AUDIOSTREAMING 2 1 1 ++
  INIT_AS_GENERAL (id + 3) ++
  INIT_AS_FORMAT_I c hp_resolution ++
  INIT_STD_AS_AD_EP hp_ep_addr AUDIO_EP_SIZE ++
  INIT_CS_AS_AD_EP.

(** [DEFINE_AUDIO_DEV_DATA]: one zeroed table of [CH_CNT + 1] controls, the
    second slot NULL; [DEFINE_AUDIO_DEV_DATA_BIDIR]: two tables. *)
Definition zero_controls : controls := mk_controls 0 0 [0; 0; 0] 0 0 0 0 0.

Definition DEFINE_AUDIO_DEV_DATA (c : instance_cfg) : usb_audio_dev_data_t :=
  mk_dev_data None [Some (replicate (CH_CNT c + 1) zero_controls); None]
              0 0 false false.

Definition DEFINE_AUDIO_DEV_DATA_BIDIR (c : instance_cfg) : usb_audio_dev_data_t :=
  mk_dev_data None [Some (replicate (CH_CNT c + 1) zero_controls);
                    Some (replicate (CH_CNT c + 1) zero_controls)]
              0 0 false false.

(** ** Reading a request *)

Definition req_fu_id (p : usb_setup_packet) : Z :=
  Z.land (Z.shiftr (wIndex p) 8) 0xFF.
Definition req_ch_num (p : usb_setup_packet) : Z := Z.land (wValue p) 0xFF.
Definition req_control_selector (p : usb_setup_packet) : Z :=
  Z.land (Z.shiftr (wValue p) 8) 0xFF.

(** The test the handler makes on the selector: its bit against the
    bitmap shifted left by one. *)
Definition selector_available (cs ctl : Z) : Prop :=
  Z.land (BIT cs) (Z.shiftl ctl 1) <> 0.

(** The requested channel range [ch_start, ch_end). *)
Definition req_ch_start (p : usb_setup_packet) : Z :=
  if decide (req_ch_num p = 0xFF) then 0 else req_ch_num p.
Definition req_ch_end (p : usb_setup_packet) (nch : Z) : Z :=
  if decide (req_ch_num p = 0xFF) then nch else u8 (req_ch_num p + 1).

Definition to_host (p : usb_setup_packet) : Prop :=
  REQTYPE_GET_DIR (bmRequestType p) = REQTYPE_DIR_TO_HOST.

(** The reply the stack sends: [len] bytes from where [data] points. *)
Definition reply_bytes (payload : list Z) (st : fu_state) (len : Z)
    (data : data_ptr) : list Z :=
  take (Z.to_nat len)
       (match data with ReqBuf => payload | TmpData => tmp_data_ptr st end).

(** The mute flags of [n] channels from [ch] on in slot [device]. *)
Definition mute_flags (d : usb_audio_dev_data_t) (device : Z) (ch : Z) (n : nat)
    : list Z :=
  match dev_controls d !! Z.to_nat device with
  | Some (Some tbl) => mute <$> take n (drop (Z.to_nat ch) tbl)
  | _ => []
  end.

(** ** Sample instances *)

(** A stereo headphones function (master, left, right) with mute and
    volume, on OUT endpoint 0x01, first entity id 1. *)
Definition hp_cfg : instance_cfg := mk_instance_cfg 2 3 3 16 0x01.
Definition hp_desc : mem :=
  DEFINE_AUDIO_DESCRIPTOR hp_cfg 1 1 USB_STREAMING OUT_HEADPHONES ++ [0].

(** A stereo headset function with mute and volume: microphone on IN
    endpoint 0x81, headphones on OUT endpoint 0x02. *)
Definition hs_cfg : instance_cfg := mk_instance_cfg 2 3 3 16 0x81.
Definition hs_desc : mem := DEFINE_AUDIO_DESCRIPTOR_BIDIR hs_cfg 16 0x02 1 ++ [0].

(** A function with five channels besides the master, mute only. *)
Definition wide_cfg : instance_cfg := mk_instance_cfg 5 0x3F 1 16 0x01.
Definition wide_desc : mem :=
  DEFINE_AUDIO_DESCRIPTOR wide_cfg 1 1 USB_STREAMING OUT_HEADPHONES ++ [0].

Definition sample_ops : audio_ops := mk_audio_ops false true true true.

(** Device data as [usb_audio_register] leaves it. *)
Definition registered (d : usb_audio_dev_data_t) (dev : nat) : usb_audio_dev_data_t :=
  mk_dev_data (Some sample_ops) (dev_controls d) USB_PASSIVE_IF_DESC_SIZE dev
              false false.

Definition hp_dev_data : usb_audio_dev_data_t :=
  registered (DEFINE_AUDIO_DEV_DATA hp_cfg) 0.
Definition hp_state : fu_state := mk_fu_state hp_dev_data [0; 0; 0] [].

Definition wide_dev_data : usb_audio_dev_data_t :=
  registered (DEFINE_AUDIO_DEV_DATA wide_cfg) 0.
Definition wide_state : fu_state := mk_fu_state wide_dev_data [0; 0; 0] [].

(** Requests to the headphones feature unit (entity id 2). *)
Definition hp_set_mute : usb_setup_packet := mk_setup 0x21 SET_CUR 0x0101 0x0200 1.
Definition hp_get_mute : usb_setup_packet := mk_setup 0xA1 GET_CUR 0x0101 0x0200 1.
Definition hp_get_mute_all : usb_setup_packet := mk_setup 0xA1 GET_CUR 0x01FF 0x0200 3.
Definition hp_set_mute_ch3 : usb_setup_packet := mk_setup 0x21 SET_CUR 0x0103 0x0200 1.
Definition hp_set_volume : usb_setup_packet := mk_setup 0x21 SET_CUR 0x0201 0x0200 2.

(** The headphones state once channel 1 has been muted. *)
Definition hp_state_muted : fu_state :=
  mk_fu_state
    (set_dev_controls hp_dev_data
       [Some [zero_controls; set_mute zero_controls 1; zero_controls]; None])
    [0; 0; 0]
    [FeatureUpdateCb 0 OUT MUTE_CONTROL 1 0 1].

(** ** Shape of a descriptor memory *)

Definition bytes_ok (m : mem) : Prop := Forall is_byte m.

(** Where [fix_fu_descriptors] and [get_feature_unit] look for the feature
    units: behind the AC header and the first input terminal, and behind
    the first unit, its output terminal and the second input terminal. *)
Definition first_fu (header : nat) (hlen : Z) : nat :=
  (header + Z.to_nat hlen + INPUT_TERMINAL_DESC_SIZE)%nat.
Definition next_fu (fu : nat) (flen : Z) : nat :=
  (fu + Z.to_nat flen + INPUT_TERMINAL_DESC_SIZE + OUTPUT_TERMINAL_DESC_SIZE)%nat.

(** A feature unit of [flen] bytes at [fu] that has its fixed elements and
    lies inside the memory. *)
Definition fu_fits (m : mem) (fu : nat) (flen : Z) : Prop :=
  m !! fu = Some flen /\ 7 <= flen /\ (fu + Z.to_nat flen <= length m)%nat.

(** Every channel of the unit at [fu] carries the bitmap of channel 0:
    [bmaControls[i] = bmaControls[0]] for [i] from 1 up to the channel count
    that [get_num_of_channels] derives from [bLength]. *)
Definition fu_mirrored (m : mem) (fu : nat) : Prop :=
  exists nch,
    get_num_of_channels m fu = Ok nch /\
    forall i, 1 <= i < nch ->
      exists c0,
        load16 m (fu + FU_bmaControls)%nat = Ok c0 /\
        load16 m (fu + FU_bmaControls + 2 * Z.to_nat i)%nat = Ok c0.

(** The unit at [fu] of the memory [m'] has the [bLength] [flen], and
    every channel that [bLength] gives it, [(flen - 7) / 2] of them, carries
    the bitmap that channel 0 has in the memory [m]:
    [bmaControls[i]] of [m'] is [bmaControls[0]] of [m] for
    [0 <= i < (flen - 7) / 2]. *)
Definition fu_filled (m m' : mem) (fu : nat) (flen : Z) : Prop :=
  m' !! fu = Some flen /\
  forall i : nat,
    Z.of_nat i < (flen - FU_FIXED_ELEMS_SIZE) / 2 ->
    exists c0,
      load16 m (fu + FU_bmaControls)%nat = Ok c0 /\
      load16 m' (fu + FU_bmaControls + 2 * i)%nat = Ok c0.

(** The bytes of a run of a feature unit's fixup: inside
    [bmaControls[1 ..]] they are those of [bmaControls[0]]. *)
Definition fu_fixed (m m' : mem) (fu : nat) (flen : Z) : Prop :=
  forall a : nat,
    m' !! a =
    if decide (fu + 8 <= a < fu + 6 + 2 * Z.to_nat ((flen - 7) / 2))%nat
    then m !! (if Nat.even (a - fu) then fu + 6 else fu + 7)%nat
    else m !! a.

(** The part of a function's descriptors that [audio_interface_config]
    walks, as [DECLARE_DESCRIPTOR] lays it out from [head] on: the standard
    AC interface (9 bytes), the class-specific header of [hlen] bytes whose
    [wTotalLength] is [total] and [bInCollection] is [inc], the feature
    unit(s) inside the [total] bytes of the AC block, and behind that block
    the streaming interfaces, each a 9-byte passive alternate setting and
    an active one of [USB_ACTIVE_IF_DESC_SIZE] bytes. *)
Record ac_layout (m : mem) (head : nat) (hlen total inc flen1 flen2 : Z) : Prop :=
  mk_ac_layout {
  lay_iface_len : m !! head = Some 9;
  lay_header_len : m !! (head + 9)%nat = Some hlen;
  lay_total : load16 m (head + 9 + HDR_wTotalLength)%nat = Ok total;
  lay_collection : m !! (head + 9 + HDR_bInCollection)%nat = Some inc;
  lay_fu1 : fu_fits m (first_fu (head + 9) hlen) flen1;
  lay_fu1_inside :
    (first_fu (head + 9) hlen + Z.to_nat flen1 <= head + 9 + Z.to_nat total)%nat;
  lay_fu2 :
    inc = 2 ->
    fu_fits m (next_fu (first_fu (head + 9) hlen) flen1) flen2 /\
    (next_fu (first_fu (head + 9) hlen) flen1 + Z.to_nat flen2
     <= head + 9 + Z.to_nat total)%nat;
  lay_streaming_len : m !! (head + 9 + Z.to_nat total)%nat = Some 9;
  lay_streaming :
    (head + 9 + Z.to_nat total + USB_PASSIVE_IF_DESC_SIZE + USB_ACTIVE_IF_DESC_SIZE
     <= length m)%nat;
  lay_streaming2 :
    inc = 2 ->
    (head + 9 + Z.to_nat total +
     2 * (USB_PASSIVE_IF_DESC_SIZE + USB_ACTIVE_IF_DESC_SIZE) <= length m)%nat
}.

(** ** What the fixup is to produce *)

(** A feature unit with every element of [bmaControls] filled in. *)
Definition FILLED_FEATURE_UNIT (c : instance_cfg) (unit_id source_id : Z) : list Z :=
  [feature_unit_size c; USB_CS_INTERFACE_DESC; FEATURE_UNIT; unit_id; source_id; 2] ++
  concat (replicate (CH_CNT c + 1) (le16 (FEATURES c))) ++ [0].

(** The descriptors of [DEFINE_AUDIO_DESCRIPTOR] numbered from [N]. *)
Definition configured_descriptor (c : instance_cfg) (id link it_type ot_type : Z)
    (N : Z) : list Z :=
  INIT_STD_IF AUDIOCONTROL N 0 0 ++
  cs_ac_if_header c [N + 1] 1 ++
  INIT_IN_TERMINAL c id it_type ++
  FILLED_FEATURE_UNIT c (id + 1) id ++
  INIT_OUT_TERMINAL (id + 2) (id + 1) ot_type ++
  INIT_STD_IF AUDIOSTREAMING (N + 1) 0 0 ++
  INIT_STD_IF AUDIOSTREAMING (N + 1) 1 1 ++
  INIT_AS_GENERAL link ++
  INIT_AS_FORMAT_I c (RESOLUTION c) ++
  INIT_STD_AS_AD_EP (EP_ADDR c) AUDIO_EP_SIZE ++
  INIT_CS_AS_AD_EP.

(** The descriptors of [DEFINE_AUDIO_DESCRIPTOR_BIDIR] numbered from [N]. *)
Definition configured_descriptor_bidir (c : instance_cfg)
    (hp_resolution hp_ep_addr : Z) (id : Z) (N : Z) : list Z :=
  INIT_STD_IF AUDIOCONTROL N 0 0 ++
  cs_ac_if_header c [N + 1; N + 2] 2 ++
  INIT_IN_TERMINAL c id IO_HEADSET ++
  FILLED_FEATURE_UNIT c (id + 1) id ++
  INIT_OUT_TERMINAL (id + 2) (id + 1) USB_STREAMING ++
  INIT_IN_TERMINAL c (id + 3) USB_STREAMING ++
  FILLED_FEATURE_UNIT c (id + 4) (id + 3) ++
  INIT_OUT_TERMINAL (id + 5) (id + 4) IO_HEADSET ++
  INIT_STD_IF AUDIOSTREAMING (N + 1) 0 0 ++
  INIT_STD_IF AUDIOSTREAMING (N + 1) 1 1 ++
  INIT_AS_GENERAL (id + 2) ++
  INIT_AS_FORMAT_I c (RESOLUTION c) ++
  INIT_STD_AS_AD_EP (EP_ADDR c) AUDIO_EP_SIZE ++
  INIT_CS_AS_AD_EP ++
  INIT_STD_IF AUDIOSTREAMING (N + 2) 0 0 ++
  INIT_STD_IF AUDIOSTREAMING (N + 2) 1 1 ++
  INIT_AS_GENERAL (id + 3) ++
  INIT_AS_FORMAT_I c hp_resolution ++
  INIT_STD_AS_AD_EP hp_ep_addr AUDIO_EP_SIZE ++
  INIT_CS_AS_AD_EP.

(** ** Descriptor sets as the entity walk sees them *)

(** A descriptor is its bytes; it is well formed when its first byte is
    its length, it has a type byte, and, for a class-specific interface
    descriptor, a subtype and an identifier byte. *)
Definition desc_wf (d : list Z) : Prop :=
  (2 <= length d < 256)%nat /\
  d !! 0%nat = Some (Z.of_nat (length d)) /\
  (d !! 1%nat = Some USB_CS_INTERFACE_DESC -> (4 <= length d)%nat).

(** The descriptor carries the identifier [id]: a class-specific interface
    descriptor whose subtype is not HEADER and whose fourth byte is [id]. *)
Definition is_entity_desc (id : Z) (d : list Z) : Prop :=
  d !! 1%nat = Some USB_CS_INTERFACE_DESC /\
  d !! 2%nat <> Some HEADER /\
  d !! 3%nat = Some id.

#[global] Instance is_entity_desc_dec (id : Z) (d : list Z) :
  Decision (is_entity_desc id d).
Proof. unfold is_entity_desc. apply _. Defined.

(** What the resolver is to answer on a descriptor set: the subtype of
    the first descriptor that carries the identifier, if there is one. *)
Definition resolve (descs : list (list Z)) (ent : usb_audio_entity)
    : bool * usb_audio_entity :=
  match list_find (is_entity_desc (id ent)) descs with
  | Some (_, d) => (true, mk_entity (default 0 (d !! 2%nat)) (id ent))
  | None => (false, ent)
  end.

#[global] Instance desc_wf_dec (d : list Z) : Decision (desc_wf d).
Proof. unfold desc_wf. apply _. Defined.

(** The sample headphones function, descriptor by descriptor. *)
Definition hp_descs : list (list Z) :=
  [INIT_STD_IF AUDIOCONTROL 0 0 0;
   INIT_CS_AC_IF_HEADER hp_cfg 1 1;
   INIT_IN_TERMINAL hp_cfg 1 USB_STREAMING;
   INIT_FEATURE_UNIT hp_cfg 2 1;
   INIT_OUT_TERMINAL 3 2 OUT_HEADPHONES;
   INIT_STD_IF AUDIOSTREAMING 1 0 0;
   INIT_STD_IF AUDIOSTREAMING 1 1 1;
   INIT_AS_GENERAL 1;
   INIT_AS_FORMAT_I hp_cfg 16;
   INIT_STD_AS_AD_EP 0x01 AUDIO_EP_SIZE;
   INIT_CS_AS_AD_EP].

(** ** Reading the streaming paths *)

(** The endpoint descriptor [audio_dc_interface] looks at for a selected
    interface descriptor: that of the active alternate setting, which
    follows the passive one. *)
Definition selected_ep_desc (set_iface : nat) (alt : Z) : nat :=
  ((if decide (alt = 0%Z) then set_iface + USB_PASSIVE_IF_DESC_SIZE else set_iface) +
   USB_PASSIVE_IF_DESC_SIZE + USB_AC_CS_IF_DESC_SIZE + USB_FORMAT_TYPE_I_DESC_SIZE)%nat.

Definition data_written_registered (d : usb_audio_dev_data_t) : bool :=
  match ops d with Some o => data_written_cb o | None => false end.

Definition data_received_registered (d : usb_audio_dev_data_t) : bool :=
  match ops d with Some o => data_received_cb o | None => false end.

(** The sample headset, numbered from 0 and registered, in a world with
    the five buffers of the pool free. *)
Definition hs_device : audio_device :=
  mk_audio_device [0x81; 0x02] 0 (registered (DEFINE_AUDIO_DEV_DATA_BIDIR hs_cfg) 0).

Definition hs_world : world :=
  mk_world (configured_descriptor_bidir hs_cfg 16 0x02 1 0 ++ [0])
           [hs_device] [0%nat] (replicate AUDIO_POOL_COUNT 0%nat) [].

(** The headset once the host has selected alternate setting 1 of the
    microphone (IN) interface. *)
Definition hs_device_tx : audio_device :=
  set_driver_data hs_device (set_tx_enable (driver_data hs_device) true).

(** ... and the application holds buffer 0 of the pool. *)
Definition hs_world_tx : world :=
  set_pool (set_devices hs_world [hs_device_tx]) [1; 0; 0; 0; 0]%nat.

(** A transport that has 96 bytes on every read. *)
Definition usb_read_96 (ep : Z) (buffer : nat) (max_len : Z) : Z * Z := (0, 96).

Definition sample_buf : net_buf := mk_net_buf 0 AUDIO_EP_SIZE.

(** The instances devicetree can describe: twelve channel flags, ten
    feature flags, byte-sized resolution and endpoint address. *)
Definition instance_ok (c : instance_cfg) : Prop :=
  (CH_CNT c <= 12)%nat /\ 0 <= CH_CFG c < 4096 /\ 0 <= FEATURES c < 1024 /\
  is_byte (RESOLUTION c) /\ is_byte (EP_ADDR c).

(** ** Reading the effects of a SET_CUR *)

(** A controls table with the mute flags of the channels from [ch] on
    replaced by the bytes [vs], everything else kept. *)
Definition set_mutes (tbl : list controls) (ch : nat) (vs : list Z) : list controls :=
  take ch tbl ++ zip_with set_mute (drop ch tbl) vs ++ drop (ch + length vs) tbl.

(** The [feature_update_cb] calls for the channels from [ch] on, one for
    each byte of [vs], in channel order. *)
Fixpoint feature_updates (dev : nat) (dir : direction) (slot : nat) (ch : Z)
    (vs : list Z) : list event :=
  match vs with
  | [] => []
  | v :: vs' =>
      FeatureUpdateCb dev dir MUTE_CONTROL (u8 ch) slot v ::
      feature_updates dev dir slot (ch + 1) vs'
  end.

(** [c'] differs from [c] in the mute flag at most. *)
Definition mute_only (c c' : controls) : Prop := set_mute c (mute c') = c'.

(** Device data that differ in mute flags at most: same observers, header,
    device, streaming flags and table shapes. *)
Definition same_but_mutes (d d' : usb_audio_dev_data_t) : Prop :=
  ops d' = ops d /\ header_descr d' = header_descr d /\
  common_dev d' = common_dev d /\ rx_enable d' = rx_enable d /\
  tx_enable d' = tx_enable d /\
  Forall2 (option_Forall2 (Forall2 mute_only)) (dev_controls d) (dev_controls d').

(** A SET_CUR on MUTE_CONTROL for all channels of the headphones unit. *)
Definition hp_set_mute_all : usb_setup_packet := mk_setup 0x21 SET_CUR 0x01FF 0x0200 3.

(** A [feature_update_cb] call for device [dev] on the mute selector. *)
Definition mute_update (dev : nat) (e : event) : Prop :=
  match e with
  | FeatureUpdateCb dev' _ cs _ _ _ => dev' = dev /\ cs = MUTE_CONTROL
  | _ => False
  end.

(** The headphones registered with [usb_audio_register(dev, NULL)]. *)
Definition hp_state_no_ops : fu_state :=
  mk_fu_state (mk_dev_data None (dev_controls hp_dev_data) USB_PASSIVE_IF_DESC_SIZE
                           0 false false)
              [0; 0; 0] [].

(** What a feature unit request may do to the state: change mute flags,
    overwrite scratch bytes, and call [feature_update_cb] on the mute
    selector. *)
Definition fu_frame (st st' : fu_state) : Prop :=
  same_but_mutes (dev_data st) (dev_data st') /\
  length (tmp_data_ptr st') = length (tmp_data_ptr st) /\
  exists evs, trace st' = trace st ++ evs /\
              Forall (mute_update (common_dev (dev_data st))) evs.

(** A GET_CUR on MUTE_CONTROL, channel 1, for a unit id the headphones
    function does not have. *)
Definition hp_get_mute_unit5 : usb_setup_packet := mk_setup 0xA1 GET_CUR 0x0101 0x0500 1.

(** ** Reading the streaming callbacks *)

(** The world with the calls [es] added behind the earlier ones. *)
Definition emit_all (w : world) (es : list event) : world :=
  mk_world (descriptors w) (devices w) (usb_audio_data_devlist w)
           (audio_data_pool w) (calls w ++ es).

Definition data_request_registered (d : usb_audio_dev_data_t) : bool :=
  match ops d with Some o => data_request_cb o | None => false end.

(** The number of buffers that are in the pool. *)
Definition free_buffers (w : world) : nat :=
  length (filter (fun r : nat => r = 0%nat) (audio_data_pool w)).

(** The headset with its microphone interface active, registered with a
    [data_request_cb]. *)
Definition hs_device_req : audio_device :=
  mk_audio_device [0x81; 0x02] 0
    (mk_dev_data (Some (mk_audio_ops true true true true))
                 (dev_controls (driver_data hs_device)) USB_PASSIVE_IF_DESC_SIZE 0
                 false true).

Definition hs_world_req : world := set_devices hs_world [hs_device_req].

(** The headset with its headphones interface active, registered without
    a [data_received_cb]. *)
Definition hs_device_deaf : audio_device :=
  mk_audio_device [0x81; 0x02] 0
    (mk_dev_data (Some (mk_audio_ops false true false true))
                 (dev_controls (driver_data hs_device)) USB_PASSIVE_IF_DESC_SIZE 0
                 true false).

Definition hs_world_deaf : world := set_devices hs_world [hs_device_deaf].

(** A buffer taken from the pool, or a read of the transport. *)
Definition is_alloc_or_read (e : event) : Prop :=
  match e with
  | NetBufAlloc _ | UsbRead _ _ _ => True
  | _ => False
  end.

(** ** The sample applications (samples/subsys/usb/audio) *)

(** [data_received(dev, buffer, size)] of both samples; [send_dev] is the
    device the data is sent back on: [dev] itself in the headset sample,
    [mic_dev] in the headphones and microphone sample. *)
Definition data_received (w : world) (send_dev : nat) (buffer : option net_buf)
    (size : Z) : result world :=
  match buffer with
  | None => Ok w
  | Some b =>
      if decide (size = 0) then Ok w
      else
        do (ret, w) <- usb_audio_send w send_dev b size;
        if decide (ret <> 0) then
          (* In case HOST is not accepting data drop it *)
          Ok (net_buf_unref w (buf_handle b))
        else Ok w
  end.

(** The [struct audio_ops ops] of the samples: [data_received_cb] and
    [feature_update_cb] only. *)
Definition samples_ops : audio_ops := mk_audio_ops false false true true.

(** The number of calls in [es] that give up a reference of [buffer]. *)
Definition is_release (buffer : nat) (e : event) : bool :=
  match e with
  | NetBufUnref b => bool_decide (b = buffer)
  | _ => false
  end.

Definition releases (buffer : nat) (es : list event) : nat :=
  length (filter (fun e => is_release buffer e = true) es).

(** The headset as the headset sample registers it, with its microphone
    interface active, holding buffer 0 of the pool. *)
Definition hs_device_sample : audio_device :=
  mk_audio_device [0x81; 0x02] 0
    (mk_dev_data (Some samples_ops) (dev_controls (driver_data hs_device))
                 USB_PASSIVE_IF_DESC_SIZE 0 true true).

Definition hs_world_sample : world :=
  set_pool (set_devices hs_world [hs_device_sample]) [1; 0; 0; 0; 0]%nat.

(** ** Class request dispatch *)

(** What a class request leaves behind: the status, the world, the
    static scratch of [handle_feature_unit_req], and [*len] and [*data]. *)
Record req_result : Type := mk_req_result {
  req_ret : Z;
  req_world : world;
  req_tmp : list Z;
  req_len : Z;
  req_data : data_ptr
}.

(** [handle_interface_req]. [usb_get_dev_data_by_iface] belongs to the
    device lookup table, which is outside the sources at hand; [by_iface]
    stands for it and gives the device found for an interface number.
    [e.subtype] is not initialised and only read once [is_entity_valid] has
    set it. *)
Definition handle_interface_req (by_iface : Z -> option nat) (w : world)
    (tmp : list Z) (payload : list Z) (pSetup : usb_setup_packet) (len : Z)
    (data : data_ptr) : result req_result :=
  (* parse wIndex for interface request *)
  let interface := Z.land (wIndex pSetup) 0xFF in
  let entity_id := Z.land (Z.shiftr (wIndex pSetup) 8) 0xFF in
  match by_iface interface with
  | None => Ok (mk_req_result (- ENODEV) w tmp len data)
  | Some i =>
      match devices w !! i with
      | None => Fault NullDevData
      | Some d =>
          let audio_dev_data := driver_data d in
          (* is_entity_valid reads dev_data->dev->config->config_info *)
          match devices w !! common_dev audio_dev_data with
          | None => Fault NullDevData
          | Some d' =>
              do (found, e) <- is_entity_valid (descriptors w) (interface_descriptor d')
                                 (mk_entity 0 entity_id);
              if negb found then Ok (mk_req_result (- ENODEV) w tmp len data)
              else if decide (subtype e = FEATURE_UNIT) then
                do (ret, st, len', data') <-
                  handle_feature_unit_req (descriptors w) payload
                    (mk_fu_state audio_dev_data tmp (calls w)) pSetup len data;
                Ok (mk_req_result ret
                      (mk_world (descriptors w)
                                (<[i := set_driver_data d (dev_data st)]> (devices w))
                                (usb_audio_data_devlist w) (audio_data_pool w)
                                (trace st))
                      (tmp_data_ptr st) len' data')
              else
                (* Currently not supported *)
                Ok (mk_req_result (- ENODEV) w tmp len data)
          end
      end
  end.

(** [handle_endpoint_req] *)
Definition handle_endpoint_req (pSetup : usb_setup_packet) (len : Z)
    (data : data_ptr) : Z := - 1.

(** [audio_class_handle_req] *)
Definition audio_class_handle_req (by_iface : Z -> option nat) (w : world)
    (tmp : list Z) (payload : list Z) (pSetup : usb_setup_packet) (len : Z)
    (data : data_ptr) : result req_result :=
  let recip := REQTYPE_GET_RECIP (bmRequestType pSetup) in
  if decide (recip = REQTYPE_RECIP_INTERFACE) then
    do r <- handle_interface_req by_iface w tmp payload pSetup len data;
    if decide (req_ret r < 0)
    then Ok (mk_req_result (- 1) (req_world r) (req_tmp r) (req_len r) (req_data r))
    else Ok (mk_req_result 0 (req_world r) (req_tmp r) (req_len r) (req_data r))
  else if decide (recip = REQTYPE_RECIP_ENDPOINT) then
    if decide (handle_endpoint_req pSetup len data < 0)
    then Ok (mk_req_result (- 1) w tmp len data)
    else Ok (mk_req_result 0 w tmp len data)
  else
    (* Request receipent invalid *)
    Ok (mk_req_result (- 1) w tmp len data).

(** The headphones function in a world of its own, numbered from 0 and
    registered. *)
Definition hp_device : audio_device := mk_audio_device [0x01] 0 hp_dev_data.

Definition hp_world : world :=
  mk_world (configured_descriptor hp_cfg 1 1 USB_STREAMING OUT_HEADPHONES 0 ++ [0])
           [hp_device] [0%nat] (replicate AUDIO_POOL_COUNT 0%nat) [].

(** A lookup table that knows the interfaces 0 and 1 of device 0. *)
Definition hp_by_iface (interface : Z) : option nat :=
  if decide (interface = 0 \/ interface = 1) then Some 0%nat else None.

(** The descriptors of a configured unidirectional function, one by one. *)
Definition declared_descs (c : instance_cfg) (first_id link it_type ot_type N : Z)
    : list (list Z) :=
  [INIT_STD_IF AUDIOCONTROL N 0 0;
   cs_ac_if_header c [N + 1] 1;
   INIT_IN_TERMINAL c first_id it_type;
   FILLED_FEATURE_UNIT c (first_id + 1) first_id;
   INIT_OUT_TERMINAL (first_id + 2) (first_id + 1) ot_type;
   INIT_STD_IF AUDIOSTREAMING (N + 1) 0 0;
   INIT_STD_IF AUDIOSTREAMING (N + 1) 1 1;
   INIT_AS_GENERAL link;
   INIT_AS_FORMAT_I c (RESOLUTION c);
   INIT_STD_AS_AD_EP (EP_ADDR c) AUDIO_EP_SIZE;
   INIT_CS_AS_AD_EP].

(** What the walk answers on such a function for the entity [ent], when
    [other] is the answer given by the descriptors that follow it. *)
Definition resolve_declared (first_id : Z) (ent : usb_audio_entity)
    (other : bool * usb_audio_entity) : bool * usb_audio_entity :=
  if decide (id ent = first_id)
  then (true, mk_entity INPUT_TERMINAL (id ent))
  else if decide (id ent = first_id + 1)
  then (true, mk_entity FEATURE_UNIT (id ent))
  else if decide (id ent = first_id + 2)
  then (true, mk_entity OUTPUT_TERMINAL (id ent))
  else if decide (id ent = 1)
  then (true, mk_entity FORMAT_TYPE (id ent))
  else other.

(** A microphone function behind the headphones function, numbered from
    2, and a request to interface 0, of the headphones, for the feature
    unit 5, of the microphone. *)
Definition mic_cfg : instance_cfg := mk_instance_cfg 2 3 3 16 0x81.

Definition hp_mic_world : world :=
  mk_world (configured_descriptor hp_cfg 1 1 USB_STREAMING OUT_HEADPHONES 0 ++
            configured_descriptor mic_cfg 4 6 IN_MICROPHONE USB_STREAMING 2 ++ [0])
           [hp_device] [0%nat] (replicate AUDIO_POOL_COUNT 0%nat) [].

(** ** What devicetree fixes (usb_audio_internal.h) *)

(** [COND_CODE_1(flag, (a), (b))] *)
Definition COND_CODE_1 {A : Type} (flag : bool) (a b : A) : A :=
  if flag then a else b.

(** The feature flags of one instance. *)
Record dt_features : Set := mk_dt_features {
  FEATURE_MUTE : bool;
  FEATURE_VOLUME : bool;
  FEATURE_TONE_CONTROL : bool;
  FEATURE_GRAPHIC_EQUALIZER : bool;
  FEATURE_AUTOMATIC_GAIN_CONTROL : bool;
  FEATURE_DELAY : bool;
  FEATURE_BASS_BOOST : bool;
  FEATURE_LOUDNESS : bool
}.

(** [FEATURES(dev, i)] *)
Definition FEATURES_dt (f : dt_features) : Z :=
  fold_left Z.lor
    [COND_CODE_1 (FEATURE_MUTE f) (BIT 0) 0;
     COND_CODE_1 (FEATURE_VOLUME f) (BIT 1) 0;
     COND_CODE_1 (FEATURE_TONE_CONTROL f) (Z.lor (Z.lor (BIT 2) (BIT 3)) (BIT 4)) 0;
     COND_CODE_1 (FEATURE_GRAPHIC_EQUALIZER f) (BIT 5) 0;
     COND_CODE_1 (FEATURE_AUTOMATIC_GAIN_CONTROL f) (BIT 6) 0;
     COND_CODE_1 (FEATURE_DELAY f) (BIT 7) 0;
     COND_CODE_1 (FEATURE_BASS_BOOST f) (BIT 8) 0;
     COND_CODE_1 (FEATURE_LOUDNESS f) (BIT 9) 0]
    0x0000.

(** The channel flags of one instance, in the order of the macros:
    L, R, C, LFE, LS, RS, LC, RC, S, SL, SR, T. *)
Record dt_channels : Set := mk_dt_channels {
  CHANNEL_L : bool;
  CHANNEL_R : bool;
  CHANNEL_C : bool;
  CHANNEL_LFE : bool;
  CHANNEL_LS : bool;
  CHANNEL_RS : bool;
  CHANNEL_LC : bool;
  CHANNEL_RC : bool;
  CHANNEL_S : bool;
  CHANNEL_SL : bool;
  CHANNEL_SR : bool;
  CHANNEL_T : bool
}.

Definition channel_flags (ch : dt_channels) : list bool :=
  [CHANNEL_L ch; CHANNEL_R ch; CHANNEL_C ch; CHANNEL_LFE ch; CHANNEL_LS ch;
   CHANNEL_RS ch; CHANNEL_LC ch; CHANNEL_RC ch; CHANNEL_S ch; CHANNEL_SL ch;
   CHANNEL_SR ch; CHANNEL_T ch].

(** [CH_CFG(dev, i)] *)
Definition CH_CFG_dt (ch : dt_channels) : Z :=
  fold_left Z.lor
    (imap (fun (k : nat) (flag : bool) => COND_CODE_1 flag (BIT (Z.of_nat k)) 0)
          (channel_flags ch))
    0x0000.

(** [CH_CNT(dev, i)] *)
Definition CH_CNT_dt (ch : dt_channels) : nat :=
  fold_left Nat.add
    (map (fun flag : bool => COND_CODE_1 flag 1%nat 0%nat) (channel_flags ch)) 0%nat.

(** The instance devicetree describes. *)
Definition dt_instance (ch : dt_channels) (f : dt_features) (resolution ep_addr : Z)
    : instance_cfg :=
  mk_instance_cfg (CH_CNT_dt ch) (CH_CFG_dt ch) (FEATURES_dt f) resolution ep_addr.

(** The feature flag that stands behind a control selector. *)
Definition feature_of_selector (f : dt_features) (cs : Z) : bool :=
  if decide (cs = MUTE_CONTROL) then FEATURE_MUTE f
  else if decide (cs = VOLUME_CONTROL) then FEATURE_VOLUME f
  else if decide (cs = BASS_CONTROL \/ cs = MID_CONTROL \/ cs = TREBLE_CONTROL)
  then FEATURE_TONE_CONTROL f
  else if decide (cs = GRAPHIC_EQUALIZER_CONTROL) then FEATURE_GRAPHIC_EQUALIZER f
  else if decide (cs = AUTOMATIC_GAIN_CONTROL) then FEATURE_AUTOMATIC_GAIN_CONTROL f
  else if decide (cs = DELAY_CONTROL) then FEATURE_DELAY f
  else if decide (cs = BASS_BOOST_CONTROL) then FEATURE_BASS_BOOST f
  else if decide (cs = LOUDNESS_CONTROL) then FEATURE_LOUDNESS f
  else false.

(** The number of bits set among the low twelve. *)
Definition bits_set (v : Z) : nat :=
  length (filter (fun k : nat => Z.testbit v (Z.of_nat k) = true) (seq 0 12)).

(** The entity ids of the instances ([HP_ID], [MIC_ID], [HS_ID]) and the
    terminals their streaming interfaces are linked to ([HP_LINK],
    [MIC_LINK]), for [hp_count] headphones and [mic_count] microphone
    functions. *)
Definition HP_ID (i : Z) : Z := 3 * i + 1.
Definition MIC_ID (hp_count i : Z) : Z := 3 * (hp_count + i) + 1.
Definition HS_ID (hp_count mic_count i : Z) : Z :=
  3 * (hp_count + mic_count) + 6 * i + 1.
Definition HP_LINK (i : Z) : Z := 3 * i + 1.
Definition MIC_LINK (hp_count i : Z) : Z := 3 * (hp_count + i) + 3.

(** The functions of one build: [DEFINE_AUDIO_HP_DESCR_AUTO],
    [DEFINE_AUDIO_MIC_DESCR_AUTO] and [DEFINE_AUDIO_HS_DESCR_AUTO] for
    instance [i]. *)
Inductive audio_function : Set :=
| HP (i : nat)
| MIC (i : nat)
| HS (i : nat).

(** The first entity id of a function and the number of ids it uses. *)
Definition function_id (hp_count mic_count : nat) (fn : audio_function) : Z :=
  match fn with
  | HP i => HP_ID (Z.of_nat i)
  | MIC i => MIC_ID (Z.of_nat hp_count) (Z.of_nat i)
  | HS i => HS_ID (Z.of_nat hp_count) (Z.of_nat mic_count) (Z.of_nat i)
  end.

Definition function_ids (fn : audio_function) : Z :=
  match fn with HP _ | MIC _ => 3 | HS _ => 6 end.

(** The instance exists in a build with the given counts. *)
Definition function_declared (hp_count mic_count hs_count : nat)
    (fn : audio_function) : Prop :=
  match fn with
  | HP i => (i < hp_count)%nat
  | MIC i => (i < mic_count)%nat
  | HS i => (i < hs_count)%nat
  end.


(** * Properties *)

(** ** The result monad *)

Lemma bind_Ok {A B} (r : result A) (k : A -> result B) (b : B) :
  bind r k = Ok b -> exists a, r = Ok a /\ k a = Ok b.
Proof. destruct r as [a|f]; simpl; [eauto | discriminate]. Qed.

Lemma foldM_id {A B} (f : A -> B -> result A) (a : A) (l : list B) :
  (forall b, f a b = Ok a) -> foldM f a l = Ok a.
Proof. intros Hf. induction l as [|b l IH]; simpl; [done|]. by rewrite Hf. Qed.

(** ** Feature unit requests *)

Section handler.
Context (m : mem) (payload : list Z) (st : fu_state) (pSetup : usb_setup_packet)
        (len : Z) (data : data_ptr).
Context (device : Z) (fu : nat) (dir : direction) (ctl nch : Z).
Hypothesis Hfu : get_feature_unit m (dev_data st) (req_fu_id pSetup) = Ok (device, fu).
Hypothesis Hdir : get_fu_dir m fu = Ok dir.
Hypothesis Hctl : get_controls m fu = Ok ctl.
Hypothesis Hnch : get_num_of_channels m fu = Ok nch.

(** The handler up to its two checks. *)
Lemma handle_fu_req_checks :
  handle_feature_unit_req m payload st pSetup len data =
  if decide (Z.land (BIT (req_control_selector pSetup)) (Z.shiftl ctl 1) = 0) then
    Ok (- EINVAL, st, len, data)
  else if decide (req_ch_num pSetup >= nch /\ req_ch_num pSetup <> 0xFF) then
    Ok (- EINVAL, st, len, data)
  else
    do acc <- foldM (fu_req_body device dir (req_control_selector pSetup)
                       pSetup payload data)
                (mk_fu_loop st 0 (- EINVAL))
                (seqZ (req_ch_start pSetup)
                      (req_ch_end pSetup nch - req_ch_start pSetup));
    if decide (to_host pSetup) then
      Ok (ret acc, loop_state acc, data_offset acc, TmpData)
    else
      Ok (ret acc, loop_state acc, len, data).
Proof.
  unfold handle_feature_unit_req.
  fold (req_fu_id pSetup) (req_ch_num pSetup) (req_control_selector pSetup).
  rewrite Hfu. simpl. rewrite Hdir. simpl.
  unfold req_ch_start, req_ch_end, to_host.
  destruct (decide (req_ch_num pSetup = 255)) as [Hw|Hw].
  - rewrite Hnch. simpl. rewrite Hctl. simpl.
    repeat case_decide; try done.
  - simpl. rewrite Hctl. simpl.
    case_decide; [done|]. rewrite Hnch. simpl. repeat case_decide; done.
Qed.

(** C4. A request naming an explicit channel at or past the unit's channel
    count, or a control selector whose bit is not in the unit's bitmap, is
    answered with [-EINVAL], whatever its request code and payload, and
    leaves the device data, the scratch and the call trace as they were. *)
Theorem fu_req_invalid_rejected :
  (req_ch_num pSetup <> 0xFF /\ nch <= req_ch_num pSetup) \/
  ~ selector_available (req_control_selector pSetup) ctl ->
  handle_feature_unit_req m payload st pSetup len data =
    Ok (- EINVAL, st, len, data) /\ - EINVAL < 0.
Proof.
  intros Hbad. split; [|done].
  rewrite handle_fu_req_checks. unfold selector_available in Hbad.
  destruct Hbad as [[Hne Hge]|Hsel].
  - case_decide; [done|]. case_decide as Hc; [done|].
    exfalso. apply Hc. split; [lia|done].
  - case_decide as Hc; [done|]. tauto.
Qed.

(** C5 (as the code has it). A request on a selector other than
    [MUTE_CONTROL] whose bit is in the bitmap, on a valid channel or the
    wildcard, changes nothing in the device data and is answered with
    [-EINVAL]: no case of the loop sets the status. *)
Theorem fu_req_other_selector_einval :
  req_control_selector pSetup <> MUTE_CONTROL ->
  selector_available (req_control_selector pSetup) ctl ->
  (req_ch_num pSetup = 0xFF \/ req_ch_num pSetup < nch) ->
  handle_feature_unit_req m payload st pSetup len data =
    Ok (- EINVAL, st,
        if decide (to_host pSetup) then 0 else len,
        if decide (to_host pSetup) then TmpData else data).
Proof.
  intros Hcs Hsel Hch.
  rewrite handle_fu_req_checks. unfold selector_available in Hsel.
  case_decide; [done|]. case_decide as Hc; [lia|].
  rewrite foldM_id.
  - simpl. by case_decide.
  - intros ch. unfold fu_req_body. by case_decide.
Qed.

End handler.

Lemma req_ch_num_range (p : usb_setup_packet) : 0 <= req_ch_num p < 256.
Proof.
  unfold req_ch_num. change 255 with (Z.ones 8). rewrite Z.land_ones by lia.
  apply Z.mod_pos_bound. lia.
Qed.

(** An explicit channel number makes the loop run once, on that channel. *)
Lemma explicit_channel_range (p : usb_setup_packet) (nch : Z) :
  req_ch_num p <> 0xFF ->
  seqZ (req_ch_start p) (req_ch_end p nch - req_ch_start p) = [req_ch_num p].
Proof.
  intros Hne. pose proof (req_ch_num_range p) as Hr.
  unfold req_ch_start, req_ch_end. rewrite !decide_False by done.
  unfold u8. rewrite Z.mod_small by lia.
  replace (req_ch_num p + 1 - req_ch_num p) with 1 by lia. done.
Qed.

Lemma get_num_of_channels_range (m : mem) (fu : nat) (nch : Z) :
  get_num_of_channels m fu = Ok nch -> 0 <= nch < 256.
Proof.
  unfold get_num_of_channels. intros H. apply bind_Ok in H as (b & _ & H).
  injection H as <-. apply Z.mod_pos_bound. lia.
Qed.

Lemma store_controls_Ok (d d' : usb_audio_dev_data_t) (device ch : Z) (c : controls) :
  store_controls d device ch c = Ok d' ->
  load_controls d' device ch = Ok c /\
  ops d' = ops d /\ header_descr d' = header_descr d /\
  common_dev d' = common_dev d.
Proof.
  unfold store_controls, load_controls.
  destruct (dev_controls d !! Z.to_nat device) as [[tbl|]|] eqn:Hslot; try done.
  case_decide as Hlt; [|done]. intros [= <-]. simpl.
  rewrite list_lookup_insert_eq by (by apply lookup_lt_Some in Hslot).
  by rewrite list_lookup_insert_eq.
Qed.

(** What a run that does not fault has read from the descriptors. *)
Lemma handle_fu_req_Ok_inv (m : mem) (payload : list Z) (st : fu_state)
    (p : usb_setup_packet) (len : Z) (data : data_ptr)
    (r : Z * fu_state * Z * data_ptr) :
  handle_feature_unit_req m payload st p len data = Ok r ->
  exists device fu dir ctl nch,
    get_feature_unit m (dev_data st) (req_fu_id p) = Ok (device, fu) /\
    get_fu_dir m fu = Ok dir /\ get_controls m fu = Ok ctl /\
    get_num_of_channels m fu = Ok nch.
Proof.
  unfold handle_feature_unit_req.
  fold (req_fu_id p) (req_ch_num p) (req_control_selector p).
  intros H. apply bind_Ok in H as ([device fu] & Hfu & H).
  apply bind_Ok in H as (dir & Hdir & H).
  apply bind_Ok in H as (ch_end & _ & H).
  apply bind_Ok in H as (ctl & Hctl & _).
  assert (exists nch, get_num_of_channels m fu = Ok nch) as [nch Hnch].
  { unfold get_fu_dir in Hdir. apply bind_Ok in Hdir as (b & Hb & _).
    unfold get_num_of_channels. rewrite Hb. simpl. eauto. }
  by exists device, fu, dir, ctl, nch.
Qed.

Lemma get_feature_unit_header (m : mem) (d d' : usb_audio_dev_data_t) (fu_id : Z) :
  header_descr d' = header_descr d ->
  get_feature_unit m d' fu_id = get_feature_unit m d fu_id.
Proof. unfold get_feature_unit. by intros ->. Qed.

(** The mute selector is tested against bit 0 of the bitmap. *)
Lemma mute_selector_available (ctl : Z) :
  selector_available MUTE_CONTROL ctl <-> Z.testbit ctl 0 = true.
Proof.
  assert (Z.land (BIT MUTE_CONTROL) (Z.shiftl ctl 1) = 2 * Z.b2z (Z.testbit ctl 0))
    as Heq.
  { change (BIT MUTE_CONTROL) with (Z.shiftl 1 1).
    rewrite <- Z.shiftl_land, Z.shiftl_mul_pow2 by lia.
    rewrite Z.land_comm, Z.bit0_mod.
    pose proof (Z.land_ones ctl 1) as H1. change (Z.ones 1) with 1 in H1.
    rewrite H1 by lia. change (2 ^ 1) with 2. lia. }
  unfold selector_available. rewrite Heq.
  destruct (Z.testbit ctl 0); simpl; split; (done || lia).
Qed.

(** C1. On a feature unit whose bitmap has the mute bit, a SET_CUR on
    MUTE_CONTROL for a valid channel with the one-byte payload [v] that
    returns 0, followed by a GET_CUR (a device-to-host request) on the same
    unit, channel and selector, returns 0 and the one-byte reply [v]. *)
Theorem mute_set_get_roundtrip (m : mem) (v : Z) (st st1 : fu_state)
    (pS pG : usb_setup_packet) (lenS lenS' : Z) (dataS' : data_ptr)
    (payloadG : list Z) (lenG : Z) (dataG : data_ptr)
    (device : Z) (fu : nat) (ctl nch : Z) :
  get_feature_unit m (dev_data st) (req_fu_id pS) = Ok (device, fu) ->
  get_controls m fu = Ok ctl ->
  Z.testbit ctl 0 = true ->
  get_num_of_channels m fu = Ok nch ->
  req_ch_num pS < nch ->
  length (tmp_data_ptr st) = TMP_DATA_SIZE ->
  req_control_selector pS = MUTE_CONTROL ->
  bRequest pS = SET_CUR ->
  handle_feature_unit_req m [v] st pS lenS ReqBuf = Ok (0, st1, lenS', dataS') ->
  bRequest pG = GET_CUR ->
  wValue pG = wValue pS ->
  req_fu_id pG = req_fu_id pS ->
  to_host pG ->
  exists st2,
    handle_feature_unit_req m payloadG st1 pG lenG dataG = Ok (0, st2, 1, TmpData) /\
    reply_bytes payloadG st2 1 TmpData = [v].
Proof.
  intros Hfu Hctl Hbit Hnch Hch Htmp Hcs Hset HS Hget HwV Hid Hdir.
  pose proof (get_num_of_channels_range _ _ _ Hnch) as Hnr.
  pose proof (req_ch_num_range pS) as Hcr.
  assert (req_ch_num pS <> 255) as Hne by lia.
  destruct (handle_fu_req_Ok_inv _ _ _ _ _ _ _ HS)
    as (device' & fu' & dir & ctl' & nch' & Hfu' & Hd & _).
  rewrite Hfu in Hfu'. injection Hfu' as <- <-.
  (* the SET_CUR run *)
  rewrite (handle_fu_req_checks m [v] st pS lenS ReqBuf device fu dir ctl nch)
    in HS by done.
  apply mute_selector_available in Hbit. unfold selector_available in Hbit.
  rewrite Hcs in HS.
  rewrite decide_False in HS by done.
  rewrite decide_False in HS by lia.
  rewrite explicit_channel_range in HS by done.
  simpl in HS. unfold fu_req_body in HS. simpl in HS.
  rewrite decide_True in HS by done.
  simpl in HS.
  destruct (load_controls (dev_data st) device (req_ch_num pS)) as [c|] eqn:Hld;
    [simpl in HS|done].
  destruct (store_controls (dev_data st) device (req_ch_num pS) (set_mute c v))
    as [d'|] eqn:Hstore; [simpl in HS|done].
  destruct (store_controls_Ok _ _ _ _ _ Hstore) as (Hld' & Hops & Hhdr & _).
  destruct (ops d') as [o|]; [simpl in HS|done].
  assert (dev_data st1 = d' /\ tmp_data_ptr st1 = tmp_data_ptr st) as [Hd1 Ht1].
  { case_decide; inversion HS; done. }
  (* the GET_CUR run *)
  assert (req_ch_num pG = req_ch_num pS) as Hch' by (unfold req_ch_num; by rewrite HwV).
  assert (req_control_selector pG = MUTE_CONTROL) as Hcs'
    by (rewrite <- Hcs; unfold req_control_selector; by rewrite HwV).
  rewrite (handle_fu_req_checks m payloadG st1 pG lenG dataG device fu dir ctl nch);
    [|by rewrite Hid, Hd1, (get_feature_unit_header _ _ _ _ Hhdr)|done..].
  rewrite Hcs', Hch'.
  rewrite decide_False by done. rewrite decide_False by lia.
  rewrite explicit_channel_range by (by rewrite Hch').
  rewrite Hch'. simpl. unfold fu_req_body. simpl.
  rewrite Hget.
  rewrite decide_False by done. rewrite decide_True by done.
  rewrite Hd1, Hld'. simpl. unfold store_tmp. rewrite Ht1.
  rewrite decide_True by (rewrite Htmp; unfold TMP_DATA_SIZE; simpl; lia).
  simpl. rewrite decide_True by done.
  eexists. split; [done|].
  unfold reply_bytes. simpl.
  destruct (tmp_data_ptr st) as [|t0 tl]; [done|]. done.
Qed.

(** *** GET_CUR on MUTE_CONTROL and the reply scratch *)

Lemma load_controls_lookup (d : usb_audio_dev_data_t) (device : Z)
    (tbl : list controls) (ch : nat) (c : controls) :
  dev_controls d !! Z.to_nat device = Some (Some tbl) ->
  tbl !! ch = Some c ->
  load_controls d device (Z.of_nat ch) = Ok c.
Proof.
  intros Hslot Hc. unfold load_controls. by rewrite Hslot, Nat2Z.id, Hc.
Qed.

Lemma foldM_cons {A B} (f : A -> B -> result A) (a : A) (b : B) (l : list B) :
  foldM f a (b :: l) = bind (f a b) (fun a' => foldM f a' l).
Proof. done. Qed.

Lemma fu_req_body_get_cur (device : Z) (dir : direction) (p : usb_setup_packet)
    (payload : list Z) (data : data_ptr) (acc : fu_loop) (ch : Z) :
  bRequest p = GET_CUR ->
  fu_req_body device dir MUTE_CONTROL p payload data acc ch =
  do c <- load_controls (dev_data (loop_state acc)) device ch;
  do tmp' <- store_tmp (tmp_data_ptr (loop_state acc)) (data_offset acc) (mute c);
  Ok (mk_fu_loop (mk_fu_state (dev_data (loop_state acc)) tmp'
                              (trace (loop_state acc)))
                 (u8 (data_offset acc + 1)) 0).
Proof.
  intros Hget. unfold fu_req_body. rewrite decide_True by done. rewrite Hget.
  rewrite decide_False by (by compute). rewrite decide_True by done.
  destruct (load_controls _ _ _); [simpl|done].
  by destruct (store_tmp _ _ _).
Qed.

(** [k] rounds of the loop for GET_CUR, from channel [ch] and reply
    offset [off]: each round stores one mute flag at the next offset, and
    the round that reaches offset 3 leaves the scratch. *)
Lemma get_cur_loop (device : Z) (dir : direction) (p : usb_setup_packet)
    (payload : list Z) (data : data_ptr) (d : usb_audio_dev_data_t)
    (tbl : list controls) (tr : list event) :
  bRequest p = GET_CUR ->
  dev_controls d !! Z.to_nat device = Some (Some tbl) ->
  forall (k ch off : nat) (tmp : list Z) (r : Z),
    (ch + k <= length tbl)%nat ->
    (off <= 3)%nat ->
    length tmp = 3%nat ->
    foldM (fu_req_body device dir MUTE_CONTROL p payload data)
          (mk_fu_loop (mk_fu_state d tmp tr) (Z.of_nat off) r)
          (seqZ (Z.of_nat ch) (Z.of_nat k)) =
    if decide (off + k <= 3)%nat then
      Ok (mk_fu_loop
            (mk_fu_state d (take off tmp ++ (mute <$> take k (drop ch tbl)) ++
                            drop (off + k) tmp) tr)
            (Z.of_nat (off + k))
            (if decide (k = 0%nat) then r else 0))
    else Fault ScratchOutOfBounds.
Proof.
  intros Hget Hslot. induction k as [|k IH]; intros ch off tmp r Hlen Hoff Htmp.
  - simpl. rewrite Nat.add_0_r, decide_True by done.
    simpl. by rewrite take_drop.
  - rewrite seqZ_cons by lia.
    replace (Z.pred (Z.of_nat (S k))) with (Z.of_nat k) by lia.
    replace (Z.succ (Z.of_nat ch)) with (Z.of_nat (S ch)) by lia.
    destruct (lookup_lt_is_Some_2 tbl ch) as [c Hc]; [lia|].
    rewrite foldM_cons, fu_req_body_get_cur by done. cbn [loop_state dev_data
      tmp_data_ptr data_offset trace].
    rewrite (load_controls_lookup _ _ _ _ _ Hslot Hc). cbn [bind].
    unfold store_tmp. rewrite Nat2Z.id, Htmp. unfold TMP_DATA_SIZE.
    destruct (decide (off < 3)%nat) as [Hlt|Hge].
    + rewrite decide_True by done. cbn [bind].
      unfold u8. rewrite Z.mod_small by lia.
      replace (Z.of_nat off + 1) with (Z.of_nat (S off)) by lia.
      rewrite IH; [|lia|lia|by rewrite length_insert].
      destruct (decide (off + S k <= 3)%nat) as [Hfit|Hfit].
      * rewrite decide_True by lia.
        rewrite (decide_False (P := (S k = 0)%nat)) by done.
        f_equal. f_equal; [|f_equal; lia|by case_decide].
        f_equal.
        rewrite (take_S_r _ _ (mute c))
          by (rewrite list_lookup_insert_eq; [done|lia]).
        rewrite take_insert_ge by lia.
        rewrite drop_insert_lt by lia.
        rewrite (drop_S _ _ _ Hc). cbn [take fmap list_fmap].
        rewrite <- app_assoc. cbn [app].
        by replace (S off + k)%nat with (off + S k)%nat by lia.
      * by rewrite decide_False by lia.
    + rewrite decide_False by tauto. simpl.
      by rewrite decide_False by lia.
Qed.

Lemma req_range_length (p : usb_setup_packet) (nch : Z) :
  req_ch_end p nch - req_ch_start p =
  if decide (req_ch_num p = 0xFF) then nch else 1.
Proof.
  pose proof (req_ch_num_range p) as Hr. unfold req_ch_end, req_ch_start.
  case_decide; [lia|]. unfold u8. rewrite Z.mod_small by lia. lia.
Qed.

(** C10. A device-to-host GET_CUR on MUTE_CONTROL that passes both checks
    asks for [n] channels, 1 for an explicit channel and the unit's channel
    count for the wildcard. With [n <= 3] the reply is [n] bytes long and
    lies in the static scratch [tmp_data_ptr], one mute flag per channel of
    the range; with [3 < n] the fourth store leaves the 3-byte scratch. *)
Theorem get_cur_mute_reply (m : mem) (payload : list Z) (st : fu_state)
    (p : usb_setup_packet) (len : Z) (data : data_ptr)
    (device : Z) (fu : nat) (dir : direction) (ctl nch : Z)
    (tbl : list controls) :
  get_feature_unit m (dev_data st) (req_fu_id p) = Ok (device, fu) ->
  get_fu_dir m fu = Ok dir ->
  get_controls m fu = Ok ctl ->
  get_num_of_channels m fu = Ok nch ->
  req_control_selector p = MUTE_CONTROL ->
  bRequest p = GET_CUR ->
  to_host p ->
  selector_available MUTE_CONTROL ctl ->
  (req_ch_num p = 0xFF \/ req_ch_num p < nch) ->
  dev_controls (dev_data st) !! Z.to_nat device = Some (Some tbl) ->
  (Z.to_nat nch <= length tbl)%nat ->
  length (tmp_data_ptr st) = TMP_DATA_SIZE ->
  let n := if decide (req_ch_num p = 0xFF) then nch else 1 in
  (n <= 3 ->
   exists st',
     handle_feature_unit_req m payload st p len data =
       Ok (if decide (n = 0) then - EINVAL else 0, st', n, TmpData) /\
     dev_data st' = dev_data st /\ trace st' = trace st /\
     length (tmp_data_ptr st') = TMP_DATA_SIZE /\
     reply_bytes payload st' n TmpData =
       mute_flags (dev_data st) device (req_ch_start p) (Z.to_nat n)) /\
  (3 < n ->
   handle_feature_unit_req m payload st p len data = Fault ScratchOutOfBounds).
Proof.
  intros Hfu Hdir Hctl Hnch Hcs Hget Hto Hsel Hch Hslot Htbl Htmp n.
  pose proof (get_num_of_channels_range _ _ _ Hnch) as Hnr.
  pose proof (req_ch_num_range p) as Hcr.
  assert (0 <= n) as Hn0 by (subst n; case_decide; lia).
  assert (0 <= req_ch_start p) as Hs0
    by (unfold req_ch_start; case_decide; lia).
  assert (Z.to_nat (req_ch_start p) + Z.to_nat n <= length tbl)%nat as Hfit.
  { subst n. unfold req_ch_start. case_decide; lia. }
  assert (handle_feature_unit_req m payload st p len data =
          do acc <- foldM (fu_req_body device dir MUTE_CONTROL p payload data)
                      (mk_fu_loop st 0 (- EINVAL))
                      (seqZ (Z.of_nat (Z.to_nat (req_ch_start p)))
                            (Z.of_nat (Z.to_nat n)));
          Ok (ret acc, loop_state acc, data_offset acc, TmpData)) as ->.
  { rewrite (handle_fu_req_checks m payload st p len data device fu dir ctl nch)
      by done.
    unfold selector_available in Hsel. rewrite Hcs.
    rewrite decide_False by done. rewrite decide_False by lia.
    rewrite req_range_length. fold n. rewrite !Z2Nat.id by done.
    destruct (foldM _ _ _); [simpl|done]. by rewrite decide_True. }
  destruct st as [d tmp tr]. cbn [dev_data tmp_data_ptr trace] in *.
  pose proof (get_cur_loop device dir p payload data d tbl tr Hget Hslot
                (Z.to_nat n) (Z.to_nat (req_ch_start p)) 0 tmp (- EINVAL)
                Hfit ltac:(lia) Htmp) as Hloop.
  change (Z.of_nat 0) with 0 in Hloop. rewrite Hloop. clear Hloop.
  split; intros Hn.
  - rewrite decide_True by lia. simpl.
    eexists. split.
    { rewrite Z2Nat.id by done.
      destruct (decide (Z.to_nat n = 0%nat)), (decide (n = 0)); (done || lia). }
    cbn [dev_data tmp_data_ptr trace]. split; [done|]. split; [done|]. split.
    + rewrite length_app, length_fmap, length_take, length_drop, length_drop.
      unfold TMP_DATA_SIZE in *. lia.
    + unfold reply_bytes, mute_flags. cbn [dev_data tmp_data_ptr].
      rewrite Hslot. apply take_app_length'.
      rewrite length_fmap, length_take, length_drop. lia.
  - by rewrite decide_False by lia.
Qed.

Lemma mute_set_get_roundtrip_witness :
  handle_feature_unit_req hp_desc [1] hp_state hp_set_mute 1 ReqBuf =
    Ok (0, hp_state_muted, 1, ReqBuf) /\
  exists st2,
    handle_feature_unit_req hp_desc [] hp_state_muted hp_get_mute 1 ReqBuf =
      Ok (0, st2, 1, TmpData) /\
    reply_bytes [] st2 1 TmpData = [1].
Proof.
  split; [reflexivity|].
  apply (mute_set_get_roundtrip hp_desc 1 hp_state hp_state_muted hp_set_mute
           hp_get_mute 1 1 ReqBuf [] 1 ReqBuf 0 30%nat 3 3);
    reflexivity.
Defined.

Lemma fu_req_invalid_rejected_witness :
  handle_feature_unit_req hp_desc [1] hp_state hp_set_mute_ch3 1 ReqBuf =
    Ok (- EINVAL, hp_state, 1, ReqBuf) /\ - EINVAL < 0.
Proof.
  apply (fu_req_invalid_rejected hp_desc [1] hp_state hp_set_mute_ch3 1 ReqBuf
           0 30%nat OUT 3 3); try reflexivity.
  left. split; [discriminate | vm_compute; discriminate].
Defined.

(** C5 with "returns success, 0" does not hold: a SET_CUR on
    VOLUME_CONTROL, whose bit is in the headphones bitmap, on channel 1 of
    3, is answered with [-EINVAL], not with 0. *)
Lemma fu_req_volume_not_accepted :
  get_feature_unit hp_desc hp_dev_data (req_fu_id hp_set_volume) = Ok (0, 30%nat) /\
  get_controls hp_desc 30 = Ok 3 /\
  get_num_of_channels hp_desc 30 = Ok 3 /\
  req_control_selector hp_set_volume = VOLUME_CONTROL /\
  selector_available VOLUME_CONTROL 3 /\
  req_ch_num hp_set_volume = 1 /\
  handle_feature_unit_req hp_desc [5; 0] hp_state hp_set_volume 2 ReqBuf =
    Ok (- EINVAL, hp_state, 2, ReqBuf) /\
  ~ exists st' len' data',
      handle_feature_unit_req hp_desc [5; 0] hp_state hp_set_volume 2 ReqBuf =
        Ok (0, st', len', data').
Proof.
  repeat split; try reflexivity.
  - vm_compute. discriminate.
  - intros (st' & len' & data' & H). vm_compute in H. discriminate.
Qed.

Lemma fu_req_other_selector_einval_witness :
  handle_feature_unit_req hp_desc [5; 0] hp_state hp_set_volume 2 ReqBuf =
    Ok (- EINVAL, hp_state, 2, ReqBuf).
Proof.
  apply (fu_req_other_selector_einval hp_desc [5; 0] hp_state hp_set_volume 2
           ReqBuf 0 30%nat OUT 3 3); try reflexivity.
  - discriminate.
  - vm_compute. discriminate.
  - right. reflexivity.
Defined.

Lemma get_cur_mute_reply_witness :
  exists st',
    handle_feature_unit_req hp_desc [] hp_state_muted hp_get_mute_all 3 ReqBuf =
      Ok (0, st', 3, TmpData) /\
    dev_data st' = dev_data hp_state_muted /\ trace st' = trace hp_state_muted /\
    length (tmp_data_ptr st') = TMP_DATA_SIZE /\
    reply_bytes [] st' 3 TmpData = [0; 1; 0].
Proof.
  apply (get_cur_mute_reply hp_desc [] hp_state_muted hp_get_mute_all 3 ReqBuf
           0 30%nat OUT 3 3
           [zero_controls; set_mute zero_controls 1; zero_controls]);
    try reflexivity.
  - vm_compute. discriminate.
  - left. reflexivity.
Defined.

(** With six channels the wildcard GET_CUR runs off the scratch. *)
Example get_cur_mute_wide_overflow :
  get_num_of_channels wide_desc 30 = Ok 6 /\
  handle_feature_unit_req wide_desc [] wide_state hp_get_mute_all 6 ReqBuf =
    Fault ScratchOutOfBounds.
Proof. split; reflexivity. Qed.

(** ** Descriptor memory *)

Lemma load8_Ok (m : mem) (a : nat) (b : Z) : load8 m a = Ok b <-> m !! a = Some b.
Proof.
  unfold load8. destruct (m !! a); split; intros H; by simplify_eq.
Qed.

Lemma load8_lt (m : mem) (a : nat) :
  (a < length m)%nat -> exists b, load8 m a = Ok b.
Proof.
  intros H. destruct (lookup_lt_is_Some_2 m a H) as [b Hb].
  exists b. by apply load8_Ok.
Qed.

Lemma store8_lt (m : mem) (a : nat) (v : Z) :
  (a < length m)%nat -> store8 m a v = Ok (<[a := v]> m).
Proof. intros H. unfold store8. by rewrite decide_True. Qed.

Lemma load16_Ok (m : mem) (a : nat) (lo hi : Z) :
  m !! a = Some lo -> m !! (a + 1)%nat = Some hi ->
  load16 m a = Ok (lo + 256 * hi).
Proof.
  intros Hlo Hhi. unfold load16.
  apply load8_Ok in Hlo, Hhi. by rewrite Hlo, Hhi.
Qed.

Lemma store16_lt (m : mem) (a : nat) (lo hi : Z) :
  is_byte lo -> is_byte hi -> (a + 1 < length m)%nat ->
  store16 m a (lo + 256 * hi) = Ok (<[(a + 1)%nat := hi]> (<[a := lo]> m)).
Proof.
  unfold is_byte. intros Hlo Hhi Hlen. unfold store16.
  assert ((lo + 256 * hi) mod 256 = lo) as ->.
  { rewrite (Z.mul_comm 256 hi), Z_mod_plus_full. apply Z.mod_small. lia. }
  assert ((lo + 256 * hi) / 256 mod 256 = hi) as ->.
  { rewrite (Z.mul_comm 256 hi), Z.div_add, (Z.div_small lo) by lia.
    rewrite Z.add_0_l. apply Z.mod_small. lia. }
  rewrite store8_lt by lia. cbn [bind].
  by rewrite store8_lt by (rewrite length_insert; lia).
Qed.

(** The channel count of a feature unit that has its fixed elements. *)
Lemma get_num_of_channels_Ok (m : mem) (fu : nat) (flen : Z) :
  m !! fu = Some flen -> 7 <= flen < 256 ->
  get_num_of_channels m fu = Ok ((flen - 7) / 2).
Proof.
  intros Hl Hr. unfold get_num_of_channels, DESC_bLength.
  rewrite Nat.add_0_r. apply load8_Ok in Hl. rewrite Hl. simpl.
  unfold u8, u32, FU_FIXED_ELEMS_SIZE. f_equal.
  rewrite (Z.mod_small (flen - 7)) by lia. apply Z.mod_small.
  split; [apply Z.div_pos; lia | apply Z.div_lt_upper_bound; lia].
Qed.

(** ** The declared descriptors have the layout the fixup walks *)

Lemma feature_unit_size_nat (c : instance_cfg) :
  Z.to_nat (feature_unit_size c) = (9 + 2 * CH_CNT c)%nat.
Proof. unfold feature_unit_size. lia. Qed.

Lemma length_INIT_FEATURE_UNIT (c : instance_cfg) (unit_id source_id : Z) :
  length (INIT_FEATURE_UNIT c unit_id source_id) = (9 + 2 * CH_CNT c)%nat.
Proof.
  unfold INIT_FEATURE_UNIT. rewrite !length_app, length_replicate. simpl. lia.
Qed.

Lemma le16_value (v : Z) :
  0 <= v < 65536 -> v mod 256 + 256 * (v / 256 mod 256) = v.
Proof.
  intros Hv. rewrite (Z.mod_small (v / 256)).
  - rewrite Z.add_comm. symmetry. apply Z.div_mod. lia.
  - split; [apply Z.div_pos; lia | apply Z.div_lt_upper_bound; lia].
Qed.

Lemma define_audio_descriptor_layout (c : instance_cfg)
    (id link it_type ot_type : Z) (rest : list Z) :
  (CH_CNT c <= 12)%nat ->
  ac_layout (DEFINE_AUDIO_DESCRIPTOR c id link it_type ot_type ++ rest) 0
            9 (30 + feature_unit_size c) 1 (feature_unit_size c) 0.
Proof.
  intros Hch.
  pose proof (feature_unit_size_nat c) as Hfs.
  assert (9 <= feature_unit_size c <= 33) as Hfr by (unfold feature_unit_size; lia).
  set (fu := INIT_FEATURE_UNIT c (id + 1) id).
  assert (length fu = (9 + 2 * CH_CNT c)%nat) as Hfl
    by apply length_INIT_FEATURE_UNIT.
  set (pre := INIT_STD_IF AUDIOCONTROL 0 0 0 ++ INIT_CS_AC_IF_HEADER c 1 1 ++
              INIT_IN_TERMINAL c id it_type).
  set (tl := INIT_OUT_TERMINAL (id + 2) (id + 1) ot_type ++
             INIT_STD_IF AUDIOSTREAMING 1 0 0 ++ INIT_STD_IF AUDIOSTREAMING 1 1 1 ++
             INIT_AS_GENERAL link ++ INIT_AS_FORMAT_I c (RESOLUTION c) ++
             INIT_STD_AS_AD_EP (EP_ADDR c) AUDIO_EP_SIZE ++ INIT_CS_AS_AD_EP ++ rest).
  assert (DEFINE_AUDIO_DESCRIPTOR c id link it_type ot_type ++ rest =
          pre ++ fu ++ tl) as ->.
  { unfold DEFINE_AUDIO_DESCRIPTOR, pre, tl. fold fu. by rewrite <- !app_assoc. }
  assert (length pre = 30%nat) as Hpl by reflexivity.
  assert (61 <= length tl)%nat as Htl
    by (unfold tl; rewrite !length_app; simpl; lia).
  assert (tl !! 9%nat = Some 9) as Htl9 by reflexivity.
  assert (pre !! 0%nat = Some 9) as Hp0 by reflexivity.
  assert (pre !! 9%nat = Some 9) as Hp9 by reflexivity.
  assert (pre !! 14%nat = Some ((30 + feature_unit_size c) mod 256)) as Hp14.
  { simpl. do 2 f_equal.
    unfold INPUT_TERMINAL_DESC_SIZE, OUTPUT_TERMINAL_DESC_SIZE. lia. }
  assert (pre !! 15%nat = Some ((30 + feature_unit_size c) / 256 mod 256)) as Hp15.
  { simpl. do 3 f_equal.
    unfold INPUT_TERMINAL_DESC_SIZE, OUTPUT_TERMINAL_DESC_SIZE. lia. }
  assert (pre !! 16%nat = Some 1) as Hp16 by reflexivity.
  assert (fu !! 0%nat = Some (feature_unit_size c)) as Hf0 by reflexivity.
  clearbody pre tl fu.
  assert (forall i : nat, (i < 30)%nat -> (pre ++ fu ++ tl) !! i = pre !! i) as Hpre
    by (intros i Hi; apply lookup_app_l; lia).
  assert ((pre ++ fu ++ tl) !! 30%nat = Some (feature_unit_size c)) as Hfu.
  { rewrite lookup_app_r by lia. rewrite Hpl. rewrite lookup_app_l by lia. done. }
  split.
  - by rewrite Hpre by lia.
  - by rewrite Hpre by lia.
  - unfold HDR_wTotalLength. rewrite <- (le16_value (30 + feature_unit_size c)) by lia.
    apply load16_Ok; by rewrite Hpre by lia.
  - unfold HDR_bInCollection. by rewrite Hpre by lia.
  - unfold first_fu, INPUT_TERMINAL_DESC_SIZE. change (0 + 9 + Z.to_nat 9 + 12)%nat with 30%nat.
    split; [done|]. split; [lia|]. rewrite !length_app. lia.
  - unfold first_fu, INPUT_TERMINAL_DESC_SIZE. lia.
  - discriminate.
  - replace (0 + 9 + Z.to_nat (30 + feature_unit_size c))%nat
      with (length pre + (length fu + 9))%nat by lia.
    rewrite lookup_app_r by lia. rewrite lookup_app_r by lia.
    by replace (length pre + (length fu + 9) - length pre - length fu)%nat
      with 9%nat by lia.
  - rewrite !length_app. unfold USB_ACTIVE_IF_DESC_SIZE, USB_PASSIVE_IF_DESC_SIZE,
      USB_AC_CS_IF_DESC_SIZE, USB_FORMAT_TYPE_I_DESC_SIZE,
      USB_STD_AS_AD_EP_DESC_SIZE, USB_CS_AS_AD_EP_DESC_SIZE. lia.
  - discriminate.
Qed.

Lemma define_audio_descriptor_bidir_layout (c : instance_cfg)
    (hp_resolution hp_ep_addr id : Z) (rest : list Z) :
  (CH_CNT c <= 12)%nat ->
  ac_layout (DEFINE_AUDIO_DESCRIPTOR_BIDIR c hp_resolution hp_ep_addr id ++ rest) 0
            10 (52 + 2 * feature_unit_size c) 2
            (feature_unit_size c) (feature_unit_size c).
Proof.
  intros Hch.
  pose proof (feature_unit_size_nat c) as Hfs.
  assert (9 <= feature_unit_size c <= 33) as Hfr by (unfold feature_unit_size; lia).
  set (fu1 := INIT_FEATURE_UNIT c (id + 1) id).
  set (fu2 := INIT_FEATURE_UNIT c (id + 4) (id + 3)).
  assert (length fu1 = (9 + 2 * CH_CNT c)%nat) as Hfl1
    by apply length_INIT_FEATURE_UNIT.
  assert (length fu2 = (9 + 2 * CH_CNT c)%nat) as Hfl2
    by apply length_INIT_FEATURE_UNIT.
  set (pre := INIT_STD_IF AUDIOCONTROL 0 0 0 ++ INIT_CS_AC_IF_HEADER c 2 2 ++
              INIT_IN_TERMINAL c id IO_HEADSET).
  set (mid := INIT_OUT_TERMINAL (id + 2) (id + 1) USB_STREAMING ++
              INIT_IN_TERMINAL c (id + 3) USB_STREAMING).
  set (tl := INIT_OUT_TERMINAL (id + 5) (id + 4) IO_HEADSET ++
             INIT_STD_IF AUDIOSTREAMING 1 0 0 ++ INIT_STD_IF AUDIOSTREAMING 1 1 1 ++
             INIT_AS_GENERAL (id + 2) ++ INIT_AS_FORMAT_I c (RESOLUTION c) ++
             INIT_STD_AS_AD_EP (EP_ADDR c) AUDIO_EP_SIZE ++ INIT_CS_AS_AD_EP ++
             INIT_STD_IF AUDIOSTREAMING 2 0 0 ++ INIT_STD_IF AUDIOSTREAMING 2 1 1 ++
             INIT_AS_GENERAL (id + 3) ++ INIT_AS_FORMAT_I c hp_resolution ++
             INIT_STD_AS_AD_EP hp_ep_addr AUDIO_EP_SIZE ++ INIT_CS_AS_AD_EP ++ rest).
  assert (DEFINE_AUDIO_DESCRIPTOR_BIDIR c hp_resolution hp_ep_addr id ++ rest =
          pre ++ fu1 ++ mid ++ fu2 ++ tl) as ->.
  { unfold DEFINE_AUDIO_DESCRIPTOR_BIDIR, pre, mid, tl. fold fu1 fu2.
    by rewrite <- !app_assoc. }
  assert (length pre = 31%nat) as Hpl by reflexivity.
  assert (length mid = 21%nat) as Hml by reflexivity.
  assert (113 <= length tl)%nat as Htl
    by (unfold tl; rewrite !length_app; simpl; lia).
  assert (tl !! 9%nat = Some 9) as Htl9 by reflexivity.
  assert (pre !! 0%nat = Some 9) as Hp0 by reflexivity.
  assert (pre !! 9%nat = Some 10) as Hp9 by reflexivity.
  assert (pre !! 14%nat = Some ((52 + 2 * feature_unit_size c) mod 256)) as Hp14.
  { simpl. do 2 f_equal.
    unfold INPUT_TERMINAL_DESC_SIZE, OUTPUT_TERMINAL_DESC_SIZE. lia. }
  assert (pre !! 15%nat = Some ((52 + 2 * feature_unit_size c) / 256 mod 256))
    as Hp15.
  { simpl. do 3 f_equal.
    unfold INPUT_TERMINAL_DESC_SIZE, OUTPUT_TERMINAL_DESC_SIZE. lia. }
  assert (pre !! 16%nat = Some 2) as Hp16 by reflexivity.
  assert (fu1 !! 0%nat = Some (feature_unit_size c)) as Hf1 by reflexivity.
  assert (fu2 !! 0%nat = Some (feature_unit_size c)) as Hf2 by reflexivity.
  clearbody pre mid tl fu1 fu2.
  assert (forall i : nat, (i < 31)%nat ->
            (pre ++ fu1 ++ mid ++ fu2 ++ tl) !! i = pre !! i) as Hpre
    by (intros i Hi; apply lookup_app_l; lia).
  assert (forall i : nat,
            (pre ++ fu1 ++ mid ++ fu2 ++ tl) !! (length pre + length fu1 + length mid + i)%nat
            = (fu2 ++ tl) !! i) as Hskip.
  { intros i. rewrite lookup_app_r by lia. rewrite lookup_app_r by lia.
    rewrite lookup_app_r by lia. f_equal. lia. }
  split;
    unfold first_fu, next_fu, INPUT_TERMINAL_DESC_SIZE, OUTPUT_TERMINAL_DESC_SIZE,
      HDR_wTotalLength, HDR_bInCollection, USB_ACTIVE_IF_DESC_SIZE,
      USB_PASSIVE_IF_DESC_SIZE, USB_AC_CS_IF_DESC_SIZE, USB_FORMAT_TYPE_I_DESC_SIZE,
      USB_STD_AS_AD_EP_DESC_SIZE, USB_CS_AS_AD_EP_DESC_SIZE.
  - by rewrite Hpre by lia.
  - by rewrite Hpre by lia.
  - rewrite <- (le16_value (52 + 2 * feature_unit_size c)) by lia.
    apply load16_Ok; by rewrite Hpre by lia.
  - by rewrite Hpre by lia.
  - change (0 + 9 + Z.to_nat 10 + 12)%nat with 31%nat.
    split; [|split; [lia|rewrite !length_app; lia]].
    rewrite lookup_app_r by lia. rewrite Hpl. by rewrite lookup_app_l by lia.
  - lia.
  - intros _. change (0 + 9 + Z.to_nat 10 + 12)%nat with 31%nat. split.
    + split; [|split; [lia|rewrite !length_app; lia]].
      replace (31 + Z.to_nat (feature_unit_size c) + 12 + 9)%nat
        with (length pre + length fu1 + length mid + 0)%nat by lia.
      rewrite Hskip. by rewrite lookup_app_l by lia.
    + lia.
  - replace (0 + 9 + Z.to_nat (52 + 2 * feature_unit_size c))%nat
      with (length pre + length fu1 + length mid + (length fu2 + 9))%nat by lia.
    rewrite Hskip. rewrite lookup_app_r by lia.
    by replace (length fu2 + 9 - length fu2)%nat with 9%nat by lia.
  - rewrite !length_app. lia.
  - intros _. rewrite !length_app. lia.
Qed.

(** The declared descriptors are made of bytes. *)

Ltac solve_is_byte :=
  unfold is_byte, USB_INTERFACE_DESC, USB_CS_INTERFACE_DESC, USB_ENDPOINT_DESC,
    USB_CS_ENDPOINT_DESC, AUDIO_CLASS, AUDIOCONTROL, AUDIOSTREAMING, HEADER,
    INPUT_TERMINAL, OUTPUT_TERMINAL, FEATURE_UNIT, AS_GENERAL, FORMAT_TYPE,
    USB_DC_EP_ISOCHRONOUS, feature_unit_size in *;
  cbn [length replicate];
  first [lia | apply Z.mod_pos_bound; lia].

Ltac solve_bytes_ok :=
  repeat first
    [ apply Forall_app_2
    | apply List.Forall_cons
    | apply List.Forall_nil
    | apply Forall_replicate
    | solve_is_byte ].

Lemma define_audio_descriptor_bytes_ok (c : instance_cfg)
    (id link it_type ot_type : Z) (rest : list Z) :
  instance_ok c -> is_byte id -> is_byte (id + 2) -> is_byte link ->
  bytes_ok rest ->
  bytes_ok (DEFINE_AUDIO_DESCRIPTOR c id link it_type ot_type ++ rest).
Proof.
  intros (Hch & Hcfg & Hft & Hres & Hep) Hid Hid2 Hlink Hrest.
  unfold bytes_ok, DEFINE_AUDIO_DESCRIPTOR, INIT_STD_IF, INIT_CS_AC_IF_HEADER,
    cs_ac_if_header, INIT_IN_TERMINAL, INIT_FEATURE_UNIT, INIT_OUT_TERMINAL,
    INIT_AS_GENERAL, INIT_AS_FORMAT_I, INIT_STD_AS_AD_EP, INIT_CS_AS_AD_EP, le16.
  apply Forall_app_2; [|done]. solve_bytes_ok.
Qed.

Lemma define_audio_descriptor_bidir_bytes_ok (c : instance_cfg)
    (hp_resolution hp_ep_addr id : Z) (rest : list Z) :
  instance_ok c -> is_byte hp_resolution -> is_byte hp_ep_addr ->
  is_byte id -> is_byte (id + 5) -> bytes_ok rest ->
  bytes_ok (DEFINE_AUDIO_DESCRIPTOR_BIDIR c hp_resolution hp_ep_addr id ++ rest).
Proof.
  intros (Hch & Hcfg & Hft & Hres & Hep) Hhr Hhe Hid Hid5 Hrest.
  unfold bytes_ok, DEFINE_AUDIO_DESCRIPTOR_BIDIR, INIT_STD_IF, INIT_CS_AC_IF_HEADER,
    cs_ac_if_header, INIT_IN_TERMINAL, INIT_FEATURE_UNIT, INIT_OUT_TERMINAL,
    INIT_AS_GENERAL, INIT_AS_FORMAT_I, INIT_STD_AS_AD_EP, INIT_CS_AS_AD_EP, le16.
  apply Forall_app_2; [|done]. solve_bytes_ok.
Qed.

(** ** Descriptor fixup: the feature units *)

(** The bound of the model's loop is never what stops it: on any memory
    the 256 rounds outlast the [u8_t] channel count. *)
Lemma fix_fu_loop_bounded (fuel : nat) :
  forall (m : mem) (fu : nat) (i : Z),
    (1 <= fuel)%nat -> 256 <= i + Z.of_nat fuel ->
    fix_fu_loop fuel m fu i <> Fault LoopBound.
Proof.
  induction fuel as [|fuel IH]; intros m fu i H1 Hi; [lia|]. simpl.
  destruct (get_num_of_channels m fu) as [n|f] eqn:Hn.
  - pose proof (get_num_of_channels_range _ _ _ Hn) as Hr. simpl.
    case_decide; [|done].
    destruct (load16 m (fu + FU_bmaControls)) as [v|f] eqn:Hv.
    + simpl. destruct (store16 m _ v) as [m'|f] eqn:Hs.
      * simpl. apply IH; lia.
      * simpl. unfold store16, store8 in Hs.
        repeat (case_decide; simpl in Hs); by simplify_eq.
    + simpl. unfold load16, load8 in Hv.
      repeat (case_match; simpl in Hv); by simplify_eq.
  - simpl. unfold get_num_of_channels, load8 in Hn.
    repeat (case_match; simpl in Hn); by simplify_eq.
Qed.

(** The loop from index [i] on: it ends within the rounds it has, keeps the
    length of the memory, and writes the two bytes of [bmaControls[0]] over
    [bmaControls[i]] ... [bmaControls[n - 1]], nothing else. *)
Lemma fix_fu_loop_spec (fu : nat) (flen nch lo hi : Z) (k : nat) :
  forall (fuel : nat) (m : mem) (i : Z),
    m !! fu = Some flen -> 7 <= flen < 256 -> nch = (flen - 7) / 2 ->
    (fu + Z.to_nat flen <= length m)%nat ->
    m !! (fu + 6)%nat = Some lo -> m !! (fu + 7)%nat = Some hi ->
    is_byte lo -> is_byte hi ->
    1 <= i -> k = Z.to_nat (nch - i) -> (k < fuel)%nat ->
    exists m',
      fix_fu_loop fuel m fu i = Ok m' /\ length m' = length m /\
      forall a : nat,
        m' !! a =
        if decide (fu + 6 + 2 * Z.to_nat i <= a < fu + 6 + 2 * Z.to_nat nch)%nat
        then Some (if Nat.even (a - fu) then lo else hi)
        else m !! a.
Proof.
  induction k as [|k IH];
    intros fuel m i Hl Hr Hn Hfit Hlo Hhi Blo Bhi Hi Hk Hfuel;
    (destruct fuel as [|fuel]; [lia|]); simpl;
    rewrite (get_num_of_channels_Ok m fu flen), <- Hn by done; simpl;
    (assert (0 <= nch /\ 2 * nch <= flen - 7) as Hnb
       by (rewrite Hn; split; [apply Z.div_pos; lia | apply Z.mul_div_le; lia])).
  - rewrite decide_False by lia. exists m. split; [done|]. split; [done|].
    intros a. by rewrite decide_False by lia.
  - rewrite decide_True by lia.
    unfold FU_bmaControls.
    rewrite (load16_Ok m (fu + 6) lo hi)
      by (done || by replace (fu + 6 + 1)%nat with (fu + 7)%nat by lia).
    cbn [bind]. rewrite store16_lt by (done || lia). cbn [bind].
    set (a0 := (fu + 6 + 2 * Z.to_nat i)%nat).
    destruct (IH fuel (<[(a0 + 1)%nat := hi]> (<[a0 := lo]> m)) (i + 1))
      as (m' & Hrun & Hlen & Hpt); try done; try lia.
    + by rewrite !list_lookup_insert_ne by lia.
    + rewrite !length_insert. lia.
    + by rewrite !list_lookup_insert_ne by lia.
    + by rewrite !list_lookup_insert_ne by lia.
    + exists m'. split; [done|]. split; [by rewrite Hlen, !length_insert|].
      intros a. rewrite Hpt.
      destruct (decide (a = a0)) as [->|Hne0].
      { rewrite decide_False by lia. rewrite decide_True by lia.
        rewrite list_lookup_insert_ne by lia.
        rewrite list_lookup_insert_eq by lia.
        replace (a0 - fu)%nat with (2 * (3 + Z.to_nat i))%nat by lia.
        by rewrite Nat.even_mul. }
      destruct (decide (a = a0 + 1)%nat) as [->|Hne1].
      { rewrite decide_False by lia. rewrite decide_True by lia.
        rewrite list_lookup_insert_eq by (rewrite length_insert; lia).
        replace (a0 + 1 - fu)%nat with (S (2 * (3 + Z.to_nat i)))%nat by lia.
        by rewrite Nat.even_succ, Nat.odd_mul. }
      rewrite !list_lookup_insert_ne by lia.
      repeat case_decide; (done || lia).
Qed.

Lemma bytes_ok_lookup (m : mem) (a : nat) (b : Z) :
  bytes_ok m -> m !! a = Some b -> is_byte b.
Proof. intros Hb Ha. by eapply Forall_lookup_1. Qed.

Lemma channels_bound (flen : Z) :
  7 <= flen -> 0 <= (flen - 7) / 2 /\ 2 * ((flen - 7) / 2) <= flen - 7.
Proof. intros H. split; [apply Z.div_pos; lia | apply Z.mul_div_le; lia]. Qed.

Lemma fu_mirrored_pointwise (m : mem) (fu : nat) (flen : Z) :
  m !! fu = Some flen -> 7 <= flen < 256 ->
  (fu + Z.to_nat flen <= length m)%nat ->
  (forall a : nat,
     (fu + 8 <= a < fu + 6 + 2 * Z.to_nat ((flen - 7) / 2))%nat ->
     m !! a = m !! (if Nat.even (a - fu) then fu + 6 else fu + 7)%nat) ->
  fu_mirrored m fu.
Proof.
  intros Hl Hr Hfit Hpt. exists ((flen - 7) / 2).
  split; [by apply get_num_of_channels_Ok|].
  pose proof (channels_bound flen ltac:(lia)) as Hnb.
  intros i Hi.
  destruct (lookup_lt_is_Some_2 m (fu + 6)) as [lo Hlo]; [lia|].
  destruct (lookup_lt_is_Some_2 m (fu + 7)) as [hi Hhi]; [lia|].
  exists (lo + 256 * hi). unfold FU_bmaControls. split.
  - apply load16_Ok; [done|]. by replace (fu + 6 + 1)%nat with (fu + 7)%nat by lia.
  - apply load16_Ok.
    + rewrite Hpt by lia.
      replace (fu + 6 + 2 * Z.to_nat i - fu)%nat with (2 * (3 + Z.to_nat i))%nat by lia.
      by rewrite Nat.even_mul.
    + rewrite Hpt by lia.
      replace (fu + 6 + 2 * Z.to_nat i + 1 - fu)%nat
        with (S (2 * (3 + Z.to_nat i)))%nat by lia.
      by rewrite Nat.even_succ, Nat.odd_mul.
Qed.

(** One feature unit: the loop of [fix_fu_descriptors] on a unit that fits. *)
Lemma fix_fu_loop_run (m : mem) (fu : nat) (flen : Z) :
  bytes_ok m -> fu_fits m fu flen ->
  exists m',
    fix_fu_loop 256 m fu 1 = Ok m' /\ length m' = length m /\
    bytes_ok m' /\ fu_fixed m m' fu flen.
Proof.
  intros Hb (Hl & H7 & Hfit).
  pose proof (bytes_ok_lookup _ _ _ Hb Hl) as Hfl. unfold is_byte in Hfl.
  pose proof (channels_bound flen H7) as Hnb.
  assert (exists m', fix_fu_loop 256 m fu 1 = Ok m' /\ length m' = length m /\
                     fu_fixed m m' fu flen) as (m' & Hrun & Hlen & Hpt).
  { destruct (decide ((flen - 7) / 2 <= 1)) as [Hsmall|Hbig].
    - exists m. simpl.
      rewrite (get_num_of_channels_Ok m fu flen) by (done || lia). simpl.
      rewrite decide_False by lia. split; [done|]. split; [done|].
      intros a. by rewrite decide_False by lia.
    - destruct (lookup_lt_is_Some_2 m (fu + 6)) as [lo Hlo]; [lia|].
      destruct (lookup_lt_is_Some_2 m (fu + 7)) as [hi Hhi]; [lia|].
      destruct (fix_fu_loop_spec fu flen ((flen - 7) / 2) lo hi
                  (Z.to_nat ((flen - 7) / 2 - 1)) 256 m 1)
        as (m' & Hrun & Hlen & Hpt); try done; try lia.
      + by eapply bytes_ok_lookup.
      + by eapply bytes_ok_lookup.
      + exists m'. split; [done|]. split; [done|].
        intros a. rewrite Hpt. change (Z.to_nat 1) with 1%nat.
        replace (fu + 6 + 2 * 1)%nat with (fu + 8)%nat by lia.
        case_decide; [|done]. by destruct (Nat.even (a - fu)). }
  exists m'. split; [done|]. split; [done|]. split; [|done].
  apply Forall_lookup. intros a b Hab. rewrite Hpt in Hab.
  case_decide; by eapply bytes_ok_lookup.
Qed.

Lemma fu_fixed_mirrored (m m' : mem) (fu : nat) (flen : Z) :
  fu_fits m fu flen -> flen < 256 -> length m' = length m ->
  fu_fixed m m' fu flen -> fu_mirrored m' fu.
Proof.
  intros (Hl & H7 & Hfit) Hlt Hlen Hpt.
  pose proof (channels_bound flen H7) as Hnb.
  apply (fu_mirrored_pointwise m' fu flen).
  - rewrite Hpt. by rewrite decide_False by lia.
  - lia.
  - lia.
  - intros a Ha. rewrite (Hpt a), decide_True by lia.
    destruct (Nat.even (a - fu)); rewrite Hpt; by rewrite decide_False by lia.
Qed.

(** What [fix_fu_descriptors] does to a function's descriptors whose
    feature units fit: it returns, touches only [bmaControls[1 ..]] of the
    units, and leaves each unit mirrored. *)
Lemma fix_fu_descriptors_spec (m : mem) (iface : nat) (hlen inc flen1 flen2 : Z) :
  let header := (iface + USB_PASSIVE_IF_DESC_SIZE)%nat in
  let fu1 := first_fu header hlen in
  let fu2 := next_fu fu1 flen1 in
  bytes_ok m ->
  m !! header = Some hlen ->
  m !! (header + HDR_bInCollection)%nat = Some inc ->
  fu_fits m fu1 flen1 ->
  (inc = 2 -> fu_fits m fu2 flen2) ->
  exists m',
    fix_fu_descriptors m iface = Ok m' /\ length m' = length m /\ bytes_ok m' /\
    (forall a : nat,
       ~ (fu1 + 8 <= a < fu1 + Z.to_nat flen1)%nat ->
       ~ (inc = 2 /\ (fu2 + 8 <= a < fu2 + Z.to_nat flen2)%nat) ->
       m' !! a = m !! a) /\
    fu_mirrored m' fu1 /\ (inc = 2 -> fu_mirrored m' fu2).
Proof.
  intros header fu1 fu2 Hb Hh Hinc Hf1 Hf2.
  pose proof (bytes_ok_lookup _ _ _ Hb Hh) as Bh. unfold is_byte in Bh.
  pose proof Hf1 as (Hl1 & H71 & Hfit1).
  pose proof (bytes_ok_lookup _ _ _ Hb Hl1) as Bl1. unfold is_byte in Bl1.
  pose proof (channels_bound flen1 H71) as Hnb1.
  destruct (fix_fu_loop_run m fu1 flen1 Hb Hf1) as (m1 & Hrun1 & Hlen1 & Hb1 & Hpt1).
  unfold fix_fu_descriptors. fold header. unfold DESC_bLength.
  rewrite Nat.add_0_r. rewrite (proj2 (load8_Ok m header hlen)) by done.
  cbn [bind]. fold (first_fu header hlen). fold fu1. rewrite Hrun1. cbn [bind].
  assert (m1 !! (header + HDR_bInCollection)%nat = Some inc) as Hinc1.
  { rewrite Hpt1, decide_False; [done|].
    unfold fu1, first_fu, HDR_bInCollection, INPUT_TERMINAL_DESC_SIZE. lia. }
  rewrite (proj2 (load8_Ok _ _ _) Hinc1). cbn [bind].
  destruct (decide (inc = 2)) as [Hbi|Huni].
  - destruct (Hf2 Hbi) as (Hl2 & H72 & Hfit2).
    pose proof (bytes_ok_lookup _ _ _ Hb Hl2) as Bl2. unfold is_byte in Bl2.
    pose proof (channels_bound flen2 H72) as Hnb2.
    assert (m1 !! fu1 = Some flen1) as Hl1'
      by (rewrite Hpt1; by rewrite decide_False by lia).
    rewrite Nat.add_0_r, (proj2 (load8_Ok _ _ _) Hl1'). cbn [bind].
    fold (next_fu fu1 flen1). fold fu2.
    assert (fu_fits m1 fu2 flen2) as Hf2'.
    { split; [|split; [done|lia]].
      rewrite Hpt1, decide_False; [done|].
      unfold fu2, next_fu, INPUT_TERMINAL_DESC_SIZE, OUTPUT_TERMINAL_DESC_SIZE. lia. }
    destruct (fix_fu_loop_run m1 fu2 flen2 Hb1 Hf2')
      as (m2 & Hrun2 & Hlen2 & Hb2 & Hpt2).
    exists m2. split; [done|]. split; [lia|]. split; [done|].
    assert (fu1 + Z.to_nat flen1 < fu2)%nat as Hsep
      by (unfold fu2, next_fu, INPUT_TERMINAL_DESC_SIZE, OUTPUT_TERMINAL_DESC_SIZE; lia).
    split; [|split].
    + intros a Ha1 Ha2. rewrite Hpt2, decide_False by lia.
      by rewrite Hpt1, decide_False by lia.
    + apply (fu_mirrored_pointwise m2 fu1 flen1); [|lia|lia|].
      * by rewrite Hpt2, decide_False by lia.
      * intros a Ha. rewrite (Hpt2 a), decide_False by lia.
        rewrite (Hpt1 a), decide_True by lia.
        destruct (Nat.even (a - fu1)); rewrite Hpt2, decide_False by lia;
          by rewrite Hpt1, decide_False by lia.
    + intros _. apply (fu_fixed_mirrored m1 m2 fu2 flen2); (done || lia).
  - exists m1. split; [done|]. split; [done|]. split; [done|].
    split; [|split; [|done]].
    + intros a Ha1 _. by rewrite Hpt1, decide_False by lia.
    + apply (fu_fixed_mirrored m m1 fu1 flen1); (done || lia).
Qed.

Lemma load16_ext (m m' : mem) (a : nat) :
  m' !! a = m !! a -> m' !! (a + 1)%nat = m !! (a + 1)%nat ->
  load16 m' a = load16 m a.
Proof. intros H0 H1. unfold load16, load8. by rewrite H0, H1. Qed.

(** What the loop leaves in a unit, counted by the unit's [bLength]. *)
Lemma fu_mirrored_filled (m m' : mem) (fu : nat) (flen : Z) :
  fu_fits m fu flen -> flen < 256 ->
  m' !! fu = Some flen ->
  load16 m' (fu + FU_bmaControls)%nat = load16 m (fu + FU_bmaControls)%nat ->
  fu_mirrored m' fu ->
  fu_filled m m' fu flen /\ get_num_of_channels m' fu = Ok ((flen - 7) / 2).
Proof.
  intros (Hl & H7 & Hfit) Hlt Hl' H0 (nch & Hn & Hall).
  pose proof (get_num_of_channels_Ok m' fu flen Hl' ltac:(lia)) as Hn'.
  rewrite Hn' in Hn. injection Hn as <-.
  split; [|done]. split; [done|]. unfold FU_FIXED_ELEMS_SIZE.
  intros i Hi. pose proof (channels_bound flen H7) as Hnb.
  destruct i as [|i].
  - destruct (lookup_lt_is_Some_2 m (fu + 6)) as [lo Hlo]; [lia|].
    destruct (lookup_lt_is_Some_2 m (fu + 7)) as [hi Hhi]; [lia|].
    exists (lo + 256 * hi). unfold FU_bmaControls in *.
    assert (load16 m (fu + 6) = Ok (lo + 256 * hi)) as Hc
      by (apply load16_Ok; [done|by replace (fu + 6 + 1)%nat with (fu + 7)%nat by lia]).
    split; [done|]. by rewrite Nat.mul_0_r, Nat.add_0_r, H0.
  - destruct (Hall (Z.of_nat (S i)) ltac:(lia)) as (c0 & Hc0 & Hci).
    exists c0. rewrite Nat2Z.id in Hci. by rewrite <- H0.
Qed.

(** C7. On a function's descriptors whose feature units fit,
    [fix_fu_descriptors] returns, and afterwards the feature unit (both
    units when [bInCollection] is 2) has, for every channel index [i] below
    the channel count [(bLength - 7) / 2] that its [bLength] gives,
    [bmaControls[i]] equal to the [bmaControls[0]] that was declared; the
    unit's [bLength], and so the count [get_num_of_channels] reads from it,
    and [bmaControls[0]] are as before. *)
Theorem fix_fu_descriptors_mirrors (m : mem) (iface : nat)
    (hlen inc flen1 flen2 : Z) :
  let header := (iface + USB_PASSIVE_IF_DESC_SIZE)%nat in
  let fu1 := first_fu header hlen in
  let fu2 := next_fu fu1 flen1 in
  bytes_ok m ->
  m !! header = Some hlen ->
  m !! (header + HDR_bInCollection)%nat = Some inc ->
  fu_fits m fu1 flen1 ->
  (inc = 2 -> fu_fits m fu2 flen2) ->
  exists m',
    fix_fu_descriptors m iface = Ok m' /\
    fu_filled m m' fu1 flen1 /\
    get_num_of_channels m' fu1 = Ok ((flen1 - 7) / 2) /\
    load16 m' (fu1 + FU_bmaControls)%nat = load16 m (fu1 + FU_bmaControls)%nat /\
    (inc = 2 ->
     fu_filled m m' fu2 flen2 /\
     get_num_of_channels m' fu2 = Ok ((flen2 - 7) / 2) /\
     load16 m' (fu2 + FU_bmaControls)%nat = load16 m (fu2 + FU_bmaControls)%nat).
Proof.
  intros header fu1 fu2 Hb Hh Hinc Hf1 Hf2.
  destruct (fix_fu_descriptors_spec m iface hlen inc flen1 flen2 Hb Hh Hinc Hf1 Hf2)
    as (m' & Hrun & _ & _ & Hframe & Hm1 & Hm2).
  fold header fu1 fu2 in Hframe, Hm1, Hm2.
  assert (fu1 + Z.to_nat flen1 < fu2)%nat as Hsep
    by (unfold fu2, next_fu, INPUT_TERMINAL_DESC_SIZE, OUTPUT_TERMINAL_DESC_SIZE; lia).
  assert (load16 m' (fu1 + FU_bmaControls)%nat = load16 m (fu1 + FU_bmaControls)%nat)
    as H01 by (unfold FU_bmaControls; apply load16_ext; apply Hframe; lia).
  pose proof Hf1 as (Hl1 & H71 & _).
  pose proof (bytes_ok_lookup _ _ _ Hb Hl1) as Bl1. unfold is_byte in Bl1.
  assert (m' !! fu1 = Some flen1) as Hl1' by (rewrite Hframe; [done|lia..]).
  destruct (fu_mirrored_filled m m' fu1 flen1 Hf1 ltac:(lia) Hl1' H01 Hm1)
    as [Hfill1 Hcnt1].
  exists m'. split; [done|]. split; [done|]. split; [done|]. split; [done|].
  intros Hbi. specialize (Hm2 Hbi). pose proof (Hf2 Hbi) as Hfit2.
  pose proof Hfit2 as (Hl2 & H72 & _).
  pose proof (bytes_ok_lookup _ _ _ Hb Hl2) as Bl2. unfold is_byte in Bl2.
  assert (load16 m' (fu2 + FU_bmaControls)%nat = load16 m (fu2 + FU_bmaControls)%nat)
    as H02 by (unfold FU_bmaControls; apply load16_ext; apply Hframe; lia).
  assert (m' !! fu2 = Some flen2) as Hl2' by (rewrite Hframe; [done|lia..]).
  destruct (fu_mirrored_filled m m' fu2 flen2 Hfit2 ltac:(lia) Hl2' H02 Hm2)
    as [Hfill2 Hcnt2].
  done.
Qed.

Lemma hs_cfg_ok : instance_ok hs_cfg.
Proof. unfold instance_ok, is_byte, hs_cfg. simpl. lia. Qed.

Lemma hs_desc_bytes_ok : bytes_ok hs_desc.
Proof.
  apply define_audio_descriptor_bidir_bytes_ok;
    [apply hs_cfg_ok | unfold is_byte; lia ..|].
  apply List.Forall_cons; [unfold is_byte; lia | apply List.Forall_nil].
Qed.

Lemma fix_fu_descriptors_mirrors_witness :
  exists m',
    fix_fu_descriptors hs_desc 0 = Ok m' /\
    fu_filled hs_desc m' 31 13 /\
    get_num_of_channels m' 31 = Ok ((13 - 7) / 2) /\
    load16 m' 37 = load16 hs_desc 37 /\
    (2 = 2 ->
     fu_filled hs_desc m' 65 13 /\
     get_num_of_channels m' 65 = Ok ((13 - 7) / 2) /\
     load16 m' 71 = load16 hs_desc 71).
Proof.
  apply (fix_fu_descriptors_mirrors hs_desc 0 10 2 13 13).
  - apply hs_desc_bytes_ok.
  - reflexivity.
  - reflexivity.
  - split; [reflexivity|]. split; [lia|]. vm_compute. lia.
  - intros _. split; [reflexivity|]. split; [lia|]. vm_compute. lia.
Defined.

(** ** Descriptor fixup: the interface numbers *)

Lemma load16_inv (m : mem) (a : nat) (v : Z) :
  load16 m a = Ok v ->
  exists lo hi, m !! a = Some lo /\ m !! (a + 1)%nat = Some hi /\ v = lo + 256 * hi.
Proof.
  unfold load16. intros H. apply bind_Ok in H as (lo & Hlo & H).
  apply bind_Ok in H as (hi & Hhi & H). injection H as <-.
  exists lo, hi. by rewrite <- !load8_Ok.
Qed.

Lemma load8_insert_eq (m : mem) (a : nat) (v : Z) :
  (a < length m)%nat -> load8 (<[a := v]> m) a = Ok v.
Proof. intros H. apply load8_Ok. by apply list_lookup_insert_eq. Qed.

Lemma load8_insert_ne (m : mem) (a b : nat) (v : Z) :
  a <> b -> load8 (<[a := v]> m) b = load8 m b.
Proof. intros H. unfold load8. by rewrite list_lookup_insert_ne. Qed.

(** C6. With base interface number [N] (the numbers [N + 1], and [N + 2]
    for two streaming interfaces, being interface numbers, below 256),
    [audio_interface_config] returns and leaves [N] in the AC interface
    descriptor, [N + 1] in both alternate settings of the first streaming
    interface and in entry 0 of the header's list and, when [bInCollection]
    is 2, [N + 2] in both alternate settings of the second streaming
    interface and in entry 1 of the list. *)
Theorem audio_interface_config_numbers (m : mem) (head : nat) (N : Z)
    (hlen total inc flen1 flen2 : Z) :
  let header := (head + 9)%nat in
  let as0 := (header + Z.to_nat total)%nat in
  let as1 := (as0 + USB_PASSIVE_IF_DESC_SIZE + USB_ACTIVE_IF_DESC_SIZE)%nat in
  bytes_ok m ->
  ac_layout m head hlen total inc flen1 flen2 ->
  0 <= N -> N + 1 < 256 -> (inc = 2 -> N + 2 < 256) ->
  exists m',
    audio_interface_config m head N = Ok m' /\
    load8 m' (head + IF_bInterfaceNumber)%nat = Ok N /\
    load8 m' (header + HDR_baInterfaceNr + 0)%nat = Ok (N + 1) /\
    load8 m' (as0 + IF_bInterfaceNumber)%nat = Ok (N + 1) /\
    load8 m' (as0 + USB_PASSIVE_IF_DESC_SIZE + IF_bInterfaceNumber)%nat = Ok (N + 1) /\
    (inc = 2 ->
     load8 m' (header + HDR_baInterfaceNr + 1)%nat = Ok (N + 2) /\
     load8 m' (as1 + IF_bInterfaceNumber)%nat = Ok (N + 2) /\
     load8 m' (as1 + USB_PASSIVE_IF_DESC_SIZE + IF_bInterfaceNumber)%nat = Ok (N + 2)).
Proof.
  intros header as0 as1 Hb [Hil Hhl Htot Hinc Hf1 Hin1 Hf2 Hsl Hroom Hroom2] HN0 HN1 HN2.
  fold header in Hhl, Htot, Hinc, Hf1, Hin1, Hf2. fold as0 in Hsl, Hroom, Hroom2.
  destruct (fix_fu_descriptors_spec m head hlen inc flen1 flen2 Hb Hhl Hinc Hf1
              (fun H => proj1 (Hf2 H)))
    as (m1 & Hrun & Hlen & _ & Hframe & _).
  change (head + USB_PASSIVE_IF_DESC_SIZE)%nat with header in Hframe.
  set (fu1 := first_fu header hlen) in *. set (fu2 := next_fu fu1 flen1) in *.
  pose proof (bytes_ok_lookup _ _ _ Hb Hhl) as Bh. unfold is_byte in Bh.
  destruct Hf1 as (Hl1 & H71 & Hfit1).
  apply load16_inv in Htot as (tlo & thi & Htlo & Hthi & Htot).
  assert (header + 9 < fu1 + 8)%nat as Hlow
    by (unfold fu1, first_fu, INPUT_TERMINAL_DESC_SIZE; lia).
  assert (forall a : nat, (a < fu1 + 8 \/ as0 <= a)%nat -> m1 !! a = m !! a) as Hout.
  { intros a Ha. apply Hframe; [lia|]. intros [Hbi Hr].
    destruct (Hf2 Hbi) as [_ Hin2].
    unfold fu2, next_fu, INPUT_TERMINAL_DESC_SIZE, OUTPUT_TERMINAL_DESC_SIZE
      in Hr, Hin2.
    lia. }
  unfold HDR_wTotalLength, HDR_bInCollection, HDR_baInterfaceNr,
    USB_PASSIVE_IF_DESC_SIZE, USB_ACTIVE_IF_DESC_SIZE, IF_bInterfaceNumber,
    USB_AC_CS_IF_DESC_SIZE, USB_FORMAT_TYPE_I_DESC_SIZE,
    USB_STD_AS_AD_EP_DESC_SIZE, USB_CS_AS_AD_EP_DESC_SIZE in *.
  simpl in Hroom, Hroom2. subst as1.
  unfold audio_interface_config. rewrite Hrun. cbn [bind].
  unfold IF_bInterfaceNumber, DESC_bLength, HDR_baInterfaceNr, HDR_wTotalLength,
    HDR_bInCollection, USB_ACTIVE_IF_DESC_SIZE, USB_PASSIVE_IF_DESC_SIZE,
    USB_AC_CS_IF_DESC_SIZE, USB_FORMAT_TYPE_I_DESC_SIZE,
    USB_STD_AS_AD_EP_DESC_SIZE, USB_CS_AS_AD_EP_DESC_SIZE, u8.
  rewrite !Nat.add_0_r. rewrite !Z.mod_small by lia.
  (* Audio Control Interface *)
  rewrite store8_lt by lia. cbn [bind].
  rewrite load8_insert_ne by lia.
  rewrite (proj2 (load8_Ok m1 head 9)) by (rewrite Hout by lia; done).
  cbn [bind]. change (head + Z.to_nat 9)%nat with header.
  rewrite store8_lt by (rewrite !length_insert; lia). cbn [bind].
  (* Audio Streaming Interface Passive *)
  rewrite (load16_Ok _ (header + 5) tlo thi)
    by (rewrite !list_lookup_insert_ne by lia; rewrite Hout by lia; done).
  cbn [bind]. rewrite <- Htot. fold as0.
  rewrite store8_lt by (rewrite !length_insert; lia). cbn [bind].
  (* Audio Streaming Interface Active *)
  rewrite !load8_insert_ne by lia. rewrite ?Nat.add_0_r.
  rewrite (proj2 (load8_Ok m1 as0 9)) by (rewrite Hout by lia; done).
  cbn [bind]. change (Z.to_nat 9) with 9%nat.
  rewrite store8_lt by (rewrite !length_insert; lia). cbn [bind].
  rewrite !load8_insert_ne by lia.
  rewrite (proj2 (load8_Ok m1 (header + 7) inc)) by (rewrite Hout by lia; done).
  cbn [bind].
  destruct (decide (inc = 2)) as [Hbi|Huni].
  - specialize (Hroom2 Hbi). specialize (HN2 Hbi).
    rewrite !Z.mod_small by lia.
    rewrite store8_lt by (rewrite !length_insert; lia). cbn [bind].
    rewrite store8_lt by (rewrite !length_insert; lia). cbn [bind].
    rewrite store8_lt by (rewrite !length_insert; lia).
    eexists. split; [done|].
    repeat split; try (intros _);
      repeat (rewrite load8_insert_ne by lia);
      try (apply load8_insert_eq; rewrite ?length_insert; lia).
  - eexists. split; [done|].
    split; [|split; [|split; [|split; [|intros; contradiction]]]];
      repeat (rewrite load8_insert_ne by lia);
      apply load8_insert_eq; rewrite ?length_insert; lia.
Qed.

Lemma hs_layout : ac_layout hs_desc 0 10 78 2 13 13.
Proof.
  apply (define_audio_descriptor_bidir_layout hs_cfg 16 0x02 1 [0]).
  unfold hs_cfg. simpl. lia.
Qed.

Lemma audio_interface_config_numbers_witness :
  exists m',
    audio_interface_config hs_desc 0 5 = Ok m' /\
    load8 m' 2 = Ok 5 /\ load8 m' 17 = Ok 6 /\
    load8 m' 89 = Ok 6 /\ load8 m' 98 = Ok 6 /\
    (2 = 2 -> load8 m' 18 = Ok 7 /\ load8 m' 141 = Ok 7 /\ load8 m' 150 = Ok 7).
Proof.
  apply (audio_interface_config_numbers hs_desc 0 5 10 78 2 13 13).
  - apply hs_desc_bytes_ok.
  - apply hs_layout.
  - lia.
  - lia.
  - lia.
Defined.

(** The two sample functions, numbered from 5: the whole of the result. *)
Example hp_desc_configured :
  audio_interface_config hp_desc 0 5 =
  Ok (configured_descriptor hp_cfg 1 1 USB_STREAMING OUT_HEADPHONES 5 ++ [0]).
Proof. reflexivity. Qed.

Example hs_desc_configured :
  audio_interface_config hs_desc 0 5 =
  Ok (configured_descriptor_bidir hs_cfg 16 0x02 1 5 ++ [0]).
Proof. reflexivity. Qed.

Example wide_desc_configured :
  audio_interface_config wide_desc 0 0 =
  Ok (configured_descriptor wide_cfg 1 1 USB_STREAMING OUT_HEADPHONES 0 ++ [0]).
Proof. reflexivity. Qed.

(** ** Entity resolver *)

Lemma load8_app_r (pre l : list Z) (i : nat) :
  load8 (pre ++ l) (length pre + i) =
  match l !! i with Some b => Ok b | None => Fault DescOutOfBounds end.
Proof.
  unfold load8. rewrite lookup_app_r by lia.
  by replace (length pre + i - length pre)%nat with i by lia.
Qed.

(** One round of the walk on a well-formed descriptor [d] at the front:
    either [d] carries the identifier and the walk stops there, or the walk
    goes on behind [d]. *)
Lemma is_entity_valid_walk_cons (fuel : nat) (pre d tl : list Z)
    (ent : usb_audio_entity) :
  desc_wf d ->
  is_entity_valid_walk (S fuel) (pre ++ d ++ tl) (length pre) ent =
  if decide (is_entity_desc (id ent) d)
  then Ok (true, mk_entity (default 0 (d !! 2%nat)) (id ent))
  else is_entity_valid_walk fuel ((pre ++ d) ++ tl) (length (pre ++ d)) ent.
Proof.
  intros (Hlen & Hhd & Hcs).
  assert (forall i : nat, (i < length d)%nat ->
            load8 (pre ++ d ++ tl) (length pre + i) =
            match d !! i with Some b => Ok b | None => Fault DescOutOfBounds end)
    as Hld.
  { intros i Hi. rewrite load8_app_r. by rewrite lookup_app_l by lia. }
  cbn [is_entity_valid_walk].
  unfold DESC_bLength, DESC_bDescriptorType, DESC_bDescriptorSubtype, DESC_bEntityID.
  rewrite !Hld by lia. rewrite Hhd. cbn [bind].
  rewrite decide_False by lia.
  destruct (lookup_lt_is_Some_2 d 1) as [t Ht]; [lia|]. rewrite Ht. cbn [bind].
  assert (length pre + length d = length (pre ++ d))%nat as Hnext
    by (by rewrite length_app).
  destruct (decide (t = USB_CS_INTERFACE_DESC)) as [->|Hne].
  - specialize (Hcs Ht).
    destruct (lookup_lt_is_Some_2 d 2) as [s Hs]; [lia|].
    destruct (lookup_lt_is_Some_2 d 3) as [e He]; [lia|].
    rewrite !Hld by lia. rewrite Hs, He. cbn [bind].
    destruct (decide (s <> HEADER)) as [Hsn|Hsh].
    + cbn [bind]. destruct (decide (e = id ent)) as [->|Hen].
      * rewrite bool_decide_eq_true_2 by done. cbn [default].
        rewrite decide_True; [done|]. split; [done|]. split; [congruence|done].
      * rewrite bool_decide_eq_false_2 by done.
        rewrite decide_False by (intros (_ & _ & ?); congruence).
        by rewrite Nat2Z.id, Hnext, <- app_assoc.
    + cbn [bind]. rewrite decide_False.
      * by rewrite Nat2Z.id, Hnext, <- app_assoc.
      * intros (_ & Hs' & _). apply Hsh. intros ->. by apply Hs'.
  - cbn [bind].
    rewrite decide_False by (intros (? & _); congruence).
    by rewrite Nat2Z.id, Hnext, <- app_assoc.
Qed.

Lemma load8_fault (m : mem) (a : nat) (f : fault) :
  load8 m a = Fault f -> f = DescOutOfBounds.
Proof. unfold load8. case_match; by intros [=]. Qed.

(** On a memory of bytes the walk either finds a zero-length header, a
    match, or runs off the memory: its bound is never what stops it. *)
Lemma is_entity_valid_walk_bounded (m : mem) (ent : usb_audio_entity) (fuel : nat) :
  bytes_ok m ->
  forall p : nat,
    (1 <= fuel)%nat -> (length m < p + fuel)%nat ->
    is_entity_valid_walk fuel m p ent <> Fault LoopBound.
Proof.
  intros Hb. induction fuel as [|fuel IH]; intros p H1 Hp; [lia|].
  cbn [is_entity_valid_walk]. unfold DESC_bLength. rewrite Nat.add_0_r.
  destruct (load8 m p) as [b|f] eqn:Hl;
    [|apply load8_fault in Hl; by subst].
  cbn [bind]. case_decide; [done|].
  apply load8_Ok in Hl. pose proof (lookup_lt_Some _ _ _ Hl) as Hlt.
  pose proof (bytes_ok_lookup _ _ _ Hb Hl) as Bb. unfold is_byte in Bb.
  destruct (load8 m (p + DESC_bDescriptorType)) as [t|f] eqn:Ht;
    [|apply load8_fault in Ht; by subst].
  cbn [bind].
  assert (is_entity_valid_walk fuel m (p + Z.to_nat b) ent <> Fault LoopBound)
    as Hnext by (apply IH; lia).
  destruct (decide (t = USB_CS_INTERFACE_DESC)); [|done].
  destruct (load8 m (p + DESC_bDescriptorSubtype)) as [s|f] eqn:Hs;
    [|apply load8_fault in Hs; by subst].
  cbn [bind]. destruct (decide (s <> HEADER)); [|done].
  destruct (load8 m (p + DESC_bEntityID)) as [eid|f] eqn:He;
    [|apply load8_fault in He; by subst].
  cbn [bind]. by destruct (bool_decide (eid = id ent)).
Qed.

Lemma is_entity_valid_bounded (m : mem) (p : nat) (ent : usb_audio_entity) :
  bytes_ok m -> is_entity_valid m p ent <> Fault LoopBound.
Proof.
  intros Hb. unfold is_entity_valid.
  apply is_entity_valid_walk_bounded; [done|lia|lia].
Qed.

(** The walk over a well-formed descriptor set that ends in a zero-length
    header answers what [resolve] says, using one round for each descriptor
    and one for the end. *)
Lemma is_entity_valid_walk_resolve (rest : list Z) (ent : usb_audio_entity)
    (descs : list (list Z)) :
  forall (pre : list Z) (fuel : nat),
    Forall desc_wf descs ->
    (length descs < fuel)%nat ->
    is_entity_valid_walk fuel (pre ++ concat descs ++ 0 :: rest) (length pre) ent =
    Ok (resolve descs ent).
Proof.
  induction descs as [|d ds IH]; intros pre fuel Hwf Hfuel;
    (destruct fuel as [|fuel]; [lia|]).
  - cbn [concat app is_entity_valid_walk]. unfold DESC_bLength.
    rewrite load8_app_r. cbn [lookup]. simpl. done.
  - apply Forall_cons in Hwf as [Hd Hds].
    cbn [concat]. rewrite <- app_assoc.
    rewrite is_entity_valid_walk_cons by done.
    unfold resolve. cbn [list_find].
    destruct (decide (is_entity_desc (id ent) d)) as [Hm|Hm]; [done|].
    rewrite IH by (done || simpl in Hfuel; lia).
    unfold resolve. simpl.
    by destruct (list_find (is_entity_desc (id ent)) ds) as [[i d']|].
Qed.

Lemma length_concat_wf (descs : list (list Z)) :
  Forall desc_wf descs -> (length descs <= length (concat descs))%nat.
Proof.
  induction 1 as [|d ds (Hlen & _) _ IH]; simpl; [done|].
  rewrite length_app. lia.
Qed.

Lemma is_entity_valid_resolve (pre rest : list Z) (descs : list (list Z))
    (ent : usb_audio_entity) :
  Forall desc_wf descs ->
  is_entity_valid (pre ++ concat descs ++ 0 :: rest) (length pre) ent =
  Ok (resolve descs ent).
Proof.
  intros Hwf. unfold is_entity_valid.
  apply is_entity_valid_walk_resolve; [done|].
  pose proof (length_concat_wf descs Hwf).
  rewrite !length_app. simpl. lia.
Qed.


Lemma hp_descs_wf : Forall desc_wf hp_descs.
Proof. apply (bool_decide_unpack _). by vm_compute. Qed.






(** On the sample headphones function: the feature unit 2 and the output
    terminal 3 are found with their subtypes, 7 is not; identifier 1 is
    carried by the input terminal and, as [bFormatType], by the format
    descriptor, both of subtype 2. *)
Example is_entity_valid_hp :
  is_entity_valid hp_desc 0 (mk_entity 0 2) = Ok (true, mk_entity FEATURE_UNIT 2) /\
  is_entity_valid hp_desc 0 (mk_entity 0 3) = Ok (true, mk_entity OUTPUT_TERMINAL 3) /\
  is_entity_valid hp_desc 0 (mk_entity 0 7) = Ok (false, mk_entity 0 7) /\
  is_entity_valid hp_desc 0 (mk_entity 0 1) = Ok (true, mk_entity INPUT_TERMINAL 1) /\
  is_entity_desc 1 (INIT_AS_FORMAT_I hp_cfg 16).
Proof. repeat split; done. Qed.

(** ** Buffer pipeline *)

Lemma usb_get_dev_data_by_ep_emit (w : world) (e : event) (ep : Z) :
  usb_get_dev_data_by_ep (emit w e) ep = usb_get_dev_data_by_ep w ep.
Proof. done. Qed.

(** C9. A call of [usb_audio_send] that returns a negative status has
    left the world as it was: no call of the transport, the pool and its
    reference counts (so the caller's buffer) untouched, no device data
    changed; and it is one of the three refusals. *)
Theorem usb_audio_send_failure (w w' : world) (dev : nat) (buffer : net_buf)
    (len r : Z) :
  usb_audio_send w dev buffer len = Ok (r, w') ->
  r < 0 ->
  w' = w /\
  exists d ep,
    devices w !! dev = Some d /\ endpoint d !! 0%nat = Some ep /\
    (Z.land ep 0x80 = 0 \/ tx_enable (driver_data d) = false \/ len > size buffer).
Proof.
  unfold usb_audio_send. intros H Hr.
  destruct (devices w !! dev) as [d|] eqn:Hd; [|done].
  destruct (endpoint d !! 0%nat) as [ep|] eqn:Hep0; [|done].
  destruct (decide (Z.land ep 128 = 0)) as [Hep|Hep].
  { injection H as _ <-. split; [done|]. exists d, ep. auto. }
  destruct (tx_enable (driver_data d)) eqn:Htx; simpl in H.
  - destruct (decide (len > size buffer)) as [Hlen|Hlen].
    + injection H as _ <-. split; [done|]. exists d, ep. auto.
    + injection H as <- _. lia.
  - injection H as _ <-. split; [done|]. exists d, ep. auto.
Qed.

Lemma usb_audio_send_failure_witness :
  hs_world = hs_world /\
  exists d ep,
    devices hs_world !! 0%nat = Some d /\ endpoint d !! 0%nat = Some ep /\
    (Z.land ep 0x80 = 0 \/ tx_enable (driver_data d) = false \/
     100 > size sample_buf).
Proof.
  apply (usb_audio_send_failure hs_world hs_world 0 sample_buf 100 (- EAGAIN)).
  - reflexivity.
  - reflexivity.
Defined.

(** C3. On a function whose first endpoint is an IN endpoint: with
    [tx_enable] false [usb_audio_send] returns [-EAGAIN] and calls nothing;
    with [tx_enable] true and [len] within the buffer's capacity it returns
    0 having called the transport's write once, and, the function being
    registered, the completion callback of that write gives up the buffer's
    reference and calls [data_written_cb], when one is registered, once
    with the size written. *)
Theorem usb_audio_send_in (w : world) (dev : nat) (d : audio_device) (ep : Z)
    (buffer : net_buf) (len : Z) :
  devices w !! dev = Some d ->
  endpoint d !! 0%nat = Some ep ->
  Z.land ep 0x80 <> 0 ->
  (tx_enable (driver_data d) = false ->
   usb_audio_send w dev buffer len = Ok (- EAGAIN, w)) /\
  (tx_enable (driver_data d) = true -> len <= size buffer ->
   let w1 := emit w (UsbTransfer ep (buf_handle buffer) len) in
   usb_audio_send w dev buffer len = Ok (0, w1) /\
   forall written : Z,
     usb_get_dev_data_by_ep w ep = Some dev ->
     common_dev (driver_data d) = dev ->
     exists w2,
       audio_write_cb w1 ep written (buf_handle buffer) = Ok w2 /\
       calls w2 =
         calls w ++ [UsbTransfer ep (buf_handle buffer) len;
                     NetBufUnref (buf_handle buffer)] ++
         (if data_written_registered (driver_data d)
          then [DataWrittenCb dev written] else []) /\
       audio_data_pool w2 = alter Nat.pred (buf_handle buffer) (audio_data_pool w) /\
       devices w2 = devices w).
Proof.
  intros Hd Hep Hin. unfold usb_audio_send. rewrite Hd, Hep.
  rewrite decide_False by done. split.
  - by intros ->.
  - intros -> Hlen. simpl. rewrite decide_False by lia. split; [done|].
    intros written Hlook Hcommon. unfold audio_write_cb.
    rewrite usb_get_dev_data_by_ep_emit, Hlook. simpl. rewrite Hd, Hcommon, Hd.
    unfold data_written_registered.
    destruct (ops (driver_data d)) as [o|]; [destruct (data_written_cb o)|];
      eexists; (split; [done|]); simpl; by rewrite <- ?app_assoc.
Qed.

Lemma usb_audio_send_in_witness :
  let w1 := emit hs_world_tx (UsbTransfer 0x81 0 100) in
  usb_audio_send hs_world_tx 0 sample_buf 100 = Ok (0, w1) /\
  forall written : Z,
  exists w2,
    audio_write_cb w1 0x81 written 0 = Ok w2 /\
    calls w2 = [UsbTransfer 0x81 0 100; NetBufUnref 0; DataWrittenCb 0 written] /\
    audio_data_pool w2 = replicate AUDIO_POOL_COUNT 0%nat /\
    devices w2 = devices hs_world_tx.
Proof.
  intros w1.
  destruct (proj2 (usb_audio_send_in hs_world_tx 0 hs_device_tx 0x81 sample_buf 100
                     eq_refl eq_refl ltac:(discriminate)) eq_refl ltac:(discriminate))
    as [Hsend Hdone].
  split; [exact Hsend|].
  intros written. exact (Hdone written eq_refl eq_refl).
Defined.

(** ** Streaming state tracker *)




(** The headset: selecting alternate setting 0 of the headphones (OUT)
    interface, at offset 139, and then a notification on endpoint 0x02
    changes nothing; selecting alternate setting 1, at offset 148, and then
    the same notification delivers a buffer of 96 bytes. Selecting a
    setting of the microphone (IN) interface, at offset 96, sets
    [tx_enable] and leaves [rx_enable] alone. *)
Example hs_alt_settings :
  (exists w1,
     audio_cb_usb_status hs_world 0 USB_DC_INTERFACE 139 = Ok w1 /\
     (rx_enable <$> (driver_data <$> devices w1 !! 0%nat)) = Some false /\
     audio_receive_cb usb_read_96 w1 0x02 = w1) /\
  (exists w1,
     audio_cb_usb_status hs_world 0 USB_DC_INTERFACE 148 = Ok w1 /\
     (rx_enable <$> (driver_data <$> devices w1 !! 0%nat)) = Some true /\
     calls (audio_receive_cb usb_read_96 w1 0x02) =
       [NetBufAlloc (Some 0%nat); UsbRead 0x02 0 AUDIO_EP_SIZE; DataReceivedCb 0 0 96] /\
     audio_data_pool (audio_receive_cb usb_read_96 w1 0x02) =
       [1; 0; 0; 0; 0]%nat) /\
  (exists w1,
     audio_cb_usb_status hs_world 0 USB_DC_INTERFACE 96 = Ok w1 /\
     (tx_enable <$> (driver_data <$> devices w1 !! 0%nat)) = Some true /\
     (rx_enable <$> (driver_data <$> devices w1 !! 0%nat)) = Some false).
Proof. repeat split; eexists; repeat split; reflexivity. Qed.

(** The sample world is what registration makes of the declared headset. *)
Example hs_world_registered :
  usb_audio_register
    (mk_world (descriptors hs_world)
              [mk_audio_device [0x81; 0x02] 0 (DEFINE_AUDIO_DEV_DATA_BIDIR hs_cfg)]
              [] (replicate AUDIO_POOL_COUNT 0%nat) [])
    0 (Some sample_ops) = Ok hs_world.
Proof. reflexivity. Qed.

(** * Further properties of the code *)

(** ** SET_CUR on MUTE_CONTROL *)

Lemma set_mutes_nil (tbl : list controls) (ch : nat) : set_mutes tbl ch [] = tbl.
Proof.
  unfold set_mutes. rewrite zip_with_nil_r. simpl.
  by rewrite Nat.add_0_r, take_drop.
Qed.

Lemma set_mutes_cons (tbl : list controls) (ch : nat) (c : controls) (v : Z)
    (vs : list Z) :
  tbl !! ch = Some c ->
  set_mutes (<[ch := set_mute c v]> tbl) (S ch) vs = set_mutes tbl ch (v :: vs).
Proof.
  intros Hc. pose proof (lookup_lt_Some _ _ _ Hc) as Hlt. unfold set_mutes.
  rewrite (take_S_r _ _ (set_mute c v)) by (by rewrite list_lookup_insert_eq).
  rewrite take_insert_ge by lia. rewrite !drop_insert_lt by (simpl; lia).
  rewrite (drop_S tbl c ch Hc). simpl.
  rewrite <- app_assoc. simpl.
  by replace (ch + S (length vs))%nat with (S (ch + length vs)) by lia.
Qed.

Lemma length_set_mutes (tbl : list controls) (ch : nat) (vs : list Z) :
  (ch + length vs <= length tbl)%nat -> length (set_mutes tbl ch vs) = length tbl.
Proof.
  intros H. unfold set_mutes.
  rewrite !length_app, length_take, length_zip_with, !length_drop. lia.
Qed.

Lemma fu_req_body_set_cur (device : Z) (dir : direction) (p : usb_setup_packet)
    (payload : list Z) (acc : fu_loop) (ch : Z) :
  bRequest p = SET_CUR ->
  fu_req_body device dir MUTE_CONTROL p payload ReqBuf acc ch =
  do v <- read_data payload (loop_state acc) ReqBuf (data_offset acc);
  do c <- load_controls (dev_data (loop_state acc)) device ch;
  do d' <- store_controls (dev_data (loop_state acc)) device ch (set_mute c v);
  match ops d' with
  | None => Fault NullOps
  | Some o =>
      Ok (mk_fu_loop
            (mk_fu_state d' (tmp_data_ptr (loop_state acc))
               (if feature_update_cb o then
                  trace (loop_state acc) ++
                  [FeatureUpdateCb (common_dev d') dir MUTE_CONTROL (u8 ch)
                     (Z.to_nat device) v]
                else trace (loop_state acc)))
            (u8 (data_offset acc + 1)) 0)
  end.
Proof.
  intros Hset. unfold fu_req_body. rewrite decide_True by done.
  rewrite decide_True by done.
  destruct (read_data _ _ _ _); [cbn [bind]|done].
  destruct (load_controls _ _ _); [cbn [bind]|done].
  destruct (store_controls _ _ _ _) as [d'|]; [cbn [bind]|done].
  by destruct (ops d').
Qed.

(** [k] rounds of the loop for SET_CUR, from channel [ch] and payload
    offset [off], on a function with observers [o]. *)
Lemma set_cur_loop (device : Z) (dir : direction) (p : usb_setup_packet)
    (payload : list Z) (o : audio_ops) (tmp : list Z) (k : nat) :
  bRequest p = SET_CUR ->
  forall (d : usb_audio_dev_data_t) (tbl : list controls) (ch off : nat)
         (tr : list event) (r : Z),
    ops d = Some o ->
    dev_controls d !! Z.to_nat device = Some (Some tbl) ->
    (ch + k <= length tbl)%nat ->
    (off + k <= length payload)%nat ->
    (off + k < 256)%nat ->
    let vs := take k (drop off payload) in
    foldM (fu_req_body device dir MUTE_CONTROL p payload ReqBuf)
          (mk_fu_loop (mk_fu_state d tmp tr) (Z.of_nat off) r)
          (seqZ (Z.of_nat ch) (Z.of_nat k)) =
    Ok (mk_fu_loop
          (mk_fu_state
             (set_dev_controls d
                (<[Z.to_nat device := Some (set_mutes tbl ch vs)]> (dev_controls d)))
             tmp
             (if feature_update_cb o then
                tr ++ feature_updates (common_dev d) dir (Z.to_nat device)
                        (Z.of_nat ch) vs
              else tr))
          (Z.of_nat (off + k))
          (if decide (k = 0%nat) then r else 0)).
Proof.
  intros Hset. induction k as [|k IH]; intros d tbl ch off tr r Hops Hslot Hch Hoff H8 vs.
  - subst vs. simpl. rewrite set_mutes_nil, Nat.add_0_r.
    rewrite list_insert_id by done. rewrite app_nil_r.
    destruct d; simpl. by destruct (feature_update_cb o).
  - rewrite seqZ_cons by lia.
    replace (Z.pred (Z.of_nat (S k))) with (Z.of_nat k) by lia.
    replace (Z.succ (Z.of_nat ch)) with (Z.of_nat (S ch)) by lia.
    destruct (lookup_lt_is_Some_2 tbl ch) as [c Hc]; [lia|].
    destruct (lookup_lt_is_Some_2 payload off) as [v Hv]; [lia|].
    assert (vs = v :: take k (drop (S off) payload)) as Hvs
      by (subst vs; by rewrite (drop_S _ _ _ Hv)).
    rewrite foldM_cons, fu_req_body_set_cur by done.
    cbn [loop_state dev_data tmp_data_ptr data_offset trace read_data].
    rewrite Nat2Z.id, Hv. cbn [bind].
    rewrite (load_controls_lookup _ _ _ _ _ Hslot Hc). cbn [bind].
    unfold store_controls. rewrite Hslot, Nat2Z.id.
    rewrite decide_True by (by eapply lookup_lt_Some). cbn [bind ops set_dev_controls].
    rewrite Hops. change (u8 (Z.of_nat off + 1)) with ((Z.of_nat off + 1) mod 256).
    rewrite (Z.mod_small (Z.of_nat off + 1)) by lia.
    replace (Z.of_nat off + 1) with (Z.of_nat (S off)) by lia.
    cbn [bind]. set (d1 := set_dev_controls d _).
    assert (dev_controls d1 !! Z.to_nat device = Some (Some (<[ch := set_mute c v]> tbl)))
      as Hslot1.
    { subst d1. simpl. apply list_lookup_insert_eq. by eapply lookup_lt_Some. }
    rewrite (IH d1 (<[ch := set_mute c v]> tbl) (S ch) (S off) _ 0 Hops Hslot1)
      by (rewrite ?length_insert; lia).
    rewrite set_mutes_cons by done. rewrite <- Hvs.
    f_equal. f_equal; [|f_equal; lia|by case_decide].
    f_equal.
    + subst d1. unfold set_dev_controls. simpl. by rewrite list_insert_insert_eq.
    + subst d1. cbn [common_dev set_dev_controls].
      destruct (feature_update_cb o); [|done].
      rewrite Hvs. cbn [feature_updates]. rewrite <- app_assoc. cbn [app].
      do 3 f_equal. lia.
Qed.

(** A request on MUTE_CONTROL that passes both checks runs the channel
    loop over its range. *)
Lemma mute_request_fold (m : mem) (payload : list Z) (st : fu_state)
    (p : usb_setup_packet) (len : Z) (data : data_ptr)
    (device : Z) (fu : nat) (dir : direction) (ctl nch : Z) :
  get_feature_unit m (dev_data st) (req_fu_id p) = Ok (device, fu) ->
  get_fu_dir m fu = Ok dir ->
  get_controls m fu = Ok ctl ->
  get_num_of_channels m fu = Ok nch ->
  req_control_selector p = MUTE_CONTROL ->
  selector_available MUTE_CONTROL ctl ->
  (req_ch_num p = 0xFF \/ req_ch_num p < nch) ->
  let n := Z.to_nat (if decide (req_ch_num p = 0xFF) then nch else 1) in
  handle_feature_unit_req m payload st p len data =
  do acc <- foldM (fu_req_body device dir MUTE_CONTROL p payload data)
              (mk_fu_loop st 0 (- EINVAL))
              (seqZ (Z.of_nat (Z.to_nat (req_ch_start p))) (Z.of_nat n));
  if decide (to_host p) then
    Ok (ret acc, loop_state acc, data_offset acc, TmpData)
  else
    Ok (ret acc, loop_state acc, len, data).
Proof.
  intros Hfu Hdir Hctl Hnch Hcs Hsel Hch n.
  pose proof (get_num_of_channels_range _ _ _ Hnch) as Hnr.
  pose proof (req_ch_num_range p) as Hcr.
  assert (0 <= req_ch_start p) as Hs0
    by (unfold req_ch_start; case_decide; lia).
  rewrite (handle_fu_req_checks m payload st p len data device fu dir ctl nch)
    by done.
  unfold selector_available in Hsel. rewrite Hcs.
  rewrite decide_False by done. rewrite decide_False by lia.
  rewrite req_range_length.
  replace (if decide (req_ch_num p = 255) then nch else 1) with (Z.of_nat n)
    by (subst n; destruct (decide (req_ch_num p = 255)); lia).
  by rewrite (Z2Nat.id (req_ch_start p)) by done.
Qed.

(** The channel loop of a SET_CUR on MUTE_CONTROL over the range of the
    request, with a payload byte for every channel. *)
Lemma set_cur_range_loop (device : Z) (dir : direction) (p : usb_setup_packet)
    (payload : list Z) (st : fu_state) (nch : Z) (tbl : list controls)
    (o : audio_ops) :
  bRequest p = SET_CUR ->
  0 <= nch < 256 ->
  (req_ch_num p = 0xFF \/ req_ch_num p < nch) ->
  ops (dev_data st) = Some o ->
  dev_controls (dev_data st) !! Z.to_nat device = Some (Some tbl) ->
  (Z.to_nat nch <= length tbl)%nat ->
  let n := Z.to_nat (if decide (req_ch_num p = 0xFF) then nch else 1) in
  (n <= length payload)%nat ->
  let vs := take n payload in
  foldM (fu_req_body device dir MUTE_CONTROL p payload ReqBuf)
        (mk_fu_loop st 0 (- EINVAL))
        (seqZ (Z.of_nat (Z.to_nat (req_ch_start p))) (Z.of_nat n)) =
  Ok (mk_fu_loop
        (mk_fu_state
           (set_dev_controls (dev_data st)
              (<[Z.to_nat device :=
                   Some (set_mutes tbl (Z.to_nat (req_ch_start p)) vs)]>
                 (dev_controls (dev_data st))))
           (tmp_data_ptr st)
           (if feature_update_cb o then
              trace st ++ feature_updates (common_dev (dev_data st)) dir
                            (Z.to_nat device) (req_ch_start p) vs
            else trace st))
        (Z.of_nat n)
        (if decide (n = 0%nat) then - EINVAL else 0)).
Proof.
  intros Hset Hnr Hch Hops Hslot Htbl n Hpay vs.
  pose proof (req_ch_num_range p) as Hcr.
  assert (0 <= req_ch_start p) as Hs0
    by (unfold req_ch_start; case_decide; lia).
  assert (Z.to_nat (req_ch_start p) + n <= length tbl)%nat as Hfit.
  { subst n. unfold req_ch_start. destruct (decide (req_ch_num p = 255)); lia. }
  assert (n < 256)%nat as Hn8
    by (subst n; destruct (decide (req_ch_num p = 255)); lia).
  destruct st as [d tmp tr]. cbn [dev_data tmp_data_ptr trace] in *.
  pose proof (set_cur_loop device dir p payload o tmp n Hset d tbl
                (Z.to_nat (req_ch_start p)) 0 tr (- EINVAL) Hops Hslot Hfit
                ltac:(lia) ltac:(lia)) as Hloop.
  cbn zeta in Hloop. change (Z.of_nat 0) with 0 in Hloop.
  rewrite drop_0 in Hloop. rewrite Hloop.
  by rewrite (Z2Nat.id (req_ch_start p)) by done.
Qed.

(** X1. A host-to-device SET_CUR on MUTE_CONTROL that passes both checks
    copies one payload byte per channel of the range (one channel, or all
    of them for the wildcard 0xFF) into the mute flags of those channels,
    in order, and touches nothing else: the other controls, the other
    channels, the scratch and the reply length and pointer stay; when
    [feature_update_cb] is registered it is called once per channel, in
    channel order, with the value stored. *)
Theorem set_cur_mute_writes (m : mem) (payload : list Z) (st : fu_state)
    (p : usb_setup_packet) (len : Z)
    (device : Z) (fu : nat) (dir : direction) (ctl nch : Z)
    (tbl : list controls) (o : audio_ops) :
  get_feature_unit m (dev_data st) (req_fu_id p) = Ok (device, fu) ->
  get_fu_dir m fu = Ok dir ->
  get_controls m fu = Ok ctl ->
  get_num_of_channels m fu = Ok nch ->
  req_control_selector p = MUTE_CONTROL ->
  bRequest p = SET_CUR ->
  ~ to_host p ->
  selector_available MUTE_CONTROL ctl ->
  (req_ch_num p = 0xFF \/ req_ch_num p < nch) ->
  ops (dev_data st) = Some o ->
  dev_controls (dev_data st) !! Z.to_nat device = Some (Some tbl) ->
  (Z.to_nat nch <= length tbl)%nat ->
  let n := Z.to_nat (if decide (req_ch_num p = 0xFF) then nch else 1) in
  (n <= length payload)%nat ->
  let vs := take n payload in
  handle_feature_unit_req m payload st p len ReqBuf =
  Ok (if decide (n = 0%nat) then - EINVAL else 0,
      mk_fu_state
        (set_dev_controls (dev_data st)
           (<[Z.to_nat device :=
                Some (set_mutes tbl (Z.to_nat (req_ch_start p)) vs)]>
              (dev_controls (dev_data st))))
        (tmp_data_ptr st)
        (if feature_update_cb o then
           trace st ++ feature_updates (common_dev (dev_data st)) dir
                         (Z.to_nat device) (req_ch_start p) vs
         else trace st),
      len, ReqBuf).
Proof.
  intros Hfu Hdir Hctl Hnch Hcs Hset Hto Hsel Hch Hops Hslot Htbl n Hpay vs.
  pose proof (get_num_of_channels_range _ _ _ Hnch) as Hnr.
  rewrite (mute_request_fold m payload st p len ReqBuf device fu dir ctl nch)
    by done.
  fold n.
  pose proof (set_cur_range_loop device dir p payload st nch tbl o Hset Hnr Hch
                Hops Hslot Htbl Hpay) as Hloop.
  cbn zeta in Hloop. fold n vs in Hloop. rewrite Hloop.
  cbn [bind ret loop_state]. by rewrite decide_False.
Qed.

Lemma set_cur_mute_writes_witness :
  handle_feature_unit_req hp_desc [1; 0; 1; 7] hp_state hp_set_mute_all 3 ReqBuf =
  Ok (0,
      mk_fu_state
        (set_dev_controls hp_dev_data
           [Some [set_mute zero_controls 1; zero_controls; set_mute zero_controls 1];
            None])
        [0; 0; 0]
        [FeatureUpdateCb 0 OUT MUTE_CONTROL 0 0 1;
         FeatureUpdateCb 0 OUT MUTE_CONTROL 1 0 0;
         FeatureUpdateCb 0 OUT MUTE_CONTROL 2 0 1],
      3, ReqBuf).
Proof.
  apply (set_cur_mute_writes hp_desc [1; 0; 1; 7] hp_state hp_set_mute_all 3
           0 30%nat OUT 3 3 (replicate 3 zero_controls) sample_ops);
    try reflexivity.
  - vm_compute. discriminate.
  - vm_compute. discriminate.
  - left. reflexivity.
  - vm_compute. lia.
Defined.

(** ** Status and footprint of a feature unit request *)

(** The channel loop keeps: either the status is 0, and then the selector
    is MUTE_CONTROL and the request SET_CUR or GET_CUR, or the status is
    still [-EINVAL] and the state is the one the loop started from. *)
Lemma fu_loop_status (device : Z) (dir : direction) (cs : Z)
    (p : usb_setup_packet) (payload : list Z) (data : data_ptr)
    (st0 : fu_state) (l : list Z) :
  forall acc acc' : fu_loop,
    (ret acc = 0 /\ cs = MUTE_CONTROL /\
       (bRequest p = SET_CUR \/ bRequest p = GET_CUR) \/
     ret acc = - EINVAL /\ loop_state acc = st0) ->
    foldM (fu_req_body device dir cs p payload data) acc l = Ok acc' ->
    ret acc' = 0 /\ cs = MUTE_CONTROL /\
       (bRequest p = SET_CUR \/ bRequest p = GET_CUR) \/
    ret acc' = - EINVAL /\ loop_state acc' = st0.
Proof.
  induction l as [|ch l IH]; intros acc acc' Hacc Hrun.
  - by injection Hrun as <-.
  - rewrite foldM_cons in Hrun. apply bind_Ok in Hrun as (acc1 & Hbody & Hrun).
    apply (IH acc1 acc'); [|done]. clear IH Hrun.
    unfold fu_req_body in Hbody.
    destruct (decide (cs = MUTE_CONTROL)) as [Hcs|Hcs];
      [|by injection Hbody as <-].
    apply bind_Ok in Hbody as ([st1 r1] & Hreq & Hbody). injection Hbody as <-.
    cbn [ret loop_state].
    destruct (decide (bRequest p = SET_CUR)) as [Hset|Hset].
    { apply bind_Ok in Hreq as (v & _ & Hreq).
      apply bind_Ok in Hreq as (c & _ & Hreq).
      apply bind_Ok in Hreq as (d' & _ & Hreq).
      destruct (ops d'); [|done]. injection Hreq as _ <-. left. tauto. }
    destruct (decide (bRequest p = GET_CUR)) as [Hget|Hget].
    { apply bind_Ok in Hreq as (c & _ & Hreq).
      apply bind_Ok in Hreq as (tmp' & _ & Hreq).
      injection Hreq as _ <-. left. tauto. }
    injection Hreq as <- <-. right. split; [done|].
    destruct Hacc as [(_ & _ & [?|?])|[_ ?]]; done.
Qed.

(** A run of the handler that returns was either refused by one of the
    two checks, or is a run of the channel loop. *)
Lemma handle_fu_req_run_inv (m : mem) (payload : list Z) (st : fu_state)
    (p : usb_setup_packet) (len : Z) (data : data_ptr)
    (r : Z) (st' : fu_state) (len' : Z) (data' : data_ptr) :
  handle_feature_unit_req m payload st p len data = Ok (r, st', len', data') ->
  (r = - EINVAL /\ st' = st /\ len' = len /\ data' = data) \/
  exists (device : Z) (dir : direction) (l : list Z) (acc : fu_loop),
    foldM (fu_req_body device dir (req_control_selector p) p payload data)
          (mk_fu_loop st 0 (- EINVAL)) l = Ok acc /\
    r = ret acc /\ st' = loop_state acc /\
    (len' = len /\ data' = data \/
     to_host p /\ data' = TmpData /\ len' = data_offset acc).
Proof.
  intros Hrun.
  destruct (handle_fu_req_Ok_inv _ _ _ _ _ _ _ Hrun)
    as (device & fu & dir & ctl & nch & Hfu & Hdir & Hctl & Hnch).
  rewrite (handle_fu_req_checks m payload st p len data device fu dir ctl nch)
    in Hrun by done.
  case_decide; [injection Hrun as <- <- <- <-; by left|].
  case_decide; [injection Hrun as <- <- <- <-; by left|].
  apply bind_Ok in Hrun as (acc & Hloop & Hrun).
  right. eexists device, dir, _, acc. split; [done|].
  case_decide; injection Hrun as <- <- <- <-; (split; [done|]); (split; [done|]);
    [right|left]; done.
Qed.

(** X2. Whatever the request, a run of the handler that returns has
    status 0 or [-EINVAL]. Status 0 is only given to a SET_CUR or GET_CUR on
    MUTE_CONTROL; a request answered with [-EINVAL] has left the device
    data, the scratch and the call trace exactly as they were. *)
Theorem fu_req_status (m : mem) (payload : list Z) (st : fu_state)
    (p : usb_setup_packet) (len : Z) (data : data_ptr)
    (r : Z) (st' : fu_state) (len' : Z) (data' : data_ptr) :
  handle_feature_unit_req m payload st p len data = Ok (r, st', len', data') ->
  r = 0 /\ req_control_selector p = MUTE_CONTROL /\
    (bRequest p = SET_CUR \/ bRequest p = GET_CUR) \/
  r = - EINVAL /\ st' = st.
Proof.
  intros Hrun.
  apply handle_fu_req_run_inv in Hrun
    as [(-> & -> & _)|(device & dir & l & acc & Hloop & -> & -> & _)];
    [by right|].
  apply (fu_loop_status _ _ _ _ _ _ st) in Hloop; [done|by right].
Qed.

Lemma fu_req_status_witness :
  0 = 0 /\ req_control_selector hp_set_mute = MUTE_CONTROL /\
    (bRequest hp_set_mute = SET_CUR \/ bRequest hp_set_mute = GET_CUR) \/
  0 = - EINVAL /\ hp_state_muted = hp_state.
Proof.
  apply (fu_req_status hp_desc [1] hp_state hp_set_mute 1 ReqBuf
           0 hp_state_muted 1 ReqBuf).
  reflexivity.
Defined.

Lemma mute_only_refl (c : controls) : mute_only c c.
Proof. by destruct c. Qed.

Lemma mute_only_trans (c1 c2 c3 : controls) :
  mute_only c1 c2 -> mute_only c2 c3 -> mute_only c1 c3.
Proof. unfold mute_only. intros <- <-. by destruct c1. Qed.

Lemma mute_only_set_mute (c : controls) (v : Z) : mute_only c (set_mute c v).
Proof. by destruct c. Qed.

Lemma Forall2_chain {A} (R : relation A) (l1 l2 l3 : list A) :
  (forall x y z, R x y -> R y z -> R x z) ->
  Forall2 R l1 l2 -> Forall2 R l2 l3 -> Forall2 R l1 l3.
Proof.
  intros HR H. revert l3. induction H; inversion 1; subst; constructor; eauto.
Qed.

Lemma same_but_mutes_refl (d : usb_audio_dev_data_t) : same_but_mutes d d.
Proof.
  repeat split. apply Forall_Forall2_diag, Forall_forall. intros [tbl|] _; constructor.
  apply Forall_Forall2_diag, Forall_forall. intros c _. apply mute_only_refl.
Qed.

Lemma same_but_mutes_trans (d1 d2 d3 : usb_audio_dev_data_t) :
  same_but_mutes d1 d2 -> same_but_mutes d2 d3 -> same_but_mutes d1 d3.
Proof.
  intros (Ho & Hh & Hc & Hr & Ht & Hf) (Ho' & Hh' & Hc' & Hr' & Ht' & Hf').
  repeat split; try congruence.
  eapply Forall2_chain; [|done..].
  intros t1 t2 t3 H12 H23. destruct H12; inversion H23; subst; constructor.
  eapply Forall2_chain; [|done..]. apply mute_only_trans.
Qed.

Lemma store_controls_same_but_mutes (d d' : usb_audio_dev_data_t) (device ch : Z)
    (c : controls) (v : Z) :
  load_controls d device ch = Ok c ->
  store_controls d device ch (set_mute c v) = Ok d' ->
  same_but_mutes d d'.
Proof.
  unfold load_controls, store_controls.
  destruct (dev_controls d !! Z.to_nat device) as [[tbl|]|] eqn:Hslot; try done.
  destruct (tbl !! Z.to_nat ch) as [c'|] eqn:Hc; [|done]. intros [= ->].
  case_decide; [|done]. intros [= <-]. repeat split. cbn [dev_controls set_dev_controls].
  rewrite <- (list_insert_id _ _ _ Hslot) at 1.
  apply Forall2_insert; [apply (same_but_mutes_refl d)|]. constructor.
  rewrite <- (list_insert_id _ _ _ Hc) at 1.
  apply Forall2_insert; [|apply mute_only_set_mute].
  apply Forall_Forall2_diag, Forall_forall. intros c0 _. apply mute_only_refl.
Qed.

Lemma fu_frame_refl (st : fu_state) : fu_frame st st.
Proof.
  split; [apply same_but_mutes_refl|]. split; [done|].
  exists []. by rewrite app_nil_r.
Qed.

Lemma fu_req_body_frame (device : Z) (dir : direction) (cs : Z)
    (p : usb_setup_packet) (payload : list Z) (data : data_ptr)
    (st0 : fu_state) (acc acc' : fu_loop) (ch : Z) :
  fu_frame st0 (loop_state acc) ->
  0 <= data_offset acc < 256 ->
  fu_req_body device dir cs p payload data acc ch = Ok acc' ->
  fu_frame st0 (loop_state acc') /\ 0 <= data_offset acc' < 256.
Proof.
  intros Hframe Hoff Hbody.
  pose proof Hframe as (Hsame & Htmp & evs & Htr & Hevs).
  unfold fu_req_body in Hbody.
  destruct (decide (cs = MUTE_CONTROL)) as [Hcs|Hcs];
    [|by injection Hbody as <-].
  apply bind_Ok in Hbody as ([st1 r1] & Hreq & Hbody). injection Hbody as <-.
  cbn [loop_state data_offset].
  split; [|apply Z.mod_pos_bound; lia].
  destruct (decide (bRequest p = SET_CUR)) as [Hset|Hset].
  { apply bind_Ok in Hreq as (v & _ & Hreq).
    apply bind_Ok in Hreq as (c & Hld & Hreq).
    apply bind_Ok in Hreq as (d' & Hstore & Hreq).
    pose proof (store_controls_same_but_mutes _ _ _ _ _ _ Hld Hstore) as Hstep.
    destruct (ops d') as [o|]; [|done]. injection Hreq as <- _.
    split; [by eapply same_but_mutes_trans|]. split; [done|].
    cbn [trace]. destruct (feature_update_cb o); [|by eauto].
    exists (evs ++ [FeatureUpdateCb (common_dev d') dir cs (u8 ch)
                      (Z.to_nat device) v]).
    rewrite Htr, app_assoc. split; [done|].
    apply Forall_app. split; [done|]. apply Forall_singleton. simpl.
    destruct Hsame as (_ & _ & Hc0 & _). destruct Hstep as (_ & _ & Hc1 & _).
    split; [congruence|done]. }
  destruct (decide (bRequest p = GET_CUR)) as [Hget|Hget].
  { apply bind_Ok in Hreq as (c & _ & Hreq).
    apply bind_Ok in Hreq as (tmp' & Hst & Hreq). injection Hreq as <- _.
    split; [done|]. cbn [tmp_data_ptr trace]. split; [|by eauto].
    unfold store_tmp in Hst. case_decide; [|done]. injection Hst as <-.
    by rewrite length_insert. }
  by injection Hreq as <- _.
Qed.

Lemma fu_loop_frame (device : Z) (dir : direction) (cs : Z)
    (p : usb_setup_packet) (payload : list Z) (data : data_ptr)
    (st0 : fu_state) (l : list Z) :
  forall acc acc' : fu_loop,
    fu_frame st0 (loop_state acc) ->
    0 <= data_offset acc < 256 ->
    foldM (fu_req_body device dir cs p payload data) acc l = Ok acc' ->
    fu_frame st0 (loop_state acc') /\ 0 <= data_offset acc' < 256.
Proof.
  induction l as [|ch l IH]; intros acc acc' Hacc Hoff Hrun.
  - by injection Hrun as <-.
  - rewrite foldM_cons in Hrun. apply bind_Ok in Hrun as (acc1 & Hbody & Hrun).
    destruct (fu_req_body_frame _ _ _ _ _ _ _ _ _ _ Hacc Hoff Hbody).
    by apply (IH acc1 acc').
Qed.

(** X3. Whatever the request, a run of the handler that returns has kept
    the observers, the header, the device and the streaming flags; in the
    controls tables it has changed mute flags at most, every other control
    and the table sizes being as before; the scratch has kept its length;
    the calls made are [feature_update_cb] calls on the mute selector for
    this device, added behind the earlier ones. The reply is either left
    to the caller, or, for a device-to-host request, moved to the scratch
    with a length that fits a byte. *)
Theorem fu_req_frame (m : mem) (payload : list Z) (st : fu_state)
    (p : usb_setup_packet) (len : Z) (data : data_ptr)
    (r : Z) (st' : fu_state) (len' : Z) (data' : data_ptr) :
  handle_feature_unit_req m payload st p len data = Ok (r, st', len', data') ->
  fu_frame st st' /\
  (len' = len /\ data' = data \/
   to_host p /\ data' = TmpData /\ 0 <= len' < 256).
Proof.
  intros Hrun.
  apply handle_fu_req_run_inv in Hrun
    as [(_ & -> & -> & ->)|(device & dir & l & acc & Hloop & _ & -> & Hreply)].
  { split; [apply fu_frame_refl|by left]. }
  apply (fu_loop_frame _ _ _ _ _ _ st) in Hloop as [Hframe Hoff];
    [|apply fu_frame_refl|done].
  split; [done|].
  destruct Hreply as [?|(Hto & -> & ->)]; [by left|by right].
Qed.

Lemma fu_req_frame_witness :
  fu_frame hp_state hp_state_muted /\
  (1 = 1 /\ ReqBuf = ReqBuf \/
   to_host hp_set_mute /\ ReqBuf = TmpData /\ 0 <= 1 < 256).
Proof.
  apply (fu_req_frame hp_desc [1] hp_state hp_set_mute 1 ReqBuf
           0 hp_state_muted 1 ReqBuf).
  reflexivity.
Defined.

(** X4. The SET_CUR branch reads [dev_data->ops->feature_update_cb] before
    it tests [dev_data->ops]: on a function registered without observers a
    SET_CUR on MUTE_CONTROL that passes both checks, for a channel the
    table has and with a payload byte at hand, goes through the NULL
    [ops]. *)
Theorem set_cur_without_ops (m : mem) (payload : list Z) (st : fu_state)
    (p : usb_setup_packet) (len : Z)
    (device : Z) (fu : nat) (dir : direction) (ctl nch : Z)
    (tbl : list controls) :
  get_feature_unit m (dev_data st) (req_fu_id p) = Ok (device, fu) ->
  get_fu_dir m fu = Ok dir ->
  get_controls m fu = Ok ctl ->
  get_num_of_channels m fu = Ok nch ->
  req_control_selector p = MUTE_CONTROL ->
  bRequest p = SET_CUR ->
  selector_available MUTE_CONTROL ctl ->
  (req_ch_num p = 0xFF /\ 0 < nch \/ req_ch_num p < nch) ->
  ops (dev_data st) = None ->
  dev_controls (dev_data st) !! Z.to_nat device = Some (Some tbl) ->
  (Z.to_nat nch <= length tbl)%nat ->
  (0 < length payload)%nat ->
  handle_feature_unit_req m payload st p len ReqBuf = Fault NullOps.
Proof.
  intros Hfu Hdir Hctl Hnch Hcs Hset Hsel Hch Hops Hslot Htbl Hpay.
  pose proof (get_num_of_channels_range _ _ _ Hnch) as Hnr.
  pose proof (req_ch_num_range p) as Hcr.
  rewrite (handle_fu_req_checks m payload st p len ReqBuf device fu dir ctl nch)
    by done.
  unfold selector_available in Hsel. rewrite Hcs.
  rewrite decide_False by done. rewrite decide_False by lia.
  rewrite req_range_length.
  assert (0 <= req_ch_start p < nch) as Hs
    by (unfold req_ch_start; case_decide; lia).
  rewrite seqZ_cons by (case_decide; lia).
  rewrite foldM_cons, fu_req_body_set_cur by done.
  cbn [loop_state data_offset read_data]. change (Z.to_nat 0) with 0%nat.
  destruct payload as [|v payload]; [simpl in Hpay; lia|]. cbn [lookup list_lookup bind].
  destruct (lookup_lt_is_Some_2 tbl (Z.to_nat (req_ch_start p))) as [c Hc]; [lia|].
  unfold load_controls, store_controls. rewrite Hslot, Hc. cbn [bind].
  rewrite decide_True by lia. cbn [bind ops set_dev_controls]. by rewrite Hops.
Qed.

Lemma set_cur_without_ops_witness :
  handle_feature_unit_req hp_desc [1] hp_state_no_ops hp_set_mute 1 ReqBuf =
  Fault NullOps.
Proof.
  apply (set_cur_without_ops hp_desc [1] hp_state_no_ops hp_set_mute 1
           0 30%nat OUT 3 3 (replicate 3 zero_controls));
    try reflexivity.
  - vm_compute. discriminate.
  - right. reflexivity.
  - vm_compute. lia.
Defined.

(** ** The accessors on the declared descriptors *)

Lemma length_concat_le16 (n : nat) (v : Z) :
  length (concat (replicate n (le16 v))) = (2 * n)%nat.
Proof. induction n as [|n IH]; [done|]. simpl. rewrite IH. lia. Qed.

Lemma length_FILLED_FEATURE_UNIT (c : instance_cfg) (unit_id source_id : Z) :
  length (FILLED_FEATURE_UNIT c unit_id source_id) = (9 + 2 * CH_CNT c)%nat.
Proof.
  unfold FILLED_FEATURE_UNIT. rewrite !length_app, length_concat_le16.
  simpl. lia.
Qed.

(** A feature unit as declared or as filled in, followed by its output
    terminal: what the accessors read from it. *)
Lemma unit_accessors (c : instance_cfg) (pre fu_bytes tl : list Z)
    (unit_id source_id ot_id ot_type : Z) :
  fu_bytes = INIT_FEATURE_UNIT c unit_id source_id \/
  fu_bytes = FILLED_FEATURE_UNIT c unit_id source_id ->
  (CH_CNT c <= 12)%nat ->
  0 <= FEATURES c < 65536 ->
  0 <= ot_type < 65536 ->
  let m := pre ++ fu_bytes ++ INIT_OUT_TERMINAL ot_id unit_id ot_type ++ tl in
  let fu := length pre in
  m !! fu = Some (feature_unit_size c) /\
  m !! (fu + FU_bUnitID)%nat = Some unit_id /\
  get_num_of_channels m fu = Ok (Z.of_nat (CH_CNT c) + 1) /\
  get_controls m fu = Ok (FEATURES c) /\
  get_fu_dir m fu = Ok (if decide (ot_type = USB_STREAMING) then IN else OUT).
Proof.
  intros Hfu Hch Hf Hot m fu.
  pose proof (feature_unit_size_nat c) as Hfs.
  assert (length fu_bytes = (9 + 2 * CH_CNT c)%nat) as Hfl
    by (destruct Hfu as [-> | ->];
        [apply length_INIT_FEATURE_UNIT | apply length_FILLED_FEATURE_UNIT]).
  assert (forall k : nat, (k < 8)%nat -> m !! (fu + k)%nat = fu_bytes !! k) as Hin.
  { intros k Hk. subst m fu. rewrite lookup_app_r by lia.
    rewrite lookup_app_l by lia. f_equal. lia. }
  assert (forall k : nat, (k < 9)%nat ->
            m !! (fu + Z.to_nat (feature_unit_size c) + k)%nat =
            INIT_OUT_TERMINAL ot_id unit_id ot_type !! k) as Hout.
  { intros k Hk. subst m fu. rewrite lookup_app_r by lia.
    rewrite lookup_app_r by lia. rewrite lookup_app_l by (simpl; lia).
    f_equal. lia. }
  assert (fu_bytes !! 0%nat = Some (feature_unit_size c)) as H0
    by (by destruct Hfu as [-> | ->]).
  assert (fu_bytes !! 3%nat = Some unit_id) as H3
    by (by destruct Hfu as [-> | ->]).
  assert (fu_bytes !! 6%nat = Some (FEATURES c mod 256)) as H6
    by (destruct Hfu as [-> | ->]; [done|];
        unfold FILLED_FEATURE_UNIT; by rewrite Nat.add_1_r).
  assert (fu_bytes !! 7%nat = Some (FEATURES c / 256 mod 256)) as H7
    by (destruct Hfu as [-> | ->]; [done|];
        unfold FILLED_FEATURE_UNIT; by rewrite Nat.add_1_r).
  assert (m !! fu = Some (feature_unit_size c)) as Hlen
    by (rewrite <- (Nat.add_0_r fu), Hin by lia; done).
  split; [done|]. split; [by rewrite Hin by (unfold FU_bUnitID; lia)|].
  split; [|split].
  - rewrite (get_num_of_channels_Ok m fu (feature_unit_size c))
      by (done || unfold feature_unit_size; lia).
    f_equal. unfold feature_unit_size.
    replace (6 + 2 * (Z.of_nat (CH_CNT c) + 1) + 1 - 7)
      with ((Z.of_nat (CH_CNT c) + 1) * 2) by lia.
    by rewrite Z.div_mul.
  - unfold get_controls, BMA_CONTROLS_OFFSET.
    rewrite <- (le16_value (FEATURES c)) by done.
    apply load16_Ok; [by rewrite Hin by lia|].
    replace (fu + 6 + 1)%nat with (fu + 7)%nat by lia. by rewrite Hin by lia.
  - unfold get_fu_dir, DESC_bLength, OT_wTerminalType. rewrite Nat.add_0_r.
    apply load8_Ok in Hlen. rewrite Hlen. cbn [bind].
    rewrite (load16_Ok _ _ (ot_type mod 256) (ot_type / 256 mod 256)).
    + cbn [bind]. by rewrite le16_value.
    + by rewrite Hout by lia.
    + replace (fu + Z.to_nat (feature_unit_size c) + 4 + 1)%nat
        with (fu + Z.to_nat (feature_unit_size c) + 5)%nat by lia.
      by rewrite Hout by lia.
Qed.

(** What the accessors read from a declared unidirectional function. *)
Lemma declared_unit_reads (c : instance_cfg) (id link it_type ot_type N : Z)
    (rest : list Z) (d : usb_audio_dev_data_t) :
  (CH_CNT c <= 12)%nat ->
  0 <= FEATURES c < 65536 ->
  0 <= ot_type < 65536 ->
  header_descr d = USB_PASSIVE_IF_DESC_SIZE ->
  let m := configured_descriptor c id link it_type ot_type N ++ rest in
  get_feature_unit m d (id + 1) = Ok (0, 30%nat) /\
  get_num_of_channels m 30 = Ok (Z.of_nat (CH_CNT c) + 1) /\
  get_controls m 30 = Ok (FEATURES c) /\
  get_fu_dir m 30 = Ok (if decide (ot_type = USB_STREAMING) then IN else OUT).
Proof.
  intros Hch Hf Hot Hhdr m.
  set (pre := INIT_STD_IF AUDIOCONTROL N 0 0 ++ cs_ac_if_header c [N + 1] 1 ++
              INIT_IN_TERMINAL c id it_type).
  set (tl := INIT_STD_IF AUDIOSTREAMING (N + 1) 0 0 ++
             INIT_STD_IF AUDIOSTREAMING (N + 1) 1 1 ++
             INIT_AS_GENERAL link ++ INIT_AS_FORMAT_I c (RESOLUTION c) ++
             INIT_STD_AS_AD_EP (EP_ADDR c) AUDIO_EP_SIZE ++ INIT_CS_AS_AD_EP ++ rest).
  assert (m = pre ++ FILLED_FEATURE_UNIT c (id + 1) id ++
              INIT_OUT_TERMINAL (id + 2) (id + 1) ot_type ++ tl) as Hm.
  { subst m pre tl. unfold configured_descriptor. by rewrite <- !app_assoc. }
  destruct (unit_accessors c pre (FILLED_FEATURE_UNIT c (id + 1) id) tl
              (id + 1) id (id + 2) ot_type) as (Hlen & Hid & Hn & Hc & Hd);
    [by right|done..|].
  rewrite <- Hm in Hlen, Hid, Hn, Hc, Hd. change (length pre) with 30%nat in *.
  assert (m !! 9%nat = Some 9) as H9 by (by rewrite Hm).
  split; [|done].
  unfold get_feature_unit. rewrite Hhdr.
    unfold USB_PASSIVE_IF_DESC_SIZE, DESC_bLength, INPUT_TERMINAL_DESC_SIZE.
    apply load8_Ok in H9, Hid. change (9 + 0)%nat with 9%nat.
    rewrite H9. cbn [bind].
    change (9 + Z.to_nat 9 + 12)%nat with 30%nat. rewrite Hid. cbn [bind].
    by rewrite decide_True.
Qed.

(** X5. On the descriptors of [DEFINE_AUDIO_DESCRIPTOR], numbered by
    [audio_interface_config], the accessors give back what the declaration
    put in: the unit [id + 1] is found in slot 0 at offset 30, it has
    [CH_CNT + 1] channels (the size of the controls table that
    [DEFINE_AUDIO_DEV_DATA] declares), the feature bitmap of the instance,
    and the direction IN exactly when the output terminal is a USB
    streaming terminal. *)
Theorem declared_unit_accessors (c : instance_cfg) (id link it_type ot_type N : Z)
    (rest : list Z) (d : usb_audio_dev_data_t) :
  (CH_CNT c <= 12)%nat ->
  0 <= FEATURES c < 65536 ->
  0 <= ot_type < 65536 ->
  header_descr d = USB_PASSIVE_IF_DESC_SIZE ->
  let m := configured_descriptor c id link it_type ot_type N ++ rest in
  get_feature_unit m d (id + 1) = Ok (0, 30%nat) /\
  get_num_of_channels m 30 = Ok (Z.of_nat (CH_CNT c) + 1) /\
  (exists tbl, dev_controls (DEFINE_AUDIO_DEV_DATA c) !! 0%nat = Some (Some tbl) /\
               Z.of_nat (length tbl) = Z.of_nat (CH_CNT c) + 1) /\
  get_controls m 30 = Ok (FEATURES c) /\
  get_fu_dir m 30 = Ok (if decide (ot_type = USB_STREAMING) then IN else OUT).
Proof.
  intros Hch Hf Hot Hhdr m.
  destruct (declared_unit_reads c id link it_type ot_type N rest d Hch Hf Hot Hhdr)
    as (Hfu & Hnch & Hctl & Hdir).
  split; [done|]. split; [done|]. split; [|done].
  eexists. split; [reflexivity|]. rewrite length_replicate. lia.
Qed.

Lemma declared_unit_accessors_witness :
  let m := configured_descriptor hp_cfg 1 1 USB_STREAMING OUT_HEADPHONES 0 ++ [0] in
  get_feature_unit m hp_dev_data (1 + 1) = Ok (0, 30%nat) /\
  get_num_of_channels m 30 = Ok (Z.of_nat (CH_CNT hp_cfg) + 1) /\
  (exists tbl, dev_controls (DEFINE_AUDIO_DEV_DATA hp_cfg) !! 0%nat = Some (Some tbl) /\
               Z.of_nat (length tbl) = Z.of_nat (CH_CNT hp_cfg) + 1) /\
  get_controls m 30 = Ok (FEATURES hp_cfg) /\
  get_fu_dir m 30 =
    Ok (if decide (OUT_HEADPHONES = USB_STREAMING) then IN else OUT).
Proof.
  apply (declared_unit_accessors hp_cfg 1 1 USB_STREAMING OUT_HEADPHONES 0 [0]
           hp_dev_data); vm_compute; (reflexivity || lia || (split; discriminate)
                                      || (split; [discriminate|reflexivity])).
Defined.

(** X6. On the descriptors of [DEFINE_AUDIO_DESCRIPTOR_BIDIR], numbered
    by [audio_interface_config], the unit [id + 1] is found in slot 0 and
    streams IN (the microphone half); every other unit id is taken for
    slot 1, where the unit [id + 4] lies, which streams OUT (the
    headphones half). Both units have [CH_CNT + 1] channels and the
    feature bitmap of the instance. *)
Theorem declared_bidir_accessors (c : instance_cfg) (hp_resolution hp_ep_addr : Z)
    (id N : Z) (rest : list Z) (d : usb_audio_dev_data_t) (fu_id : Z) :
  (CH_CNT c <= 12)%nat ->
  0 <= FEATURES c < 65536 ->
  header_descr d = USB_PASSIVE_IF_DESC_SIZE ->
  fu_id <> id + 1 ->
  let m := configured_descriptor_bidir c hp_resolution hp_ep_addr id N ++ rest in
  let fu2 := (52 + Z.to_nat (feature_unit_size c))%nat in
  (get_feature_unit m d (id + 1) = Ok (0, 31%nat) /\
   get_num_of_channels m 31 = Ok (Z.of_nat (CH_CNT c) + 1) /\
   get_controls m 31 = Ok (FEATURES c) /\
   get_fu_dir m 31 = Ok IN) /\
  (get_feature_unit m d fu_id = Ok (1, fu2) /\
   m !! (fu2 + FU_bUnitID)%nat = Some (id + 4) /\
   get_num_of_channels m fu2 = Ok (Z.of_nat (CH_CNT c) + 1) /\
   get_controls m fu2 = Ok (FEATURES c) /\
   get_fu_dir m fu2 = Ok OUT).
Proof.
  intros Hch Hf Hhdr Hne m fu2.
  pose proof (feature_unit_size_nat c) as Hfs.
  set (pre := INIT_STD_IF AUDIOCONTROL N 0 0 ++ cs_ac_if_header c [N + 1; N + 2] 2 ++
              INIT_IN_TERMINAL c id IO_HEADSET).
  set (fuA := FILLED_FEATURE_UNIT c (id + 1) id).
  set (otA := INIT_OUT_TERMINAL (id + 2) (id + 1) USB_STREAMING).
  set (itB := INIT_IN_TERMINAL c (id + 3) USB_STREAMING).
  set (tl := INIT_STD_IF AUDIOSTREAMING (N + 1) 0 0 ++
             INIT_STD_IF AUDIOSTREAMING (N + 1) 1 1 ++
             INIT_AS_GENERAL (id + 2) ++ INIT_AS_FORMAT_I c (RESOLUTION c) ++
             INIT_STD_AS_AD_EP (EP_ADDR c) AUDIO_EP_SIZE ++ INIT_CS_AS_AD_EP ++
             INIT_STD_IF AUDIOSTREAMING (N + 2) 0 0 ++
             INIT_STD_IF AUDIOSTREAMING (N + 2) 1 1 ++
             INIT_AS_GENERAL (id + 3) ++ INIT_AS_FORMAT_I c hp_resolution ++
             INIT_STD_AS_AD_EP hp_ep_addr AUDIO_EP_SIZE ++ INIT_CS_AS_AD_EP ++ rest).
  set (tlA := itB ++ FILLED_FEATURE_UNIT c (id + 4) (id + 3) ++
              INIT_OUT_TERMINAL (id + 5) (id + 4) IO_HEADSET ++ tl).
  assert (m = pre ++ fuA ++ otA ++ tlA) as HmA.
  { subst m pre fuA otA tlA itB tl. unfold configured_descriptor_bidir.
    by rewrite <- !app_assoc. }
  assert (m = (pre ++ fuA ++ otA ++ itB) ++ FILLED_FEATURE_UNIT c (id + 4) (id + 3) ++
              INIT_OUT_TERMINAL (id + 5) (id + 4) IO_HEADSET ++ tl) as HmB.
  { rewrite HmA. subst tlA. by rewrite <- !app_assoc. }
  assert (length fuA = (9 + 2 * CH_CNT c)%nat) as HlA
    by apply length_FILLED_FEATURE_UNIT.
  assert (length (pre ++ fuA ++ otA ++ itB) = fu2) as HlB.
  { rewrite !length_app, HlA. subst fu2. simpl. lia. }
  destruct (unit_accessors c pre fuA tlA (id + 1) id (id + 2) USB_STREAMING)
    as (HlenA & HidA & HnA & HcA & HdA); [by right|done..|].
  fold otA in HlenA, HidA, HnA, HcA, HdA.
  rewrite <- HmA in HlenA, HidA, HnA, HcA, HdA. change (length pre) with 31%nat in *.
  destruct (unit_accessors c (pre ++ fuA ++ otA ++ itB)
              (FILLED_FEATURE_UNIT c (id + 4) (id + 3)) tl
              (id + 4) (id + 3) (id + 5) IO_HEADSET)
    as (HlenB & HidB & HnB & HcB & HdB); [by right|done..|].
  rewrite <- HmB, HlB in HlenB, HidB, HnB, HcB, HdB.
  assert (m !! 9%nat = Some 10) as H9 by (by rewrite HmA).
  assert (forall x, get_feature_unit m d x =
            if decide (id + 1 = x) then Ok (0, 31%nat) else Ok (1, fu2)) as Hget.
  { intros x. unfold get_feature_unit. rewrite Hhdr.
    unfold USB_PASSIVE_IF_DESC_SIZE, DESC_bLength, INPUT_TERMINAL_DESC_SIZE,
      OUTPUT_TERMINAL_DESC_SIZE.
    apply load8_Ok in H9, HidA, HlenA. change (9 + 0)%nat with 9%nat.
    rewrite H9. cbn [bind].
    change (9 + Z.to_nat 10 + 12)%nat with 31%nat. rewrite HidA. cbn [bind].
    destruct (decide (id + 1 = x)); [done|]. rewrite Nat.add_0_r, HlenA. cbn [bind].
    do 2 f_equal. subst fu2. lia. }
  split.
  - rewrite Hget, decide_True by done. done.
  - rewrite Hget, decide_False by done. done.
Qed.

Lemma declared_bidir_accessors_witness :
  let m := configured_descriptor_bidir hs_cfg 16 0x02 1 0 ++ [0] in
  (get_feature_unit m (driver_data hs_device) (1 + 1) = Ok (0, 31%nat) /\
   get_num_of_channels m 31 = Ok (Z.of_nat (CH_CNT hs_cfg) + 1) /\
   get_controls m 31 = Ok (FEATURES hs_cfg) /\
   get_fu_dir m 31 = Ok IN) /\
  (get_feature_unit m (driver_data hs_device) 5 =
     Ok (1, (52 + Z.to_nat (feature_unit_size hs_cfg))%nat) /\
   m !! (52 + Z.to_nat (feature_unit_size hs_cfg) + FU_bUnitID)%nat = Some (1 + 4) /\
   get_num_of_channels m (52 + Z.to_nat (feature_unit_size hs_cfg)) =
     Ok (Z.of_nat (CH_CNT hs_cfg) + 1) /\
   get_controls m (52 + Z.to_nat (feature_unit_size hs_cfg)) = Ok (FEATURES hs_cfg) /\
   get_fu_dir m (52 + Z.to_nat (feature_unit_size hs_cfg)) = Ok OUT).
Proof.
  apply (declared_bidir_accessors hs_cfg 16 0x02 1 0 [0] (driver_data hs_device) 5).
  - vm_compute. lia.
  - vm_compute. split; [discriminate|reflexivity].
  - reflexivity.
  - discriminate.
Defined.

(** What the accessors read on a unidirectional function for a unit id
    that is not its unit's: bytes of the active streaming interface
    descriptor. *)
Lemma unknown_unit_reads (c : instance_cfg)
    (id link it_type ot_type N : Z) (rest : list Z)
    (d : usb_audio_dev_data_t) (fu_id : Z) :
  (CH_CNT c <= 12)%nat ->
  header_descr d = USB_PASSIVE_IF_DESC_SIZE ->
  fu_id <> id + 1 ->
  let m := configured_descriptor c id link it_type ot_type N ++ rest in
  let fu := (51 + Z.to_nat (feature_unit_size c))%nat in
  get_feature_unit m d fu_id = Ok (1, fu) /\
  get_fu_dir m fu = Ok OUT /\
  get_controls m fu = Ok 9223 /\
  get_num_of_channels m fu = Ok 253.

Proof.
  intros Hch Hhdr Hne m fu0. subst fu0.
  pose proof (feature_unit_size_nat c) as Hfs.
  set (fu := (51 + Z.to_nat (feature_unit_size c))%nat).
  set (pre := INIT_STD_IF AUDIOCONTROL N 0 0 ++ cs_ac_if_header c [N + 1] 1 ++
              INIT_IN_TERMINAL c id it_type).
  set (fub := FILLED_FEATURE_UNIT c (id + 1) id).
  set (tl := INIT_OUT_TERMINAL (id + 2) (id + 1) ot_type ++
             INIT_STD_IF AUDIOSTREAMING (N + 1) 0 0 ++
             INIT_STD_IF AUDIOSTREAMING (N + 1) 1 1 ++
             INIT_AS_GENERAL link ++ INIT_AS_FORMAT_I c (RESOLUTION c) ++
             INIT_STD_AS_AD_EP (EP_ADDR c) AUDIO_EP_SIZE ++ INIT_CS_AS_AD_EP ++ rest).
  assert (m = pre ++ fub ++ tl) as Hm.
  { subst m pre fub tl. unfold configured_descriptor. by rewrite <- !app_assoc. }
  assert (length fub = (9 + 2 * CH_CNT c)%nat) as Hfl
    by apply length_FILLED_FEATURE_UNIT.
  assert (length pre = 30%nat) as Hpl by reflexivity.
  assert (forall k : nat, (k < 30)%nat -> m !! k = pre !! k) as Hpre
    by (intros k Hk; rewrite Hm; apply lookup_app_l; lia).
  assert (forall k : nat, (k < 8)%nat -> m !! (30 + k)%nat = fub !! k) as Hin.
  { intros k Hk. rewrite Hm. rewrite lookup_app_r by lia.
    rewrite lookup_app_l by lia. f_equal. lia. }
  assert (forall k : nat, (k < 61)%nat ->
            m !! (30 + Z.to_nat (feature_unit_size c) + k)%nat = tl !! k) as Htl.
  { intros k Hk. rewrite Hm. rewrite lookup_app_r by lia.
    rewrite lookup_app_r by lia. f_equal. lia. }
  assert (load8 m 9 = Ok 9) as H9 by (apply load8_Ok; by rewrite Hpre by lia).
  assert (load8 m 33 = Ok (id + 1)) as H33
    by (apply load8_Ok; etrans; [apply (Hin 3%nat); lia|done]).
  assert (load8 m 30 = Ok (feature_unit_size c)) as H30
    by (apply load8_Ok; etrans; [apply (Hin 0%nat); lia|done]).
  assert (forall k : nat, (k < 40)%nat -> load8 m (fu + k) = load8 tl (21 + k)) as Hfu.
  { intros k Hk. unfold load8. subst fu.
    replace (51 + Z.to_nat (feature_unit_size c) + k)%nat
      with (30 + Z.to_nat (feature_unit_size c) + (21 + k))%nat by lia.
    by rewrite Htl by lia. }
  assert (get_feature_unit m d fu_id = Ok (1, fu)) as Hget.
  { unfold get_feature_unit. rewrite Hhdr.
    unfold USB_PASSIVE_IF_DESC_SIZE, DESC_bLength, INPUT_TERMINAL_DESC_SIZE,
      OUTPUT_TERMINAL_DESC_SIZE, FU_bUnitID.
    change (9 + 0)%nat with 9%nat. rewrite H9. cbn [bind].
    change (9 + Z.to_nat 9 + 12 + 3)%nat with 33%nat. rewrite H33. cbn [bind].
    rewrite decide_False by done.
    change (9 + Z.to_nat 9 + 12 + 0)%nat with 30%nat. rewrite H30. cbn [bind].
    do 2 f_equal. subst fu. lia. }
  assert (get_num_of_channels m fu = Ok 253) as Hnch.
  { unfold get_num_of_channels, DESC_bLength. rewrite (Hfu 0%nat) by lia. done. }
  assert (get_controls m fu = Ok 9223) as Hctl.
  { unfold get_controls, BMA_CONTROLS_OFFSET, load16.
    rewrite (Hfu 6%nat) by lia.
    replace (fu + 6 + 1)%nat with (fu + 7)%nat by lia. rewrite (Hfu 7%nat) by lia.
    done. }
  assert (get_fu_dir m fu = Ok OUT) as Hdir.
  { unfold get_fu_dir, DESC_bLength, OT_wTerminalType, load16.
    rewrite (Hfu 0%nat) by lia. change (load8 tl (21 + 0)) with (Ok 1 : result Z).
    cbn [bind].
    replace (fu + Z.to_nat 1 + 4)%nat with (fu + 5)%nat by lia.
    replace (fu + 5 + 1)%nat with (fu + 6)%nat by lia.
    rewrite (Hfu 5%nat), (Hfu 6%nat) by lia. done. }
  done.
Qed.

(** A GET_CUR or SET_CUR on MUTE_CONTROL that passes both checks for a
    slot of the controls that is NULL. *)
Lemma null_slot_faults (m : mem) (payload : list Z) (st : fu_state)
    (p : usb_setup_packet) (len : Z) (data : data_ptr)
    (device : Z) (fu : nat) (dir : direction) (ctl nch : Z) :
  get_feature_unit m (dev_data st) (req_fu_id p) = Ok (device, fu) ->
  get_fu_dir m fu = Ok dir ->
  get_controls m fu = Ok ctl ->
  get_num_of_channels m fu = Ok nch ->
  req_control_selector p = MUTE_CONTROL ->
  selector_available MUTE_CONTROL ctl ->
  (req_ch_num p = 0xFF /\ 0 < nch \/ req_ch_num p < nch) ->
  dev_controls (dev_data st) !! Z.to_nat device = Some None ->
  (bRequest p = GET_CUR \/
   bRequest p = SET_CUR /\ data = ReqBuf /\ (0 < length payload)%nat) ->
  handle_feature_unit_req m payload st p len data = Fault NullControls.
Proof.
  intros Hfu Hdir Hctl Hnch Hcs Hsel Hnum Hslot Hreq.
  pose proof (req_ch_num_range p) as Hcr.
  pose proof (get_num_of_channels_range _ _ _ Hnch) as Hnr.
  rewrite (handle_fu_req_checks m payload st p len data device fu dir ctl nch)
    by done.
  unfold selector_available in Hsel. rewrite Hcs.
  rewrite decide_False by done.
  rewrite decide_False by lia. rewrite req_range_length.
  assert (0 <= req_ch_start p) as Hs0 by (unfold req_ch_start; case_decide; lia).
  rewrite seqZ_cons by (case_decide; lia). rewrite foldM_cons.
  assert (forall d ch, dev_controls d = dev_controls (dev_data st) ->
            load_controls d device ch = Fault NullControls) as Hld.
  { intros d ch Hd. unfold load_controls. rewrite Hd. by rewrite Hslot. }
  destruct Hreq as [Hget'|(Hset & -> & Hpay)].
  - rewrite fu_req_body_get_cur by done. cbn [loop_state dev_data].
    by rewrite Hld.
  - rewrite fu_req_body_set_cur by done.
    cbn [loop_state dev_data data_offset read_data].
    destruct payload as [|v payload]; [simpl in Hpay; lia|].
    change (Z.to_nat 0) with 0%nat. cbn [lookup list_lookup bind].
    by rewrite Hld.
Qed.

(** X7. [get_feature_unit] never fails: a unit id that is not that of the
    first unit is taken for the second one. On the descriptors of
    [DEFINE_AUDIO_DESCRIPTOR], which have one unit only, the offset it
    gives then lies in the active streaming interface descriptor, whose
    bytes read as a unit of 253 channels with the mute bit set, and a
    GET_CUR or SET_CUR on MUTE_CONTROL goes through the NULL second slot
    of the controls. *)
Theorem unknown_unit_on_unidirectional (c : instance_cfg)
    (id link it_type ot_type N : Z) (rest : list Z)
    (payload : list Z) (st : fu_state) (p : usb_setup_packet) (len : Z)
    (data : data_ptr) :
  (CH_CNT c <= 12)%nat ->
  header_descr (dev_data st) = USB_PASSIVE_IF_DESC_SIZE ->
  dev_controls (dev_data st) !! 1%nat = Some None ->
  req_fu_id p <> id + 1 ->
  req_control_selector p = MUTE_CONTROL ->
  (req_ch_num p = 0xFF \/ req_ch_num p < 253) ->
  (bRequest p = GET_CUR \/
   bRequest p = SET_CUR /\ data = ReqBuf /\ (0 < length payload)%nat) ->
  let m := configured_descriptor c id link it_type ot_type N ++ rest in
  get_feature_unit m (dev_data st) (req_fu_id p) =
    Ok (1, (51 + Z.to_nat (feature_unit_size c))%nat) /\
  handle_feature_unit_req m payload st p len data = Fault NullControls.
Proof.
  intros Hch Hhdr Hslot Hne Hcs Hnum Hreq m.
  destruct (unknown_unit_reads c id link it_type ot_type N rest (dev_data st)
              (req_fu_id p) Hch Hhdr Hne) as (Hfu & Hdir & Hctl & Hnch).
  split; [done|].
  eapply (null_slot_faults _ payload st p len data 1 _ OUT 9223 253); try done.
  destruct Hnum; [left|right]; (done || lia).
Qed.

Lemma unknown_unit_on_unidirectional_witness :
  let m := configured_descriptor hp_cfg 1 1 USB_STREAMING OUT_HEADPHONES 0 ++ [0] in
  get_feature_unit m (dev_data hp_state) (req_fu_id hp_get_mute_unit5) =
    Ok (1, (51 + Z.to_nat (feature_unit_size hp_cfg))%nat) /\
  handle_feature_unit_req m [] hp_state hp_get_mute_unit5 1 ReqBuf =
    Fault NullControls.
Proof.
  apply (unknown_unit_on_unidirectional hp_cfg 1 1 USB_STREAMING OUT_HEADPHONES 0
           [0] [] hp_state hp_get_mute_unit5 1 ReqBuf).
  - vm_compute. lia.
  - reflexivity.
  - reflexivity.
  - discriminate.
  - reflexivity.
  - right. reflexivity.
  - left. reflexivity.
Defined.

(** ** The fixup on the declared descriptors, byte for byte *)

Lemma lookup_concat_replicate_le16 (n : nat) (v : Z) :
  forall j : nat, (j < 2 * n)%nat ->
    concat (replicate n (le16 v)) !! j =
    Some (if Nat.even j then v mod 256 else v / 256 mod 256).
Proof.
  induction n as [|n IH]; intros j Hj; [lia|].
  destruct j as [|[|j]]; [done..|].
  cbn [replicate concat le16 app lookup list_lookup]. rewrite IH by lia.
  done.
Qed.

(** The filled unit, read through the declared one. *)
Lemma FILLED_FEATURE_UNIT_lookup (c : instance_cfg) (unit_id source_id : Z) (k : nat) :
  FILLED_FEATURE_UNIT c unit_id source_id !! k =
  if decide (8 <= k < 8 + 2 * CH_CNT c)%nat
  then INIT_FEATURE_UNIT c unit_id source_id !! (if Nat.even k then 6 else 7)%nat
  else INIT_FEATURE_UNIT c unit_id source_id !! k.
Proof.
  unfold FILLED_FEATURE_UNIT, INIT_FEATURE_UNIT. rewrite Nat.add_1_r.
  destruct (decide (k < 8)%nat) as [Hlt|Hge].
  { rewrite decide_False by lia.
    do 8 (destruct k as [|k]; [done|]). lia. }
  destruct (decide (k < 8 + 2 * CH_CNT c)%nat) as [Hin|Hout].
  - rewrite decide_True by lia.
    rewrite lookup_app_r by (simpl; lia). cbn [length].
    rewrite lookup_app_l
      by (rewrite length_concat_le16; lia).
    rewrite lookup_concat_replicate_le16 by lia.
    replace (Nat.even (k - 6)) with (Nat.even k).
    + by destruct (Nat.even k).
    + replace k with ((k - 6) + 6)%nat at 1 by lia.
      rewrite Nat.even_add. by destruct (Nat.even (k - 6)).
  - rewrite decide_False by lia.
    rewrite !lookup_app_r; rewrite ?length_app, ?length_concat_le16,
      ?length_replicate; cbn [length le16]; try lia.
    f_equal. lia.
Qed.

(** The loop of [fix_fu_descriptors] turns a declared unit into the
    filled one and leaves what is before and behind it. *)
Lemma fix_fu_loop_declared (c : instance_cfg) (pre tl : list Z)
    (unit_id source_id : Z) :
  (CH_CNT c <= 12)%nat ->
  bytes_ok (pre ++ INIT_FEATURE_UNIT c unit_id source_id ++ tl) ->
  fix_fu_loop 256 (pre ++ INIT_FEATURE_UNIT c unit_id source_id ++ tl)
              (length pre) 1 =
    Ok (pre ++ FILLED_FEATURE_UNIT c unit_id source_id ++ tl) /\
  bytes_ok (pre ++ FILLED_FEATURE_UNIT c unit_id source_id ++ tl).
Proof.
  intros Hch Hb.
  pose proof (feature_unit_size_nat c) as Hfs.
  pose proof (length_INIT_FEATURE_UNIT c unit_id source_id) as Hli.
  pose proof (length_FILLED_FEATURE_UNIT c unit_id source_id) as Hlf.
  set (m := pre ++ INIT_FEATURE_UNIT c unit_id source_id ++ tl) in *.
  set (fu := length pre).
  assert (fu_fits m fu (feature_unit_size c)) as Hfit.
  { split; [|split].
    - subst m fu. rewrite lookup_app_r by lia.
      rewrite Nat.sub_diag. by rewrite lookup_app_l by lia.
    - unfold feature_unit_size. lia.
    - subst m fu. rewrite !length_app. lia. }
  destruct (fix_fu_loop_run m fu (feature_unit_size c) Hb Hfit)
    as (m' & Hrun & Hlen & Hb' & Hpt).
  assert (m' = pre ++ FILLED_FEATURE_UNIT c unit_id source_id ++ tl) as <-;
    [|done].
  assert (Z.to_nat ((feature_unit_size c - 7) / 2) = S (CH_CNT c)) as Hn.
  { unfold feature_unit_size.
    replace (6 + 2 * (Z.of_nat (CH_CNT c) + 1) + 1 - 7)
      with ((Z.of_nat (CH_CNT c) + 1) * 2) by lia.
    rewrite Z.div_mul by lia. lia. }
  apply list_eq. intros a. rewrite (Hpt a), Hn. subst m fu.
  destruct (decide (a < length pre)%nat) as [Hlo|Hhi].
  { rewrite decide_False by lia. by rewrite !lookup_app_l by lia. }
  destruct (decide (a < length pre + (9 + 2 * CH_CNT c))%nat) as [Hin|Hout].
  - assert (forall k : nat, (k < 9 + 2 * CH_CNT c)%nat ->
              (pre ++ INIT_FEATURE_UNIT c unit_id source_id ++ tl)
                !! (length pre + k)%nat =
              INIT_FEATURE_UNIT c unit_id source_id !! k) as Hi.
    { intros k Hk. rewrite lookup_app_r by lia. rewrite lookup_app_l by lia.
      f_equal. lia. }
    rewrite (lookup_app_r pre (FILLED_FEATURE_UNIT c unit_id source_id ++ tl))
      by lia.
    rewrite (lookup_app_l (FILLED_FEATURE_UNIT c unit_id source_id) tl) by lia.
    rewrite FILLED_FEATURE_UNIT_lookup.
    destruct (decide (8 <= a - length pre < 8 + 2 * CH_CNT c)%nat) as [Hr|Hr].
    + rewrite decide_True by lia.
      destruct (Nat.even (a - length pre)); [apply (Hi 6%nat)|apply (Hi 7%nat)]; lia.
    + rewrite decide_False by lia.
      replace a with (length pre + (a - length pre))%nat at 1 by lia.
      apply Hi. lia.
  - rewrite decide_False by lia.
    rewrite !(lookup_app_r pre) by lia.
    rewrite !lookup_app_r by lia. f_equal. lia.
Qed.

Lemma store8_app_l (pre l : list Z) (a : nat) (v : Z) :
  (a < length pre)%nat -> store8 (pre ++ l) a v = Ok (<[a := v]> pre ++ l).
Proof.
  intros Ha. rewrite store8_lt by (rewrite length_app; lia).
  by rewrite insert_app_l.
Qed.

Lemma store8_app_r (pre l : list Z) (a : nat) (v : Z) :
  (a < length l)%nat ->
  store8 (pre ++ l) (length pre + a) v = Ok (pre ++ <[a := v]> l).
Proof.
  intros Ha. rewrite store8_lt by (rewrite length_app; lia).
  by rewrite insert_app_r.
Qed.

Lemma load8_app_l (pre l : list Z) (a : nat) (b : Z) :
  pre !! a = Some b -> load8 (pre ++ l) a = Ok b.
Proof. intros Ha. apply load8_Ok. by apply lookup_app_l_Some. Qed.

(** X8. [audio_interface_config] on the descriptors of
    [DEFINE_AUDIO_DESCRIPTOR], for every instance and every base number
    [N] with [N + 1] below 256: it returns, and the result is byte for byte
    the declaration with the interface numbers [N], [N + 1] and every
    element of [bmaControls] filled in; the terminals, the format and the
    endpoint descriptors, and whatever follows the function in the
    descriptor memory, are as declared. *)
Theorem audio_interface_config_declared (c : instance_cfg)
    (id link it_type ot_type N : Z) (rest : list Z) :
  instance_ok c -> is_byte id -> is_byte (id + 2) -> is_byte link ->
  bytes_ok rest ->
  0 <= N -> N + 1 < 256 ->
  audio_interface_config (DEFINE_AUDIO_DESCRIPTOR c id link it_type ot_type ++ rest)
                         0 N =
  Ok (configured_descriptor c id link it_type ot_type N ++ rest).
Proof.
  intros Hc Hid Hid2 Hlink Hrest HN0 HN1.
  pose proof (define_audio_descriptor_bytes_ok c id link it_type ot_type rest
                Hc Hid Hid2 Hlink Hrest) as Hb.
  destruct Hc as (Hch & _).
  pose proof (feature_unit_size_nat c) as Hfs.
  set (pre := INIT_STD_IF AUDIOCONTROL 0 0 0 ++ INIT_CS_AC_IF_HEADER c 1 1 ++
              INIT_IN_TERMINAL c id it_type).
  set (tl := INIT_OUT_TERMINAL (id + 2) (id + 1) ot_type ++
             INIT_STD_IF AUDIOSTREAMING 1 0 0 ++ INIT_STD_IF AUDIOSTREAMING 1 1 1 ++
             INIT_AS_GENERAL link ++ INIT_AS_FORMAT_I c (RESOLUTION c) ++
             INIT_STD_AS_AD_EP (EP_ADDR c) AUDIO_EP_SIZE ++ INIT_CS_AS_AD_EP ++ rest).
  assert (DEFINE_AUDIO_DESCRIPTOR c id link it_type ot_type ++ rest =
          pre ++ INIT_FEATURE_UNIT c (id + 1) id ++ tl) as Hm.
  { unfold DEFINE_AUDIO_DESCRIPTOR, pre, tl. by rewrite <- !app_assoc. }
  rewrite Hm in Hb |- *.
  destruct (fix_fu_loop_declared c pre tl (id + 1) id Hch Hb) as [Hloop _].
  set (fub := FILLED_FEATURE_UNIT c (id + 1) id) in *.
  assert (length fub = (9 + 2 * CH_CNT c)%nat) as Hfl
    by apply length_FILLED_FEATURE_UNIT.
  assert (30 + feature_unit_size c < 65536) as Htot
    by (unfold feature_unit_size; lia).
  assert (0 <= feature_unit_size c) as Hfs0 by (unfold feature_unit_size; lia).
  (* the feature unit *)
  assert (fix_fu_descriptors (pre ++ INIT_FEATURE_UNIT c (id + 1) id ++ tl) 0 =
          Ok (pre ++ fub ++ tl)) as Hfix.
  { unfold fix_fu_descriptors.
    rewrite (load8_app_l pre _ _ 9) by done. cbn [bind].
    change (0 + USB_PASSIVE_IF_DESC_SIZE + Z.to_nat 9 + INPUT_TERMINAL_DESC_SIZE)%nat
      with (length pre).
    rewrite Hloop. cbn [bind].
    rewrite (load8_app_l pre _ _ 1) by done. cbn [bind].
    by rewrite decide_False. }
  unfold audio_interface_config. rewrite Hfix. cbn [bind].
  (* Audio Control Interface *)
  unfold IF_bInterfaceNumber, DESC_bLength, HDR_baInterfaceNr.
  rewrite store8_app_l by (change (length pre) with 30%nat; lia). cbn [bind].
  rewrite (load8_app_l _ _ _ 9) by done. cbn [bind].
  rewrite store8_app_l
    by (rewrite length_insert; change (length pre) with 30%nat; simpl; lia).
  cbn [bind].
  change (0 + 2)%nat with 2%nat. change (0 + Z.to_nat 9 + 8 + 0)%nat with 17%nat.
  change (0 + Z.to_nat 9 + HDR_wTotalLength)%nat with 14%nat.
  (* Audio Streaming Interface Passive *)
  assert (load16 (<[17%nat := u8 (N + 1)]> (<[2%nat := N]> pre) ++ fub ++ tl) 14 =
          Ok (30 + feature_unit_size c)) as ->.
  { rewrite <- (le16_value (30 + feature_unit_size c)) by lia.
    apply load16_Ok; apply lookup_app_l_Some; simpl;
      [do 2 f_equal | do 3 f_equal];
      unfold INPUT_TERMINAL_DESC_SIZE, OUTPUT_TERMINAL_DESC_SIZE; lia. }
  cbn [bind].
  set (pre' := <[17%nat := u8 (N + 1)]> (<[2%nat := N]> pre)).
  assert (length pre' = 30%nat) as Hpl by reflexivity.
  assert (forall k : nat,
            (0 + Z.to_nat 9 + Z.to_nat (30 + feature_unit_size c) + k)%nat =
            (length pre' + (length fub + (9 + k)))%nat) as Hoff by (intros; lia).
  unfold IF_bInterfaceNumber, DESC_bLength.
  rewrite (Hoff 2%nat). rewrite store8_app_r by (rewrite length_app; simpl; lia).
  cbn [bind]. rewrite (insert_app_r fub) by lia.
  (* Audio Streaming Interface Active *)
  rewrite (Hoff 0%nat).
  rewrite load8_app_r. rewrite (lookup_app_r fub) by lia.
  replace (length fub + (9 + 0) - length fub)%nat with 9%nat by lia.
  change (<[(9 + 2)%nat := u8 (N + 1)]> tl !! 9%nat) with (Some 9). cbn [bind].
  replace (0 + Z.to_nat 9 + Z.to_nat (30 + feature_unit_size c) + Z.to_nat 9 + 2)%nat
    with (length pre' + (length fub + 20))%nat by lia.
  rewrite store8_app_r by (rewrite length_app; simpl; lia). cbn [bind].
  rewrite (insert_app_r fub) by lia.
  unfold HDR_bInCollection.
  rewrite (load8_app_l pre' _ _ 1) by done. cbn [bind].
  rewrite decide_False by done.
  subst pre' pre tl fub. unfold u8. rewrite !Z.mod_small by lia.
  unfold configured_descriptor. rewrite <- ?app_assoc. reflexivity.
Qed.

Lemma hp_cfg_ok : instance_ok hp_cfg.
Proof. unfold instance_ok, is_byte, hp_cfg. simpl. lia. Qed.

Lemma bytes_ok_zero : bytes_ok [0].
Proof. apply List.Forall_cons; [unfold is_byte; lia | apply List.Forall_nil]. Qed.

Lemma audio_interface_config_declared_witness :
  audio_interface_config
    (DEFINE_AUDIO_DESCRIPTOR hp_cfg 1 1 USB_STREAMING OUT_HEADPHONES ++ [0]) 0 7 =
  Ok (configured_descriptor hp_cfg 1 1 USB_STREAMING OUT_HEADPHONES 7 ++ [0]).
Proof.
  apply (audio_interface_config_declared hp_cfg 1 1 USB_STREAMING OUT_HEADPHONES
           7 [0]).
  - apply hp_cfg_ok.
  - unfold is_byte. lia.
  - unfold is_byte. lia.
  - unfold is_byte. lia.
  - apply bytes_ok_zero.
  - lia.
  - lia.
Defined.

(** X9. [audio_interface_config] on the descriptors of
    [DEFINE_AUDIO_DESCRIPTOR_BIDIR], for every instance and every base
    number [N] with [N + 2] below 256: the result is byte for byte the
    declaration with the interface numbers [N], [N + 1], [N + 2] and every
    element of [bmaControls] of both units filled in. *)
Theorem audio_interface_config_declared_bidir (c : instance_cfg)
    (hp_resolution hp_ep_addr id N : Z) (rest : list Z) :
  instance_ok c -> is_byte hp_resolution -> is_byte hp_ep_addr ->
  is_byte id -> is_byte (id + 5) -> bytes_ok rest ->
  0 <= N -> N + 2 < 256 ->
  audio_interface_config
    (DEFINE_AUDIO_DESCRIPTOR_BIDIR c hp_resolution hp_ep_addr id ++ rest) 0 N =
  Ok (configured_descriptor_bidir c hp_resolution hp_ep_addr id N ++ rest).
Proof.
  intros Hc Hhr Hhe Hid Hid5 Hrest HN0 HN2.
  pose proof (define_audio_descriptor_bidir_bytes_ok c hp_resolution hp_ep_addr id
                rest Hc Hhr Hhe Hid Hid5 Hrest) as Hb.
  destruct Hc as (Hch & _).
  pose proof (feature_unit_size_nat c) as Hfs.
  set (pre := INIT_STD_IF AUDIOCONTROL 0 0 0 ++ INIT_CS_AC_IF_HEADER c 2 2 ++
              INIT_IN_TERMINAL c id IO_HEADSET).
  set (mid := INIT_OUT_TERMINAL (id + 2) (id + 1) USB_STREAMING ++
              INIT_IN_TERMINAL c (id + 3) USB_STREAMING).
  set (tl := INIT_OUT_TERMINAL (id + 5) (id + 4) IO_HEADSET ++
             INIT_STD_IF AUDIOSTREAMING 1 0 0 ++ INIT_STD_IF AUDIOSTREAMING 1 1 1 ++
             INIT_AS_GENERAL (id + 2) ++ INIT_AS_FORMAT_I c (RESOLUTION c) ++
             INIT_STD_AS_AD_EP (EP_ADDR c) AUDIO_EP_SIZE ++ INIT_CS_AS_AD_EP ++
             INIT_STD_IF AUDIOSTREAMING 2 0 0 ++ INIT_STD_IF AUDIOSTREAMING 2 1 1 ++
             INIT_AS_GENERAL (id + 3) ++ INIT_AS_FORMAT_I c hp_resolution ++
             INIT_STD_AS_AD_EP hp_ep_addr AUDIO_EP_SIZE ++ INIT_CS_AS_AD_EP ++ rest).
  set (iA := INIT_FEATURE_UNIT c (id + 1) id).
  set (iB := INIT_FEATURE_UNIT c (id + 4) (id + 3)).
  set (fA := FILLED_FEATURE_UNIT c (id + 1) id).
  set (fB := FILLED_FEATURE_UNIT c (id + 4) (id + 3)).
  assert (DEFINE_AUDIO_DESCRIPTOR_BIDIR c hp_resolution hp_ep_addr id ++ rest =
          pre ++ iA ++ mid ++ iB ++ tl) as Hm.
  { unfold DEFINE_AUDIO_DESCRIPTOR_BIDIR, pre, mid, tl. by rewrite <- !app_assoc. }
  rewrite Hm in Hb |- *.
  destruct (fix_fu_loop_declared c pre (mid ++ iB ++ tl) (id + 1) id Hch Hb)
    as [HloopA HbA].
  fold iA fA in HloopA, HbA.
  assert (pre ++ fA ++ mid ++ iB ++ tl = (pre ++ fA ++ mid) ++ iB ++ tl) as HmB
    by (by rewrite <- !app_assoc).
  rewrite HmB in HbA.
  destruct (fix_fu_loop_declared c (pre ++ fA ++ mid) tl (id + 4) (id + 3) Hch HbA)
    as [HloopB _].
  fold iB fB in HloopB.
  assert (length fA = (9 + 2 * CH_CNT c)%nat) as HlA
    by apply length_FILLED_FEATURE_UNIT.
  assert (length fB = (9 + 2 * CH_CNT c)%nat) as HlB
    by apply length_FILLED_FEATURE_UNIT.
  assert (length (pre ++ fA ++ mid) = (31 + Z.to_nat (feature_unit_size c) + 21)%nat)
    as HlpB by (rewrite !length_app, HlA; simpl; lia).
  assert (52 + 2 * feature_unit_size c < 65536) as Htot
    by (unfold feature_unit_size; lia).
  assert (0 <= feature_unit_size c) as Hfs0 by (unfold feature_unit_size; lia).
  (* the feature units *)
  assert (fix_fu_descriptors (pre ++ iA ++ mid ++ iB ++ tl) 0 =
          Ok (pre ++ fA ++ mid ++ fB ++ tl)) as Hfix.
  { unfold fix_fu_descriptors.
    rewrite (load8_app_l pre _ _ 10) by done. cbn [bind].
    change (0 + USB_PASSIVE_IF_DESC_SIZE + Z.to_nat 10 + INPUT_TERMINAL_DESC_SIZE)%nat
      with (length pre).
    rewrite HloopA. cbn [bind].
    rewrite (load8_app_l pre _ _ 2) by done. cbn [bind].
    rewrite decide_True by done.
    unfold DESC_bLength. rewrite load8_app_r. rewrite (lookup_app_l fA) by lia.
    change (fA !! 0%nat) with (Some (feature_unit_size c)).
    cbn [bind].
    replace (length pre + Z.to_nat (feature_unit_size c) +
             INPUT_TERMINAL_DESC_SIZE + OUTPUT_TERMINAL_DESC_SIZE)%nat
      with (length (pre ++ fA ++ mid))
      by (rewrite HlpB; change (length pre) with 31%nat;
          unfold INPUT_TERMINAL_DESC_SIZE, OUTPUT_TERMINAL_DESC_SIZE; lia).
    rewrite HmB, HloopB. by rewrite <- !app_assoc. }
  unfold audio_interface_config. rewrite Hfix. cbn [bind].
  (* Audio Control Interface *)
  unfold IF_bInterfaceNumber, DESC_bLength, HDR_baInterfaceNr.
  rewrite store8_app_l by (change (length pre) with 31%nat; lia). cbn [bind].
  rewrite (load8_app_l _ _ _ 9) by done. cbn [bind].
  rewrite store8_app_l
    by (rewrite length_insert; change (length pre) with 31%nat; simpl; lia).
  cbn [bind].
  change (0 + 2)%nat with 2%nat. change (0 + Z.to_nat 9 + 8 + 0)%nat with 17%nat.
  change (0 + Z.to_nat 9 + HDR_wTotalLength)%nat with 14%nat.
  set (pre1 := <[17%nat := u8 (N + 1)]> (<[2%nat := N]> pre)).
  (* Audio Streaming Interface Passive *)
  assert (load16 (pre1 ++ fA ++ mid ++ fB ++ tl) 14 =
          Ok (52 + 2 * feature_unit_size c)) as ->.
  { rewrite <- (le16_value (52 + 2 * feature_unit_size c)) by lia.
    apply load16_Ok; apply lookup_app_l_Some; simpl;
      [do 2 f_equal | do 3 f_equal];
      unfold INPUT_TERMINAL_DESC_SIZE, OUTPUT_TERMINAL_DESC_SIZE; lia. }
  cbn [bind].
  assert (length pre1 = 31%nat) as Hpl by reflexivity.
  set (body := pre1 ++ fA ++ mid ++ fB).
  assert (pre1 ++ fA ++ mid ++ fB ++ tl = body ++ tl) as ->
    by (subst body; by rewrite <- !app_assoc).
  assert (length body = (31 + 2 * Z.to_nat (feature_unit_size c) + 21)%nat) as Hbl
    by (subst body; rewrite !length_app, HlA, HlB, Hpl; simpl; lia).
  assert (forall k : nat,
            (0 + Z.to_nat 9 + Z.to_nat (52 + 2 * feature_unit_size c) + k)%nat =
            (length body + (9 + k))%nat) as Hoff by (intros; lia).
  rewrite (Hoff 2%nat). rewrite store8_app_r by (simpl; lia).
  cbn [bind].
  (* Audio Streaming Interface Active *)
  rewrite (Hoff 0%nat). rewrite load8_app_r.
  change (<[(9 + 2)%nat := u8 (N + 1)]> tl !! (9 + 0)%nat) with (Some 9). cbn [bind].
  replace (0 + Z.to_nat 9 + Z.to_nat (52 + 2 * feature_unit_size c) + Z.to_nat 9 + 2)%nat
    with (length body + 20)%nat by lia.
  rewrite store8_app_r by (simpl; lia). cbn [bind].
  unfold HDR_bInCollection.
  assert (load8 (body ++ <[20%nat := u8 (N + 1)]> (<[(9 + 2)%nat := u8 (N + 1)]> tl))
                (0 + Z.to_nat 9 + 7) = Ok 2) as ->.
  { subst body. rewrite <- !app_assoc. by apply load8_app_l. }
  cbn [bind]. rewrite decide_True by done.
  (* the second streaming interface *)
  assert (store8 (body ++ <[20%nat := u8 (N + 1)]> (<[(9 + 2)%nat := u8 (N + 1)]> tl))
                 (0 + Z.to_nat 9 + 8 + 1) (u8 (N + 2)) =
          Ok ((<[18%nat := u8 (N + 2)]> pre1 ++ fA ++ mid ++ fB) ++
              <[20%nat := u8 (N + 1)]> (<[(9 + 2)%nat := u8 (N + 1)]> tl))) as ->.
  { subst body. rewrite <- !app_assoc.
    by rewrite store8_app_l by (rewrite Hpl; simpl; lia). }
  cbn [bind].
  set (body2 := <[18%nat := u8 (N + 2)]> pre1 ++ fA ++ mid ++ fB).
  assert (length body2 = length body) as Hbl2
    by (subst body2 body; by rewrite !length_app, length_insert).
  unfold USB_ACTIVE_IF_DESC_SIZE, USB_PASSIVE_IF_DESC_SIZE, USB_AC_CS_IF_DESC_SIZE,
    USB_FORMAT_TYPE_I_DESC_SIZE, USB_STD_AS_AD_EP_DESC_SIZE, USB_CS_AS_AD_EP_DESC_SIZE.
  replace (0 + Z.to_nat 9 + Z.to_nat (52 + 2 * feature_unit_size c) + Z.to_nat 9 +
           (9 + 7 + 11 + 9 + 7) + 2)%nat
    with (length body2 + 63)%nat by lia.
  rewrite store8_app_r by (simpl; lia). cbn [bind].
  replace (0 + Z.to_nat 9 + Z.to_nat (52 + 2 * feature_unit_size c) + Z.to_nat 9 +
           (9 + 7 + 11 + 9 + 7) + 9 + 2)%nat
    with (length body2 + 72)%nat by lia.
  rewrite store8_app_r by (simpl; lia).
  subst body2 pre1 pre tl mid fA fB. unfold u8. rewrite !Z.mod_small by lia.
  unfold configured_descriptor_bidir. rewrite <- ?app_assoc. reflexivity.
Qed.

Lemma audio_interface_config_declared_bidir_witness :
  audio_interface_config (DEFINE_AUDIO_DESCRIPTOR_BIDIR hs_cfg 16 0x02 1 ++ [0]) 0 7 =
  Ok (configured_descriptor_bidir hs_cfg 16 0x02 1 7 ++ [0]).
Proof.
  apply (audio_interface_config_declared_bidir hs_cfg 16 0x02 1 7 [0]).
  - apply hs_cfg_ok.
  - unfold is_byte. lia.
  - unfold is_byte. lia.
  - unfold is_byte. lia.
  - unfold is_byte. lia.
  - apply bytes_ok_zero.
  - lia.
  - lia.
Defined.

(** ** The entity resolver on the declared descriptors *)

Lemma resolve_cons_skip (d : list Z) (ds : list (list Z)) (ent : usb_audio_entity) :
  ~ is_entity_desc (id ent) d -> resolve (d :: ds) ent = resolve ds ent.
Proof.
  intros Hn. unfold resolve. cbn [list_find]. rewrite decide_False by done.
  by destruct (list_find (is_entity_desc (id ent)) ds) as [[i d']|].
Qed.

Lemma resolve_cons_hit (d : list Z) (ds : list (list Z)) (ent : usb_audio_entity)
    (s : Z) :
  is_entity_desc (id ent) d -> d !! 2%nat = Some s ->
  resolve (d :: ds) ent = (true, mk_entity s (id ent)).
Proof.
  intros Hm Hs. unfold resolve. cbn [list_find]. rewrite decide_True by done.
  by rewrite Hs.
Qed.

Lemma declared_descs_concat (c : instance_cfg) (first_id link it_type ot_type N : Z) :
  concat (declared_descs c first_id link it_type ot_type N) =
  configured_descriptor c first_id link it_type ot_type N.
Proof.
  unfold configured_descriptor, declared_descs. cbn [concat]. by rewrite app_nil_r.
Qed.

Lemma declared_descs_wf (c : instance_cfg) (first_id link it_type ot_type N : Z) :
  (CH_CNT c <= 12)%nat ->
  Forall desc_wf (declared_descs c first_id link it_type ot_type N).
Proof.
  intros Hch.
  pose proof (length_FILLED_FEATURE_UNIT c (first_id + 1) first_id) as Hfl.
  assert (desc_wf (FILLED_FEATURE_UNIT c (first_id + 1) first_id)) as Hfu.
  { split; [lia|]. split; [|lia].
    rewrite Hfl. unfold FILLED_FEATURE_UNIT, feature_unit_size.
    cbn [app lookup list_lookup]. f_equal. lia. }
  unfold declared_descs.
  repeat (apply List.Forall_cons; [|]); try apply List.Forall_nil;
    try done; (split; [simpl; lia|]); (split; [done|]); simpl; lia.
Qed.

(** The walk over the eleven descriptors of a declared unidirectional
    function, and on to the descriptors [more] that follow. *)
Lemma resolve_declared_descs (c : instance_cfg)
    (first_id link it_type ot_type N : Z) (more : list (list Z))
    (ent : usb_audio_entity) :
  resolve (declared_descs c first_id link it_type ot_type N ++ more) ent =
  resolve_declared first_id ent (resolve more ent).
Proof.
  unfold declared_descs, resolve_declared. cbn [app].
  assert (forall x y : Z, Some x = Some y -> x = y) as Hinj by (by intros x y [= ->]).
  rewrite resolve_cons_skip by (by intros (Ht & _)).
  rewrite resolve_cons_skip by (intros (_ & Hs & _); by apply Hs).
  destruct (decide (id ent = first_id)) as [He|He].
  { rewrite (resolve_cons_hit _ _ _ INPUT_TERMINAL);
      [done | split; [done | split; [by intros [=] | by rewrite He]] | done]. }
  rewrite resolve_cons_skip by (intros (_ & _ & Hi); by apply Hinj in Hi).
  destruct (decide (id ent = first_id + 1)) as [He1|He1].
  { rewrite (resolve_cons_hit _ _ _ FEATURE_UNIT);
      [done | split; [done | split; [by intros [=] | by rewrite He1]] | done]. }
  rewrite resolve_cons_skip by (intros (_ & _ & Hi); by apply Hinj in Hi).
  destruct (decide (id ent = first_id + 2)) as [He2|He2].
  { rewrite (resolve_cons_hit _ _ _ OUTPUT_TERMINAL);
      [done | split; [done | split; [by intros [=] | by rewrite He2]] | done]. }
  rewrite resolve_cons_skip by (intros (_ & _ & Hi); by apply Hinj in Hi).
  rewrite resolve_cons_skip by (by intros (Ht & _)).
  rewrite resolve_cons_skip by (by intros (Ht & _)).
  rewrite resolve_cons_skip by (intros (_ & Hs & _); by apply Hs).
  destruct (decide (id ent = 1)) as [He3|He3].
  { rewrite (resolve_cons_hit _ _ _ FORMAT_TYPE);
      [done | split; [done | split; [by intros [=] | by rewrite He3]] | done]. }
  rewrite resolve_cons_skip by (intros (_ & _ & Hi); by apply Hinj in Hi).
  rewrite resolve_cons_skip by (by intros (Ht & _)).
  rewrite resolve_cons_skip by (by intros (Ht & _)).
  done.
Qed.

(** X10. On a function declared with [DEFINE_AUDIO_DESCRIPTOR] that is
    the last one of the descriptor memory, [is_entity_valid] answers for
    every identifier: the input terminal [first_id], the feature unit
    [first_id + 1] and the output terminal [first_id + 2] are found with
    their subtypes; the identifier 1 is found on every such function,
    because the [bFormatType] byte of the format descriptor lies where an
    entity has its id, and is reported with that descriptor's subtype 2;
    every other identifier is refused and the entity left as it was. *)
Theorem is_entity_valid_declared (c : instance_cfg)
    (first_id link it_type ot_type N : Z) (rest : list Z) (ent : usb_audio_entity) :
  (CH_CNT c <= 12)%nat ->
  is_entity_valid (configured_descriptor c first_id link it_type ot_type N ++ 0 :: rest)
                  0 ent =
  Ok (if decide (id ent = first_id)
      then (true, mk_entity INPUT_TERMINAL (id ent))
      else if decide (id ent = first_id + 1)
      then (true, mk_entity FEATURE_UNIT (id ent))
      else if decide (id ent = first_id + 2)
      then (true, mk_entity OUTPUT_TERMINAL (id ent))
      else if decide (id ent = 1)
      then (true, mk_entity FORMAT_TYPE (id ent))
      else (false, ent)).
Proof.
  intros Hch. rewrite <- declared_descs_concat.
  pose proof (is_entity_valid_resolve [] rest
                (declared_descs c first_id link it_type ot_type N) ent
                (declared_descs_wf c first_id link it_type ot_type N Hch)) as Hres.
  cbn [app length] in Hres. rewrite Hres.
  rewrite <- (app_nil_r (declared_descs _ _ _ _ _ _)).
  by rewrite resolve_declared_descs.
Qed.

Lemma is_entity_valid_declared_witness :
  is_entity_valid
    (configured_descriptor hp_cfg 4 4 USB_STREAMING OUT_HEADPHONES 0 ++ [0])
    0 (mk_entity 0 1) =
  Ok (true, mk_entity FORMAT_TYPE 1).
Proof.
  apply (is_entity_valid_declared hp_cfg 4 4 USB_STREAMING OUT_HEADPHONES 0 []
           (mk_entity 0 1)).
  vm_compute. lia.
Defined.

(** ** Start of frame *)

Lemma foldM_emit {B} (e : event) (l : list B) :
  forall w : world,
    foldM (fun (w : world) (_ : B) => Ok (emit w e)) w l =
    Ok (emit_all w (replicate (length l) e)).
Proof.
  induction l as [|b l IH]; intros w.
  - simpl. unfold emit_all. rewrite app_nil_r. by destruct w.
  - rewrite foldM_cons. cbn [bind]. rewrite IH.
    unfold emit_all, emit. cbn. by rewrite <- app_assoc.
Qed.

(** X11. On a start of frame [audio_dc_sof] looks at the first entry of
    the endpoint table in every round of its loop over the table: with
    that endpoint an IN endpoint, [tx_enable] set and a [data_request_cb]
    registered, the callback is called once for each entry of the table
    (twice on a headset, which has two endpoints); otherwise nothing is
    called. Nothing else of the world changes. *)
Theorem audio_dc_sof_requests (w : world) (cfg : nat) (d : audio_device) (ep : Z) :
  devices w !! cfg = Some d ->
  endpoint d !! 0%nat = Some ep ->
  audio_dc_sof w cfg =
  Ok (if decide (Z.land ep 0x80 <> 0) then
        if tx_enable (driver_data d) && data_request_registered (driver_data d)
        then emit_all w (replicate (length (endpoint d))
                                   (DataRequestCb (common_dev (driver_data d))))
        else w
      else w).
Proof.
  intros Hd Hep. unfold audio_dc_sof, data_request_registered. rewrite Hd, Hep.
  assert (forall (B : Type) (l : list B) (w0 : world),
            foldM (fun (w1 : world) (_ : B) => Ok w1) w0 l = Ok w0) as Hid
    by (intros B l; induction l as [|b l IH]; intros w0; [done|apply IH]).
  destruct (decide (Z.land ep 128 <> 0)); [|apply Hid].
  destruct (tx_enable (driver_data d)); [|apply Hid].
  destruct (ops (driver_data d)) as [o|]; [|apply Hid].
  destruct (data_request_cb o); [|apply Hid].
  apply foldM_emit.
Qed.

Lemma audio_dc_sof_requests_witness :
  audio_dc_sof hs_world_req 0 =
  Ok (emit_all hs_world_req [DataRequestCb 0; DataRequestCb 0]).
Proof.
  apply (audio_dc_sof_requests hs_world_req 0 hs_device_req 0x81); reflexivity.
Defined.

(** ** Received data without an observer *)

Lemma free_after_alloc (pool : list nat) (i : nat) :
  pool !! i = Some 0%nat ->
  length (filter (fun r : nat => r = 0%nat) (<[i := 1%nat]> pool)) =
  (length (filter (fun r : nat => r = 0%nat) pool) - 1)%nat.
Proof.
  intros Hi.
  rewrite insert_take_drop by (by eapply lookup_lt_Some).
  rewrite <- (take_drop_middle pool i 0%nat Hi) at 3.
  rewrite !filter_app, !length_app.
  rewrite filter_cons_False by done. rewrite filter_cons_True by done.
  simpl. lia.
Qed.

(** One notification on a function whose OUT interface is active, that
    has no [data_received_cb], with data on the endpoint. *)
Lemma audio_receive_cb_unobserved_step (usb_read : Z -> nat -> Z -> Z * Z)
    (w : world) (ep : Z) (dev : nat) (d : audio_device) :
  usb_get_dev_data_by_ep w ep = Some dev ->
  devices w !! dev = Some d ->
  rx_enable (driver_data d) = true ->
  data_received_registered (driver_data d) = false ->
  (forall buffer, exists n, usb_read ep buffer AUDIO_EP_SIZE = (0, n) /\ n <> 0) ->
  let w' := audio_receive_cb usb_read w ep in
  free_buffers w' = (free_buffers w - 1)%nat /\
  devices w' = devices w /\
  usb_audio_data_devlist w' = usb_audio_data_devlist w /\
  exists es, calls w' = calls w ++ es /\ Forall is_alloc_or_read es.
Proof.
  intros Hep Hd Hrx Hcb Hread w'. subst w'.
  unfold audio_receive_cb. rewrite Hep, Hd, Hrx. cbn [negb].
  unfold usb_audio_alloc_buffer, net_buf_alloc, free_buffers.
  destruct (list_find (fun r : nat => r = 0%nat) (audio_data_pool w))
    as [[i r]|] eqn:Hfind.
  - apply list_find_Some in Hfind as (Hi & -> & _).
    destruct (Hread i) as (n & -> & Hn).
    rewrite decide_False by (intros H; by apply H).
    rewrite decide_False by done.
    unfold data_received_registered in Hcb.
    assert (forall w0 : world,
              match ops (driver_data d) with
              | Some o =>
                  if data_received_cb o
                  then emit w0 (DataReceivedCb (common_dev (driver_data d)) i n)
                  else w0
              | None => w0
              end = w0) as ->.
    { intros w0. destruct (ops (driver_data d)) as [o|]; [|done]. by rewrite Hcb. }
    cbn [audio_data_pool emit set_pool devices usb_audio_data_devlist calls].
    split; [by apply free_after_alloc|]. split; [done|]. split; [done|].
    exists [NetBufAlloc (Some i); UsbRead ep i AUDIO_EP_SIZE].
    split; [by rewrite <- app_assoc|]. by repeat constructor.
  - apply list_find_None in Hfind.
    cbn [audio_data_pool emit devices usb_audio_data_devlist calls].
    split; [|split; [done|split; [done|]]].
    + assert (filter (fun r : nat => r = 0%nat) (audio_data_pool w) = []) as ->; [|done].
      induction Hfind as [|r pool Hr _ IH]; [done|].
      by rewrite filter_cons_False.
    + exists [NetBufAlloc None]. split; [done|]. by repeat constructor.
Qed.

(** X12. [audio_receive_cb] gives a buffer that holds data to
    [data_received_cb] only, and releases it itself only when the read
    failed or brought nothing. On a function without [data_received_cb]
    whose OUT interface is active, every notification with data therefore
    takes one buffer out of the pool for good: after [k] notifications
    [k] buffers fewer are free (none once the pool is used up), no device
    data has changed, and nothing but allocations and reads has been
    called, so no buffer was released and no observer told. *)
Theorem audio_receive_cb_unobserved (usb_read : Z -> nat -> Z -> Z * Z)
    (w : world) (ep : Z) (dev : nat) (d : audio_device) (k : nat) :
  usb_get_dev_data_by_ep w ep = Some dev ->
  devices w !! dev = Some d ->
  rx_enable (driver_data d) = true ->
  data_received_registered (driver_data d) = false ->
  (forall buffer, exists n, usb_read ep buffer AUDIO_EP_SIZE = (0, n) /\ n <> 0) ->
  let w' := Nat.iter k (fun w0 => audio_receive_cb usb_read w0 ep) w in
  free_buffers w' = (free_buffers w - k)%nat /\
  devices w' = devices w /\
  exists es, calls w' = calls w ++ es /\ Forall is_alloc_or_read es.
Proof.
  intros Hep Hd Hrx Hcb Hread.
  assert (let w' := Nat.iter k (fun w0 => audio_receive_cb usb_read w0 ep) w in
          free_buffers w' = (free_buffers w - k)%nat /\
          devices w' = devices w /\
          usb_audio_data_devlist w' = usb_audio_data_devlist w /\
          exists es, calls w' = calls w ++ es /\ Forall is_alloc_or_read es) as H;
    [|intros w'; destruct H as (? & ? & _ & ?); done].
  induction k as [|k IH].
  - simpl. split; [lia|]. split; [done|]. split; [done|].
    exists []. by rewrite app_nil_r.
  - rewrite Nat.iter_succ. cbn zeta in IH.
    set (w1 := Nat.iter k (fun w0 => audio_receive_cb usb_read w0 ep) w) in *.
    destruct IH as (Hfree & Hdev & Hlist & es & Hcalls & Hes).
    destruct (audio_receive_cb_unobserved_step usb_read w1 ep dev d)
      as (Hfree' & Hdev' & Hlist' & es' & Hcalls' & Hes'); try done.
    { unfold usb_get_dev_data_by_ep in *. by rewrite Hdev, Hlist. }
    { by rewrite Hdev. }
    cbn zeta in *. split; [rewrite Hfree', Hfree; lia|].
    split; [congruence|]. split; [congruence|].
    exists (es ++ es'). split; [by rewrite Hcalls', Hcalls, app_assoc|].
    by apply Forall_app.
Qed.

Lemma audio_receive_cb_unobserved_witness :
  let w' := Nat.iter 6 (fun w0 => audio_receive_cb usb_read_96 w0 0x02) hs_world_deaf in
  free_buffers w' = (free_buffers hs_world_deaf - 6)%nat /\
  devices w' = devices hs_world_deaf /\
  exists es, calls w' = calls hs_world_deaf ++ es /\ Forall is_alloc_or_read es.
Proof.
  apply (audio_receive_cb_unobserved usb_read_96 hs_world_deaf 0x02 0 hs_device_deaf 6).
  - reflexivity.
  - reflexivity.
  - reflexivity.
  - reflexivity.
  - intros buffer. exists 96. split; [reflexivity|discriminate].
Defined.

(** ** The samples' loop back *)

Lemma releases_app (buffer : nat) (es es' : list event) :
  releases buffer (es ++ es') = (releases buffer es + releases buffer es')%nat.
Proof. unfold releases. by rewrite filter_app, length_app. Qed.

(** X13. The samples' [data_received] sends a received buffer back with
    [usb_audio_send] and gives it up itself only when the driver refuses.
    On a registered function the buffer is so released exactly once: at
    once when [usb_audio_send] refuses (first endpoint not IN, [tx_enable]
    off, or more data than the buffer holds), and otherwise by the
    completion callback [audio_write_cb] of the transfer, not before. *)
Theorem data_received_releases_once (w : world) (dev : nat) (d : audio_device)
    (ep : Z) (b : net_buf) (n written : Z) :
  devices w !! dev = Some d ->
  endpoint d !! 0%nat = Some ep ->
  usb_get_dev_data_by_ep w ep = Some dev ->
  common_dev (driver_data d) = dev ->
  n <> 0 ->
  exists w1 : world,
    data_received w dev (Some b) n = Ok w1 /\
    devices w1 = devices w /\
    if decide (Z.land ep 0x80 <> 0 /\ tx_enable (driver_data d) = true /\
               n <= size b)
    then
      calls w1 = calls w ++ [UsbTransfer ep (buf_handle b) n] /\
      audio_data_pool w1 = audio_data_pool w /\
      exists w2,
        audio_write_cb w1 ep written (buf_handle b) = Ok w2 /\
        audio_data_pool w2 = alter Nat.pred (buf_handle b) (audio_data_pool w) /\
        releases (buf_handle b) (calls w2) = S (releases (buf_handle b) (calls w))
    else
      calls w1 = calls w ++ [NetBufUnref (buf_handle b)] /\
      audio_data_pool w1 = alter Nat.pred (buf_handle b) (audio_data_pool w).
Proof.
  intros Hd Hep Hlook Hcommon Hn.
  unfold data_received, usb_audio_send. rewrite decide_False by done.
  rewrite Hd, Hep.
  destruct (decide (Z.land ep 128 = 0)) as [Hout|Hin].
  { cbn [bind]. rewrite decide_True by (by compute).
    eexists. split; [done|]. split; [done|].
    by rewrite decide_False by tauto. }
  destruct (tx_enable (driver_data d)) eqn:Htx; cbn [negb].
  - destruct (decide (n > size b)) as [Hbig|Hfit].
    + cbn [bind]. rewrite decide_True by (by compute).
      eexists. split; [done|]. split; [done|].
      by rewrite decide_False by lia.
    + cbn [bind]. rewrite decide_False by (intros H; by apply H).
      eexists. split; [done|]. split; [done|].
      rewrite decide_True by (split; [done|split; [done|lia]]).
      split; [done|]. split; [done|].
      unfold audio_write_cb. rewrite usb_get_dev_data_by_ep_emit, Hlook.
      cbn [devices emit]. rewrite Hd, Hcommon, Hd.
      assert (releases (buf_handle b) [UsbTransfer ep (buf_handle b) n;
                                       NetBufUnref (buf_handle b)] = 1%nat) as Hone.
      { unfold releases. rewrite filter_cons_False by done.
        rewrite filter_cons_True by (simpl; by rewrite bool_decide_eq_true_2). done. }
      destruct (ops (driver_data d)) as [o|]; [destruct (data_written_cb o)|];
        eexists; (split; [done|]); (split; [done|]);
        cbn [calls emit net_buf_unref set_pool]; rewrite <- ?app_assoc;
        cbn [app]; rewrite !releases_app; try rewrite Hone; try lia.
      change (releases (buf_handle b) [DataWrittenCb dev written]) with 0%nat.
      unfold releases at 2. rewrite filter_cons_False by done.
      rewrite filter_cons_True by (simpl; by rewrite bool_decide_eq_true_2).
      rewrite filter_cons_False by done. simpl. lia.
  - cbn [bind]. rewrite decide_True by (by compute).
    eexists. split; [done|]. split; [done|].
    by rewrite decide_False by (intros (_ & H & _); done).
Qed.

Lemma data_received_releases_once_witness :
  exists w1 : world,
    data_received hs_world_sample 0 (Some sample_buf) 96 = Ok w1 /\
    devices w1 = devices hs_world_sample /\
    (calls w1 = calls hs_world_sample ++ [UsbTransfer 0x81 0 96] /\
     audio_data_pool w1 = audio_data_pool hs_world_sample /\
     exists w2,
       audio_write_cb w1 0x81 96 0 = Ok w2 /\
       audio_data_pool w2 = alter Nat.pred 0%nat (audio_data_pool hs_world_sample) /\
       releases 0 (calls w2) = S (releases 0 (calls hs_world_sample))).
Proof.
  apply (data_received_releases_once hs_world_sample 0 hs_device_sample 0x81
           sample_buf 96 96); (reflexivity || discriminate).
Defined.

(** ** Class request dispatch *)

(** X14. Whatever the request and whatever the lookup by interface
    number finds, a run of [audio_class_handle_req] that returns gives 0 or
    -1. It gives 0 only for a request to an interface the lookup knows,
    with selector MUTE_CONTROL and request SET_CUR or GET_CUR; every request
    answered with -1 (a request to an endpoint or another recipient, an
    unknown interface or entity, a terminal, a refused feature unit
    request) has left the world and the scratch exactly as they were. *)
Theorem audio_class_handle_req_status (by_iface : Z -> option nat) (w : world)
    (tmp payload : list Z) (p : usb_setup_packet) (len : Z) (data : data_ptr)
    (r : req_result) :
  audio_class_handle_req by_iface w tmp payload p len data = Ok r ->
  (req_ret r = 0 /\
   REQTYPE_GET_RECIP (bmRequestType p) = REQTYPE_RECIP_INTERFACE /\
   is_Some (by_iface (Z.land (wIndex p) 0xFF)) /\
   req_control_selector p = MUTE_CONTROL /\
   (bRequest p = SET_CUR \/ bRequest p = GET_CUR)) \/
  (req_ret r = - 1 /\ req_world r = w /\ req_tmp r = tmp).
Proof.
  unfold audio_class_handle_req. intros Hrun. cbn zeta in Hrun.
  destruct (decide (REQTYPE_GET_RECIP (bmRequestType p) = REQTYPE_RECIP_INTERFACE))
    as [Hrecip|Hrecip].
  2: { destruct (decide (REQTYPE_GET_RECIP (bmRequestType p) =
                         REQTYPE_RECIP_ENDPOINT));
         [|injection Hrun as <-; by right].
       unfold handle_endpoint_req in Hrun. rewrite decide_True in Hrun by lia.
       injection Hrun as <-. by right. }
  apply bind_Ok in Hrun as (r1 & Hreq & Hrun).
  assert (req_ret r1 = 0 /\ is_Some (by_iface (Z.land (wIndex p) 0xFF)) /\
          req_control_selector p = MUTE_CONTROL /\
          (bRequest p = SET_CUR \/ bRequest p = GET_CUR) \/
          req_ret r1 < 0 /\ req_world r1 = w /\ req_tmp r1 = tmp) as Hcases.
  { unfold handle_interface_req in Hreq.
    assert (- ENODEV < 0) as Hneg by (unfold ENODEV; lia).
    destruct (by_iface (Z.land (wIndex p) 255)) as [i|];
      [|injection Hreq as <-; by right].
    destruct (devices w !! i) as [d|] eqn:Hd; [|done].
    destruct (devices w !! common_dev (driver_data d)) as [d'|]; [|done].
    apply bind_Ok in Hreq as ([found e] & _ & Hreq).
    destruct found; cbn [negb] in Hreq; [|injection Hreq as <-; by right].
    destruct (decide (subtype e = FEATURE_UNIT)); [|injection Hreq as <-; by right].
    apply bind_Ok in Hreq as ([[[ret st] len'] data'] & Hfu & Hreq).
    injection Hreq as <-. cbn [req_ret req_world req_tmp].
    assert (ret = 0 /\ req_control_selector p = MUTE_CONTROL /\
              (bRequest p = SET_CUR \/ bRequest p = GET_CUR) \/
            ret = - EINVAL /\ st = mk_fu_state (driver_data d) tmp (calls w))
      as [(-> & Hcs & Hbr)|[-> ->]].
    { apply handle_fu_req_run_inv in Hfu
        as [(-> & -> & _)|(device & dir & l & acc & Hloop & -> & -> & _)];
        [by right|].
      apply (fu_loop_status _ _ _ _ _ _
               (mk_fu_state (driver_data d) tmp (calls w))) in Hloop;
        [done|by right]. }
    - left. eauto.
    - right. split; [unfold EINVAL; lia|]. cbn [dev_data tmp_data_ptr trace].
      split; [|done].
      assert (set_driver_data d (driver_data d) = d) as -> by (by destruct d).
      rewrite list_insert_id by done. by destruct w. }
  destruct Hcases as [(H0 & Hi & Hcs & Hbr)|(Hneg & Hw & Ht)].
  - rewrite decide_False in Hrun by lia. injection Hrun as <-. left. eauto.
  - rewrite decide_True in Hrun by done. injection Hrun as <-. by right.
Qed.

Lemma audio_class_handle_req_status_witness :
  exists r : req_result,
    audio_class_handle_req hp_by_iface hp_world [0; 0; 0] [1] hp_set_mute 1 ReqBuf =
      Ok r /\
    ((req_ret r = 0 /\
      REQTYPE_GET_RECIP (bmRequestType hp_set_mute) = REQTYPE_RECIP_INTERFACE /\
      is_Some (hp_by_iface (Z.land (wIndex hp_set_mute) 0xFF)) /\
      req_control_selector hp_set_mute = MUTE_CONTROL /\
      (bRequest hp_set_mute = SET_CUR \/ bRequest hp_set_mute = GET_CUR)) \/
     (req_ret r = - 1 /\ req_world r = hp_world /\ req_tmp r = [0; 0; 0])).
Proof.
  eexists. split; [reflexivity|].
  apply (audio_class_handle_req_status hp_by_iface hp_world [0; 0; 0] [1]
           hp_set_mute 1 ReqBuf).
  reflexivity.
Defined.

(** X15. The whole path of a mute request on a function declared with
    [DEFINE_AUDIO_DESCRIPTOR] and [DEFINE_AUDIO_DEV_DATA], for every
    instance that has the mute feature: a host-to-device SET_CUR on
    MUTE_CONTROL sent to an interface of the function and addressed to its
    feature unit [first_id + 1], for one of its [CH_CNT + 1] channels or
    for all of them, with a payload byte for each channel, is answered
    with 0. The resolver finds the unit, the accessors read the declared
    channel count and bitmap, and the payload bytes end up in the mute
    flags of the requested channels of the function's first controls
    table, with one [feature_update_cb] call per channel. *)
Theorem class_set_mute_on_declared (by_iface : Z -> option nat) (w : world)
    (tmp payload : list Z) (p : usb_setup_packet) (len : Z)
    (c : instance_cfg) (first_id link it_type ot_type N : Z) (rest : list Z)
    (i : nat) (d : audio_device) (o : audio_ops) (tbl : list controls) :
  (CH_CNT c <= 12)%nat ->
  0 <= FEATURES c < 65536 ->
  Z.testbit (FEATURES c) 0 = true ->
  0 <= ot_type < 65536 ->
  descriptors w =
    configured_descriptor c first_id link it_type ot_type N ++ 0 :: rest ->
  devices w !! i = Some d ->
  interface_descriptor d = 0%nat ->
  header_descr (driver_data d) = USB_PASSIVE_IF_DESC_SIZE ->
  common_dev (driver_data d) = i ->
  ops (driver_data d) = Some o ->
  dev_controls (driver_data d) !! 0%nat = Some (Some tbl) ->
  length tbl = S (CH_CNT c) ->
  REQTYPE_GET_RECIP (bmRequestType p) = REQTYPE_RECIP_INTERFACE ->
  by_iface (Z.land (wIndex p) 0xFF) = Some i ->
  req_fu_id p = first_id + 1 ->
  req_control_selector p = MUTE_CONTROL ->
  bRequest p = SET_CUR ->
  ~ to_host p ->
  (req_ch_num p = 0xFF \/ req_ch_num p <= Z.of_nat (CH_CNT c)) ->
  let n := if decide (req_ch_num p = 0xFF) then S (CH_CNT c) else 1%nat in
  (n <= length payload)%nat ->
  let vs := take n payload in
  let dir := if decide (ot_type = USB_STREAMING) then IN else OUT in
  let dd := driver_data d in
  audio_class_handle_req by_iface w tmp payload p len ReqBuf =
  Ok (mk_req_result 0
        (mk_world (descriptors w)
           (<[i := set_driver_data d
                     (set_dev_controls dd
                        (<[0%nat := Some (set_mutes tbl (Z.to_nat (req_ch_start p)) vs)]>
                           (dev_controls dd)))]> (devices w))
           (usb_audio_data_devlist w) (audio_data_pool w)
           (if feature_update_cb o
            then calls w ++ feature_updates i dir 0 (req_ch_start p) vs
            else calls w))
        tmp len ReqBuf).
Proof.
  intros Hch Hf Hbit Hot Hm Hd Hifd Hhdr Hcommon Hops Hslot Hlen Hrecip Hby Hid
    Hcs Hset Hto Hnum n Hpay vs dir dd. subst dd.
  set (dd := driver_data d) in *.
  unfold audio_class_handle_req. rewrite decide_True by done.
  unfold handle_interface_req. rewrite Hby, Hd. fold dd.
  rewrite Hcommon, Hd, Hifd, Hm.
  fold (req_fu_id p).
  rewrite <- declared_descs_concat.
  pose proof (is_entity_valid_resolve [] rest
                (declared_descs c first_id link it_type ot_type N)
                (mk_entity 0 (req_fu_id p))
                (declared_descs_wf c first_id link it_type ot_type N Hch)) as Hres.
  cbn [app length] in Hres. rewrite Hres.
  rewrite <- (app_nil_r (declared_descs _ _ _ _ _ _)) at 1.
  rewrite resolve_declared_descs, declared_descs_concat.
  unfold resolve_declared. cbn [id]. rewrite Hid.
  rewrite decide_False by lia. rewrite decide_True by done. cbn [bind negb subtype].
  rewrite decide_True by done.
  destruct (declared_unit_reads c first_id link it_type ot_type N (0 :: rest) dd
              Hch Hf Hot Hhdr) as (Hfu & Hnch & Hctl & Hdir).
  rewrite <- Hid in Hfu.
  assert (selector_available MUTE_CONTROL (FEATURES c)) as Hsel
    by (by apply mute_selector_available).
  assert (req_ch_num p = 0xFF \/ req_ch_num p < Z.of_nat (CH_CNT c) + 1) as Hnum'
    by (destruct Hnum; [by left|right; lia]).
  assert (Z.to_nat (if decide (req_ch_num p = 0xFF)
                    then Z.of_nat (CH_CNT c) + 1 else 1) = n) as Hn
    by (subst n; destruct (decide (req_ch_num p = 255)); lia).
  set (st := mk_fu_state dd tmp (calls w)).
  rewrite (mute_request_fold _ payload st p len ReqBuf 0 30%nat dir (FEATURES c)
             (Z.of_nat (CH_CNT c) + 1)) by done.
  pose proof (set_cur_range_loop 0 dir p payload st (Z.of_nat (CH_CNT c) + 1) tbl o
                Hset ltac:(lia) Hnum' Hops Hslot ltac:(lia)) as Hloop.
  cbn zeta in Hloop. rewrite Hn in Hloop |- *. fold vs in Hloop.
  rewrite Hloop by done. cbn [bind ret loop_state].
  rewrite decide_False by done.
  rewrite (decide_False (P := n = 0%nat))
    by (subst n; destruct (decide (req_ch_num p = 255)); lia).
  cbn [bind req_ret]. rewrite decide_False by lia.
  subst st. cbn [dev_data tmp_data_ptr trace req_world req_tmp req_len req_data].
  rewrite Hcommon. change (Z.to_nat 0) with 0%nat.
  done.
Qed.

Lemma class_set_mute_on_declared_witness :
  audio_class_handle_req hp_by_iface hp_world [0; 0; 0] [1; 0; 1] hp_set_mute_all
                         3 ReqBuf =
  Ok (mk_req_result 0
        (mk_world (descriptors hp_world)
           [mk_audio_device [0x01] 0
              (set_dev_controls hp_dev_data
                 [Some [set_mute zero_controls 1; zero_controls;
                        set_mute zero_controls 1]; None])]
           [0%nat] (replicate AUDIO_POOL_COUNT 0%nat)
           [FeatureUpdateCb 0 OUT MUTE_CONTROL 0 0 1;
            FeatureUpdateCb 0 OUT MUTE_CONTROL 1 0 0;
            FeatureUpdateCb 0 OUT MUTE_CONTROL 2 0 1])
        [0; 0; 0] 3 ReqBuf).
Proof.
  apply (class_set_mute_on_declared hp_by_iface hp_world [0; 0; 0] [1; 0; 1]
           hp_set_mute_all 3 hp_cfg 1 1 USB_STREAMING OUT_HEADPHONES 0 []
           0%nat hp_device sample_ops (replicate 3 zero_controls));
    try reflexivity.
  - vm_compute. lia.
  - vm_compute. split; [discriminate|reflexivity].
  - vm_compute. split; [discriminate|reflexivity].
  - vm_compute. discriminate.
  - left. reflexivity.
Defined.

(** X16. [is_entity_valid] walks from the descriptors of the function the
    request was sent to up to the zero-length header that ends the
    descriptor memory, so it also finds the entities of the functions that
    follow. A GET_CUR or SET_CUR on MUTE_CONTROL sent to an interface of a
    function declared with [DEFINE_AUDIO_DESCRIPTOR] and addressed to the
    feature unit of the function declared behind it is therefore taken for
    a feature unit request of the first function, whose
    [get_feature_unit] takes the foreign id for its second unit, and the
    request goes through the NULL second slot of the controls. *)
Theorem foreign_unit_request_faults (by_iface : Z -> option nat) (w : world)
    (tmp payload : list Z) (p : usb_setup_packet) (len : Z) (data : data_ptr)
    (c1 c2 : instance_cfg) (id1 link1 it1 ot1 N1 id2 link2 it2 ot2 N2 : Z)
    (rest : list Z) (i : nat) (d : audio_device) :
  (CH_CNT c1 <= 12)%nat -> (CH_CNT c2 <= 12)%nat ->
  1 <= id1 -> id1 + 3 <= id2 ->
  descriptors w =
    configured_descriptor c1 id1 link1 it1 ot1 N1 ++
    configured_descriptor c2 id2 link2 it2 ot2 N2 ++ 0 :: rest ->
  devices w !! i = Some d ->
  interface_descriptor d = 0%nat ->
  header_descr (driver_data d) = USB_PASSIVE_IF_DESC_SIZE ->
  common_dev (driver_data d) = i ->
  dev_controls (driver_data d) !! 1%nat = Some None ->
  REQTYPE_GET_RECIP (bmRequestType p) = REQTYPE_RECIP_INTERFACE ->
  by_iface (Z.land (wIndex p) 0xFF) = Some i ->
  req_fu_id p = id2 + 1 ->
  req_control_selector p = MUTE_CONTROL ->
  (req_ch_num p = 0xFF \/ req_ch_num p < 253) ->
  (bRequest p = GET_CUR \/
   bRequest p = SET_CUR /\ data = ReqBuf /\ (0 < length payload)%nat) ->
  is_entity_valid (descriptors w) 0 (mk_entity 0 (req_fu_id p)) =
    Ok (true, mk_entity FEATURE_UNIT (req_fu_id p)) /\
  audio_class_handle_req by_iface w tmp payload p len data = Fault NullControls.
Proof.
  intros Hch1 Hch2 Hid1 Hid2 Hm Hd Hifd Hhdr Hcommon Hslot Hrecip Hby Hid Hcs Hnum Hreq.
  assert (is_entity_valid (descriptors w) 0 (mk_entity 0 (req_fu_id p)) =
          Ok (true, mk_entity FEATURE_UNIT (req_fu_id p))) as Hvalid.
  { rewrite Hm, <- !declared_descs_concat, app_assoc, <- concat_app.
    pose proof (is_entity_valid_resolve [] rest
                  (declared_descs c1 id1 link1 it1 ot1 N1 ++
                   declared_descs c2 id2 link2 it2 ot2 N2)
                  (mk_entity 0 (req_fu_id p))) as Hres.
    cbn [app length] in Hres. rewrite Hres
      by (apply Forall_app; split; by apply declared_descs_wf).
    rewrite resolve_declared_descs.
    rewrite <- (app_nil_r (declared_descs c2 _ _ _ _ _)), resolve_declared_descs.
    unfold resolve_declared. cbn [id]. rewrite Hid.
    rewrite !decide_False by lia. by rewrite decide_True. }
  split; [done|].
  unfold audio_class_handle_req. rewrite decide_True by done.
  unfold handle_interface_req. rewrite Hby, Hd, Hcommon, Hd, Hifd.
  fold (req_fu_id p). rewrite Hvalid. cbn [bind negb subtype].
  rewrite decide_True by done.
  rewrite Hm.
  set (st := mk_fu_state (driver_data d) tmp (calls w)).
  destruct (unknown_unit_reads c1 id1 link1 it1 ot1 N1
              (configured_descriptor c2 id2 link2 it2 ot2 N2 ++ 0 :: rest)
              (dev_data st) (req_fu_id p) Hch1 Hhdr ltac:(lia))
    as (Hfu & Hdir & Hctl & Hnch).
  rewrite (null_slot_faults _ payload st p len data 1 _ OUT 9223 253
             Hfu Hdir Hctl Hnch Hcs); [done|by vm_compute| |done|done].
  destruct Hnum; [left|right]; (done || lia).
Qed.

Lemma foreign_unit_request_faults_witness :
  is_entity_valid (descriptors hp_mic_world) 0
                  (mk_entity 0 (req_fu_id hp_get_mute_unit5)) =
    Ok (true, mk_entity FEATURE_UNIT (req_fu_id hp_get_mute_unit5)) /\
  audio_class_handle_req hp_by_iface hp_mic_world [0; 0; 0] [] hp_get_mute_unit5
                         1 ReqBuf = Fault NullControls.
Proof.
  apply (foreign_unit_request_faults hp_by_iface hp_mic_world [0; 0; 0] []
           hp_get_mute_unit5 1 ReqBuf hp_cfg mic_cfg
           1 1 USB_STREAMING OUT_HEADPHONES 0 4 6 IN_MICROPHONE USB_STREAMING 2
           [] 0%nat hp_device); try reflexivity.
  - vm_compute. lia.
  - vm_compute. lia.
  - right. reflexivity.
  - left. reflexivity.
Defined.

(** ** What devicetree fixes *)

Lemma selector_available_features_check (f : dt_features) :
  forallb (fun cs : Z =>
             bool_decide (bool_decide (selector_available cs (FEATURES_dt f)) =
                          feature_of_selector f cs))
          (seqZ 0 32) = true.
Proof. destruct f as [[] [] [] [] [] [] [] []]; vm_compute; reflexivity. Qed.

(** X17. The availability test of [handle_feature_unit_req], the bit of
    the selector against the unit's bitmap shifted by one, agrees with the
    devicetree flags that [FEATURES] packs into that bitmap: a control
    selector passes exactly when the feature behind it is enabled for the
    instance, bass, mid and treble going with the tone control flag; the
    undefined selector 0 and the selectors from 11 on never pass. *)
Theorem selector_available_features (f : dt_features) (cs : Z) :
  0 <= cs < 32 ->
  selector_available cs (FEATURES_dt f) <-> feature_of_selector f cs = true.
Proof.
  intros Hcs. pose proof (selector_available_features_check f) as Hall.
  rewrite forallb_forall in Hall.
  specialize (Hall cs). rewrite <- list_elem_of_In, elem_of_seqZ in Hall.
  specialize (Hall ltac:(lia)). apply bool_decide_eq_true in Hall.
  rewrite <- Hall. by rewrite bool_decide_eq_true.
Qed.

Lemma selector_available_features_witness :
  selector_available BASS_CONTROL
    (FEATURES_dt (mk_dt_features true false true false false false false false)) <->
  feature_of_selector (mk_dt_features true false true false false false false false)
    BASS_CONTROL = true.
Proof.
  apply (selector_available_features
           (mk_dt_features true false true false false false false false)
           BASS_CONTROL).
  unfold BASS_CONTROL. lia.
Defined.

Lemma dt_channels_check (ch : dt_channels) :
  bool_decide ((CH_CNT_dt ch <= 12)%nat /\ 0 <= CH_CFG_dt ch < 4096 /\
               CH_CNT_dt ch = bits_set (CH_CFG_dt ch)) = true.
Proof. destruct ch as [[] [] [] [] [] [] [] [] [] [] [] []]; vm_compute; reflexivity. Qed.

Lemma dt_features_check (f : dt_features) :
  bool_decide (0 <= FEATURES_dt f < 1024) = true.
Proof. destruct f as [[] [] [] [] [] [] [] []]; vm_compute; reflexivity. Qed.

(** X18. Whatever channels and features devicetree enables, the values
    the macros [CH_CNT], [CH_CFG] and [FEATURES] give are consistent: the
    channel count is the number of bits set in the channel configuration,
    at most 12, the configuration fits 12 bits and the feature bitmap 10
    bits. With a byte for resolution and endpoint address, every
    devicetree instance is thus one the descriptor layout and fixup
    results are proved for. *)
Theorem dt_instance_consistent (ch : dt_channels) (f : dt_features)
    (resolution ep_addr : Z) :
  is_byte resolution -> is_byte ep_addr ->
  let c := dt_instance ch f resolution ep_addr in
  instance_ok c /\ CH_CNT c = bits_set (CH_CFG c).
Proof.
  intros Hres Hep c.
  pose proof (dt_channels_check ch) as Hch. apply bool_decide_eq_true in Hch.
  pose proof (dt_features_check f) as Hf. apply bool_decide_eq_true in Hf.
  destruct Hch as (Hcnt & Hcfg & Hbits).
  subst c. unfold instance_ok, dt_instance. cbn [CH_CNT CH_CFG FEATURES RESOLUTION
    EP_ADDR]. done.
Qed.

Lemma dt_instance_consistent_witness :
  let c := dt_instance
             (mk_dt_channels true true false false false false false false
                             false false false false)
             (mk_dt_features true true false false false false false false)
             16 0x01 in
  instance_ok c /\ CH_CNT c = bits_set (CH_CFG c).
Proof.
  apply (dt_instance_consistent
           (mk_dt_channels true true false false false false false false
                           false false false false)
           (mk_dt_features true true false false false false false false)
           16 0x01); unfold is_byte; lia.
Defined.

(** X19. The entity ids that [HP_ID], [MIC_ID] and [HS_ID] hand to the
    functions of one build never collide: each function owns a range of 3
    ids (6 for a headset) starting at its id, the ranges of two different
    functions are disjoint, and all of them lie between 1 and
    [3 * (hp_count + mic_count) + 6 * hs_count]. *)
Theorem function_ids_disjoint (hp_count mic_count hs_count : nat)
    (fn fn' : audio_function) (x : Z) :
  function_declared hp_count mic_count hs_count fn ->
  function_declared hp_count mic_count hs_count fn' ->
  fn <> fn' ->
  let first := function_id hp_count mic_count in
  first fn <= x < first fn + function_ids fn ->
  1 <= x <= 3 * (Z.of_nat hp_count + Z.of_nat mic_count) + 6 * Z.of_nat hs_count /\
  ~ (first fn' <= x < first fn' + function_ids fn').
Proof.
  intros Hfn Hfn' Hne first Hx. subst first.
  destruct fn as [i|i|i], fn' as [j|j|j];
    unfold function_id, function_ids, function_declared, HP_ID, MIC_ID, HS_ID in *;
    (split; [lia|]); intros Hx';
    try lia; apply Hne; f_equal; lia.
Qed.

Lemma function_ids_disjoint_witness :
  1 <= 5 <= 3 * (Z.of_nat 1 + Z.of_nat 1) + 6 * Z.of_nat 1 /\
  ~ (function_id 1 1 (HS 0) <= 5 < function_id 1 1 (HS 0) + function_ids (HS 0)).
Proof.
  apply (function_ids_disjoint 1 1 1 (MIC 0) (HS 0) 5).
  - simpl. lia.
  - simpl. lia.
  - discriminate.
  - vm_compute. split; [discriminate|reflexivity].
Defined.

(** ** Alternate settings on the declared headset *)

(** [audio_dc_interface] on a function with two streaming interfaces. *)
Lemma audio_dc_interface_two (m : mem) (dd : usb_audio_dev_data_t) (set_iface : nat)
    (b0 b1 a : Z) :
  load8 m (header_descr dd + HDR_bInCollection)%nat = Ok 2 ->
  load8 m (header_descr dd + HDR_baInterfaceNr + 0)%nat = Ok b0 ->
  load8 m (header_descr dd + HDR_baInterfaceNr + 1)%nat = Ok b1 ->
  load8 m (set_iface + IF_bInterfaceNumber)%nat = Ok a ->
  (a <> b0 -> a <> b1 -> audio_dc_interface m dd set_iface = Ok dd) /\
  (forall alt addr : Z,
     a = b0 \/ a = b1 ->
     load8 m (set_iface + IF_bAlternateSetting)%nat = Ok alt ->
     load8 m (selected_ep_desc set_iface alt + EP_bEndpointAddress)%nat = Ok addr ->
     audio_dc_interface m dd set_iface =
     Ok (if decide (Z.land addr 0x80 <> 0)
         then set_tx_enable dd (bool_decide (alt <> 0))
         else set_rx_enable dd (bool_decide (alt <> 0)))).
Proof.
  intros Hinc Hb0 Hb1 Ha.
  assert (iface_listed m (header_descr dd) set_iface 0 (Z.to_nat 2) =
          Ok (bool_decide (a = b0 \/ a = b1))) as Hlisted.
  { change (Z.to_nat 2) with 2%nat. cbn [iface_listed].
    rewrite Ha, Hb0. cbn [bind].
    destruct (decide (a = b0)) as [->|Hne0].
    { by rewrite bool_decide_eq_true_2 by (by left). }
    rewrite Hb1. cbn [bind].
    destruct (decide (a = b1)) as [->|Hne1].
    { by rewrite bool_decide_eq_true_2 by (by right). }
    by rewrite bool_decide_eq_false_2 by tauto. }
  unfold audio_dc_interface. rewrite Hinc. cbn [bind]. rewrite Hlisted. cbn [bind].
  split.
  - intros Hne0 Hne1. by rewrite bool_decide_eq_false_2 by tauto.
  - intros alt addr Hin Halt Haddr. rewrite bool_decide_eq_true_2 by done.
    rewrite Halt. cbn [bind]. unfold selected_ep_desc in Haddr. rewrite Haddr.
    cbn [bind]. by destruct (decide (Z.land addr 128 <> 0)).
Qed.

(** X20. On the descriptors of [DEFINE_AUDIO_DESCRIPTOR_BIDIR], numbered
    from [N]: a notification for alternate setting [alt] (0 or 1) of the
    streaming interface [N + 1 + k] ([k] = 0: the microphone half,
    [k] = 1: the headphones half) finds the endpoint descriptor of that
    half, whichever of the two alternate-setting descriptors was selected,
    and sets [tx_enable] (endpoint address with bit 7) or [rx_enable]
    (without) to [alt <> 0], leaving the other flag; a notification for the
    audio control interface [N] changes nothing. *)
Theorem declared_bidir_alt_settings (c : instance_cfg) (hp_resolution hp_ep_addr : Z)
    (first_id N : Z) (rest : list Z) (dd : usb_audio_dev_data_t) (k alt : nat) :
  (CH_CNT c <= 12)%nat ->
  header_descr dd = USB_PASSIVE_IF_DESC_SIZE ->
  (k < 2)%nat -> (alt < 2)%nat ->
  let m := configured_descriptor_bidir c hp_resolution hp_ep_addr first_id N ++ rest in
  let set_iface := (61 + 2 * Z.to_nat (feature_unit_size c) + 52 * k + 9 * alt)%nat in
  let addr := if decide (k = 0%nat) then EP_ADDR c else hp_ep_addr in
  load8 m (set_iface + IF_bInterfaceNumber)%nat = Ok (N + 1 + Z.of_nat k) /\
  load8 m (set_iface + IF_bAlternateSetting)%nat = Ok (Z.of_nat alt) /\
  audio_dc_interface m dd set_iface =
    Ok (if decide (Z.land addr 0x80 <> 0)
        then set_tx_enable dd (bool_decide (alt <> 0%nat))
        else set_rx_enable dd (bool_decide (alt <> 0%nat))) /\
  audio_dc_interface m dd 0 = Ok dd.
Proof.
  intros Hch Hhdr Hk Halt m set_iface addr.
  pose proof (feature_unit_size_nat c) as Hfs.
  set (pre := INIT_STD_IF AUDIOCONTROL N 0 0 ++ cs_ac_if_header c [N + 1; N + 2] 2 ++
              INIT_IN_TERMINAL c first_id IO_HEADSET).
  set (fA := FILLED_FEATURE_UNIT c (first_id + 1) first_id).
  set (mid := INIT_OUT_TERMINAL (first_id + 2) (first_id + 1) USB_STREAMING ++
              INIT_IN_TERMINAL c (first_id + 3) USB_STREAMING).
  set (fB := FILLED_FEATURE_UNIT c (first_id + 4) (first_id + 3)).
  set (tl := INIT_OUT_TERMINAL (first_id + 5) (first_id + 4) IO_HEADSET ++
             INIT_STD_IF AUDIOSTREAMING (N + 1) 0 0 ++
             INIT_STD_IF AUDIOSTREAMING (N + 1) 1 1 ++
             INIT_AS_GENERAL (first_id + 2) ++ INIT_AS_FORMAT_I c (RESOLUTION c) ++
             INIT_STD_AS_AD_EP (EP_ADDR c) AUDIO_EP_SIZE ++ INIT_CS_AS_AD_EP ++
             INIT_STD_IF AUDIOSTREAMING (N + 2) 0 0 ++
             INIT_STD_IF AUDIOSTREAMING (N + 2) 1 1 ++
             INIT_AS_GENERAL (first_id + 3) ++ INIT_AS_FORMAT_I c hp_resolution ++
             INIT_STD_AS_AD_EP hp_ep_addr AUDIO_EP_SIZE ++ INIT_CS_AS_AD_EP ++ rest).
  assert (m = pre ++ (fA ++ mid ++ fB) ++ tl) as Hm.
  { subst m pre fA mid fB tl. unfold configured_descriptor_bidir.
    by rewrite <- !app_assoc. }
  assert (length (fA ++ mid ++ fB) = (21 + 2 * Z.to_nat (feature_unit_size c))%nat)
    as Hbl.
  { rewrite !length_app. subst fA fB. rewrite !length_FILLED_FEATURE_UNIT.
    simpl. lia. }
  assert (forall (x : nat) (v : Z), pre !! x = Some v -> load8 m x = Ok v) as Hpre.
  { intros x v Hx. rewrite Hm. by apply load8_app_l. }
  assert (forall (x : nat) (v : Z),
            tl !! x = Some v ->
            load8 m (52 + 2 * Z.to_nat (feature_unit_size c) + x) = Ok v) as Htl.
  { intros x v Hx. rewrite Hm. apply load8_Ok.
    assert (length pre = 31%nat) as Hpl by reflexivity.
    rewrite lookup_app_r by lia. rewrite lookup_app_r by lia.
    rewrite <- Hx. f_equal. lia. }
  assert (header_descr dd + HDR_bInCollection = 16)%nat as E16 by (by rewrite Hhdr).
  assert (header_descr dd + HDR_baInterfaceNr + 0 = 17)%nat as E17 by (by rewrite Hhdr).
  assert (header_descr dd + HDR_baInterfaceNr + 1 = 18)%nat as E18 by (by rewrite Hhdr).
  assert (load8 m 16 = Ok 2) as H16 by (by apply Hpre).
  assert (load8 m 17 = Ok (N + 1)) as H17 by (by apply Hpre).
  assert (load8 m 18 = Ok (N + 2)) as H18 by (by apply Hpre).
  rewrite <- E16 in H16. rewrite <- E17 in H17. rewrite <- E18 in H18.
  assert (load8 m (0 + IF_bInterfaceNumber) = Ok N) as H2 by (by apply Hpre).
  destruct (audio_dc_interface_two m dd 0 (N + 1) (N + 2) N H16 H17 H18 H2)
    as [Hac _].
  assert (forall x : nat,
            (set_iface + x)%nat =
            (52 + 2 * Z.to_nat (feature_unit_size c) +
             (9 + 52 * k + 9 * alt + x))%nat) as Hoff by (intros; subst set_iface; lia).
  assert (load8 m (set_iface + IF_bInterfaceNumber)%nat = Ok (N + 1 + Z.of_nat k)) as Hnum.
  { rewrite Hoff. apply Htl.
    destruct k as [|[|k]], alt as [|[|alt]]; try lia; simpl; f_equal; lia. }
  assert (load8 m (set_iface + IF_bAlternateSetting)%nat = Ok (Z.of_nat alt)) as Hal.
  { rewrite Hoff. apply Htl.
    destruct k as [|[|k]], alt as [|[|alt]]; try lia; reflexivity. }
  assert (load8 m (selected_ep_desc set_iface (Z.of_nat alt) + EP_bEndpointAddress)%nat =
          Ok addr) as Hep.
  { unfold selected_ep_desc, USB_PASSIVE_IF_DESC_SIZE, USB_AC_CS_IF_DESC_SIZE,
      USB_FORMAT_TYPE_I_DESC_SIZE, EP_bEndpointAddress.
    subst addr.
    destruct k as [|[|k]], alt as [|[|alt]]; try lia; cbn [Z.of_nat];
      [rewrite decide_True by done | rewrite decide_False by done
      |rewrite decide_True by done | rewrite decide_False by done];
      (lazymatch goal with
       | |- load8 m ?a = _ =>
           first
             [ replace a with (52 + 2 * Z.to_nat (feature_unit_size c) + 47)%nat
                 by (subst set_iface; lia)
             | replace a with (52 + 2 * Z.to_nat (feature_unit_size c) + 99)%nat
                 by (subst set_iface; lia) ]
       end); apply Htl; reflexivity. }
  split; [done|]. split; [done|]. split.
  - destruct (audio_dc_interface_two m dd set_iface (N + 1) (N + 2)
                (N + 1 + Z.of_nat k) H16 H17 H18 Hnum) as [_ Hset].
    rewrite (Hset (Z.of_nat alt) addr) by (done || lia).
    assert (bool_decide (Z.of_nat alt <> 0) = bool_decide (alt <> 0%nat)) as ->
      by (apply bool_decide_ext; lia).
    done.
  - apply Hac; lia.
Qed.

Lemma declared_bidir_alt_settings_witness :
  let m := configured_descriptor_bidir hs_cfg 16 0x02 1 0 ++ [0] in
  load8 m (96 + IF_bInterfaceNumber)%nat = Ok 1 /\
  load8 m (96 + IF_bAlternateSetting)%nat = Ok 1 /\
  audio_dc_interface m (driver_data hs_device) 96 =
    Ok (set_tx_enable (driver_data hs_device) true) /\
  audio_dc_interface m (driver_data hs_device) 0 = Ok (driver_data hs_device).
Proof.
  apply (declared_bidir_alt_settings hs_cfg 16 0x02 1 0 [0] (driver_data hs_device)
           0 1).
  - vm_compute. lia.
  - reflexivity.
  - lia.
  - lia.
Defined.

(** ** SET_CUR with too short a payload *)

Lemma foldM_app {A B} (f : A -> B -> result A) (l1 l2 : list B) :
  forall a : A, foldM f a (l1 ++ l2) = bind (foldM f a l1) (fun a' => foldM f a' l2).
Proof.
  induction l1 as [|b l1 IH]; intros a; [done|].
  cbn [app]. rewrite !foldM_cons. destruct (f a b) as [a'|e]; [|done].
  cbn [bind]. apply IH.
Qed.

(** X21. The handler never compares the length of the request's data
    with the number of channels it is about to set: a SET_CUR on
    MUTE_CONTROL that passes both checks and brings fewer bytes than its
    range has channels reads past the end of the payload. *)
Theorem set_cur_short_payload (m : mem) (payload : list Z) (st : fu_state)
    (p : usb_setup_packet) (len : Z)
    (device : Z) (fu : nat) (dir : direction) (ctl nch : Z)
    (tbl : list controls) (o : audio_ops) :
  get_feature_unit m (dev_data st) (req_fu_id p) = Ok (device, fu) ->
  get_fu_dir m fu = Ok dir ->
  get_controls m fu = Ok ctl ->
  get_num_of_channels m fu = Ok nch ->
  req_control_selector p = MUTE_CONTROL ->
  bRequest p = SET_CUR ->
  selector_available MUTE_CONTROL ctl ->
  (req_ch_num p = 0xFF \/ req_ch_num p < nch) ->
  ops (dev_data st) = Some o ->
  dev_controls (dev_data st) !! Z.to_nat device = Some (Some tbl) ->
  (Z.to_nat nch <= length tbl)%nat ->
  let n := Z.to_nat (if decide (req_ch_num p = 0xFF) then nch else 1) in
  (length payload < n)%nat ->
  handle_feature_unit_req m payload st p len ReqBuf = Fault PayloadOutOfBounds.
Proof.
  intros Hfu Hdir Hctl Hnch Hcs Hset Hsel Hch Hops Hslot Htbl n Hpay.
  pose proof (get_num_of_channels_range _ _ _ Hnch) as Hnr.
  pose proof (req_ch_num_range p) as Hcr.
  assert (0 <= req_ch_start p) as Hs0
    by (unfold req_ch_start; case_decide; lia).
  assert (Z.to_nat (req_ch_start p) + n <= length tbl)%nat as Hfit.
  { subst n. unfold req_ch_start. destruct (decide (req_ch_num p = 255)); lia. }
  assert (n < 256)%nat as Hn8 by (subst n; destruct (decide (req_ch_num p = 255)); lia).
  rewrite (handle_fu_req_checks m payload st p len ReqBuf device fu dir ctl nch)
    by done.
  unfold selector_available in Hsel. rewrite Hcs.
  rewrite decide_False by done. rewrite decide_False by lia.
  rewrite req_range_length.
  replace (if decide (req_ch_num p = 255) then nch else 1) with (Z.of_nat n)
    by (subst n; destruct (decide (req_ch_num p = 255)); lia).
  set (k := length payload) in *.
  replace (Z.of_nat n) with (Z.of_nat k + Z.of_nat (n - k)) by lia.
  rewrite seqZ_app by lia. rewrite foldM_app.
  destruct st as [d tmp tr]. cbn [dev_data tmp_data_ptr trace] in *.
  rewrite <- (Z2Nat.id (req_ch_start p)) at 1 by done.
  pose proof (set_cur_loop device dir p payload o tmp k Hset d tbl
                (Z.to_nat (req_ch_start p)) 0 tr (- EINVAL) Hops Hslot
                ltac:(lia) ltac:(lia) ltac:(lia)) as Hloop.
  cbn zeta in Hloop. change (Z.of_nat 0) with 0 in Hloop.
  rewrite Hloop. cbn [bind].
  rewrite seqZ_cons by lia. rewrite foldM_cons, fu_req_body_set_cur by done.
  cbn [loop_state data_offset read_data]. rewrite Nat2Z.id.
  rewrite (lookup_ge_None_2 payload (0 + k)) by (subst k; lia).
  done.
Qed.

Lemma set_cur_short_payload_witness :
  handle_feature_unit_req hp_desc [1] hp_state hp_set_mute_all 1 ReqBuf =
  Fault PayloadOutOfBounds.
Proof.
  apply (set_cur_short_payload hp_desc [1] hp_state hp_set_mute_all 1
           0 30%nat OUT 3 3 (replicate 3 zero_controls) sample_ops);
    try reflexivity.
  - vm_compute. discriminate.
  - left. reflexivity.
  - vm_compute. lia.
Defined.
